(** * isa-backend: the spreadsheet extraction engine of [teachers/utils.py]

    A shallow embedding of the name normaliser, the sheet-key resolver, the
    two value coercers, the worksheet validator and the grid extractor,
    followed by the properties the specification states about them.

    Conventions of the embedding.
    - A Python [str] is a [list ascii]; a character is its code point, and
      the 8-bit range is read as U+0000..U+00FF.  The character classes
      ([str.isspace], the regex classes [\s], [\w], [\d], [str.lower]) are
      the ones CPython uses on that range.
    - A Python value of unknown type ([Any]) is a [pyval].
    - A call that may raise returns a [res]: [Raise e] or [Return v].
    - A [float] is represented by the exact rational it was read from; the
      interpreter rounds that rational to the nearest binary64 value, so
      two equal representations denote the same float. *)

From Stdlib Require Import List Ascii String Bool Arith NArith ZArith QArith Lia.
Import ListNotations.
Close Scope Q_scope.

(* ------------------------------------------------------------------ *)
(** * Characters and text *)
(* ------------------------------------------------------------------ *)

Definition text := list ascii.

Definition lit (s : string) : text := list_ascii_of_string s.

Definition code (c : ascii) : N := N_of_ascii c.

Definition between (lo hi : N) (c : ascii) : bool :=
  ((lo <=? code c) && (code c <=? hi))%N.

Definition is_code (n : N) (c : ascii) : bool := (code c =? n)%N.

(** [Py_UNICODE_ISSPACE]: used by [str.strip()], [str.isspace()] and by the
    regex class [\s] on [str] patterns. *)
Definition py_isspace (c : ascii) : bool :=
  between 9 13 c || between 28 32 c || is_code 133 c || is_code 160 c.

(** [Py_ISSPACE] of the C locale, used inside [float()] on ASCII text. *)
Definition c_isspace (c : ascii) : bool :=
  between 9 13 c || is_code 32 c.

(** Decimal digits (category Nd): the regex class [\d]. *)
Definition is_digit (c : ascii) : bool := between 48 57 c.

(** [Py_UNICODE_ISALNUM]: alphabetic, decimal, digit or numeric. *)
Definition py_isalnum (c : ascii) : bool :=
  between 48 57 c || between 65 90 c || between 97 122 c
  || is_code 170 c || is_code 178 c || is_code 179 c || is_code 181 c
  || is_code 185 c || is_code 186 c || between 188 190 c
  || between 192 214 c || between 216 246 c || between 248 255 c.

(** The regex class [\w]. *)
Definition is_word (c : ascii) : bool := py_isalnum c || is_code 95 c.

Definition is_upper (c : ascii) : bool :=
  between 65 90 c || between 192 214 c || between 216 222 c.

Definition lower_char (c : ascii) : ascii :=
  if is_upper c then ascii_of_N (code c + 32) else c.

(** [str.lower()]. *)
Definition py_lower (s : text) : text := map lower_char s.

(** [str.upper()].  U+00DF becomes "SS"; the upper-case forms of U+00B5 and
    U+00FF lie outside the 8-bit range and those two are left as they are. *)
Definition upper_char (c : ascii) : text :=
  if between 97 122 c || between 224 246 c || between 248 254 c
  then [ascii_of_N (code c - 32)]
  else if is_code 223 c then lit "SS" else [c].

Definition py_upper (s : text) : text := flat_map upper_char s.

Fixpoint drop_while (p : ascii -> bool) (s : text) : text :=
  match s with
  | [] => []
  | c :: t => if p c then drop_while p t else s
  end.

Definition lstrip_by (p : ascii -> bool) (s : text) : text := drop_while p s.
Definition rstrip_by (p : ascii -> bool) (s : text) : text :=
  rev (drop_while p (rev s)).

(** [str.strip()] with no argument. *)
Definition py_strip (s : text) : text :=
  rstrip_by py_isspace (lstrip_by py_isspace s).

(** [str.rstrip(chars)] for a one-character [chars]. *)
Definition py_rstrip_char (x : ascii) (s : text) : text :=
  rstrip_by (Ascii.eqb x) s.

(** [str.replace(a, b)] for one-character [a] and [b]. *)
Definition py_replace_char (a b : ascii) (s : text) : text :=
  map (fun c => if Ascii.eqb c a then b else c) s.

Definition text_eqb (a b : text) : bool :=
  if list_eq_dec ascii_dec a b then true else false.

(* ------------------------------------------------------------------ *)
(** * NameNormalizer: [preprocess_name] *)
(* ------------------------------------------------------------------ *)

(** The two patterns of [titles_to_remove] have the shape
    [\b(t1|t2|...)\b] followed, for the first one, by [\.?]. *)
Record title_pattern := {
  alts : list text;
  opt_dot : bool
}.

Definition titles_to_remove : list title_pattern :=
  [ {| alts := map lit ["lic"; "dr"; "ing"; "arq"; "ms"; "msc"; "sr"; "sra"; "srta"]%string;
       opt_dot := true |};
    {| alts := map lit ["licenciado"; "doctor"; "ingeniero"; "maestro"]%string;
       opt_dot := false |} ].

Definition is_word_opt (c : option ascii) : bool :=
  match c with Some x => is_word x | None => false end.

(** [\b] between the character before a position and the one at it. *)
Definition word_boundary (before after : option ascii) : bool :=
  xorb (is_word_opt before) (is_word_opt after).

(** A literal of the pattern against the subject under [re.IGNORECASE]:
    the pattern letters are lower-case. *)
Fixpoint match_literal (tok s : text) : option (ascii * text) :=
  match tok, s with
  | p :: tok', c :: rest =>
      if Ascii.eqb (lower_char c) p then
        match tok' with
        | [] => Some (c, rest)
        | _ :: _ => match_literal tok' rest
        end
      else None
  | _, _ => None
  end.

(** The alternation, tried left to right; an alternative is kept once the
    [\b] after it holds, and [\.?] then takes a dot if there is one.
    The result is the number of characters matched. *)
Fixpoint match_alts (toks : list text) (dot : bool) (s : text) : option nat :=
  match toks with
  | [] => None
  | tok :: toks' =>
      match match_literal tok s with
      | Some (last, rest) =>
          if word_boundary (Some last) (hd_error rest)
          then Some (List.length tok +
                     match rest with
                     | c :: _ => if dot && is_code 46 c then 1 else 0
                     | [] => 0
                     end)
          else match_alts toks' dot s
      | None => match_alts toks' dot s
      end
  end.

(** The whole pattern at the head of [s], [prev] being the character just
    before it in the subject. *)
Definition match_title (p : title_pattern) (prev : option ascii) (s : text)
  : option nat :=
  if word_boundary prev (hd_error s) then match_alts (alts p) (opt_dot p) s
  else None.

(** [re.sub(pattern, '', s)]: scan left to right; a match is dropped and
    the scan resumes after it, otherwise the character is copied.  [skip]
    counts the characters of the current match still to drop. *)
Fixpoint sub_scan (p : title_pattern) (prev : option ascii) (skip : nat)
    (s : text) : text :=
  match s with
  | [] => []
  | c :: t =>
      match skip with
      | S k => sub_scan p (Some c) k t
      | O =>
          match match_title p prev s with
          | Some (S k) => sub_scan p (Some c) k t
          | _ => c :: sub_scan p (Some c) 0 t
          end
      end
  end.

Definition re_sub_title (p : title_pattern) (s : text) : text :=
  sub_scan p None 0 s.

(** [re.sub(r'\s+', ' ', s)]. *)
Fixpoint collapse_scan (in_run : bool) (s : text) : text :=
  match s with
  | [] => []
  | c :: t =>
      if py_isspace c
      then if in_run then collapse_scan true t
           else " "%char :: collapse_scan true t
      else c :: collapse_scan false t
  end.

Definition re_sub_spaces (s : text) : text := collapse_scan false s.

(** Values of unknown type. *)
Record date := { year : Z; month : Z; day : Z }.
Record clock := { hour : Z; minute : Z; second : Z; microsecond : Z }.

Inductive pyfloat :=
| FNearest (q : Q)      (* the binary64 value nearest to [q] *)
| FInf (negative : bool)
| FNan.


Inductive pyval :=
| PNone
| PBool (b : bool)
| PInt (n : Z)
| PFloat (f : pyfloat)
| PStr (s : text)
| PDate (d : date)
| PDatetime (d : date) (t : clock)
| PObject (description : string).   (* any other object: list, bytes, ... *)

Definition preprocess_name (name : pyval) : text :=
  match name with
  | PStr s =>
      let processed_name := py_lower s in
      let processed_name :=
        fold_left (fun acc pat => py_strip (re_sub_title pat acc))
                  titles_to_remove processed_name in
      py_strip (re_sub_spaces processed_name)
  | _ => []
  end.

(* ------------------------------------------------------------------ *)
(** * Exceptions and results *)
(* ------------------------------------------------------------------ *)

(** The exception classes the module names, the two base classes, and a
    representative of every other class derived from [Exception]
    ([OtherError]) or only from [BaseException] ([KeyboardInterrupt],
    [SystemExit]). *)
Inductive exn_class :=
| BaseException | KeyboardInterrupt | SystemExit
| Exception
| ValueError | TypeError | OverflowError | RuntimeError
| ImportError | ModuleNotFoundError
| FileNotFoundError | AuthenticationError | SpreadsheetNotFound
| OtherError (name : string).

Definition base_class (c : exn_class) : option exn_class :=
  match c with
  | BaseException => None
  | KeyboardInterrupt | SystemExit | Exception => Some BaseException
  | ModuleNotFoundError => Some ImportError
  | _ => Some Exception
  end.

Definition exn_class_eqb (a b : exn_class) : bool :=
  match a, b with
  | BaseException, BaseException | KeyboardInterrupt, KeyboardInterrupt
  | SystemExit, SystemExit | Exception, Exception
  | ValueError, ValueError | TypeError, TypeError
  | OverflowError, OverflowError | RuntimeError, RuntimeError
  | ImportError, ImportError | ModuleNotFoundError, ModuleNotFoundError
  | FileNotFoundError, FileNotFoundError
  | AuthenticationError, AuthenticationError
  | SpreadsheetNotFound, SpreadsheetNotFound => true
  | OtherError x, OtherError y => String.eqb x y
  | _, _ => false
  end.

Fixpoint subclass_upto (fuel : nat) (c k : exn_class) : bool :=
  exn_class_eqb c k ||
  match fuel, base_class c with
  | S n, Some b => subclass_upto n b k
  | _, _ => false
  end.

(** [issubclass(c, k)]; the hierarchy above is three levels deep. *)
Definition issubclass (c k : exn_class) : bool := subclass_upto 3 c k.

(** An exception object: its class, its message and, for
    [raise ... from e], the exception it was raised from. *)
Inductive exn :=
| Exn (cls : exn_class) (message : text)
| ExnFrom (cls : exn_class) (message : text) (cause : exn).

Definition exn_cls (e : exn) : exn_class :=
  match e with Exn c _ | ExnFrom c _ _ => c end.
Definition exn_message (e : exn) : text :=
  match e with Exn _ m | ExnFrom _ m _ => m end.
Definition exn_cause (e : exn) : option exn :=
  match e with Exn _ _ => None | ExnFrom _ _ c => Some c end.

Definition isinstance_exn (e : exn) (k : exn_class) : bool :=
  issubclass (exn_cls e) k.

Inductive res (A : Type) :=
| Raise (e : exn)
| Return (a : A).
Arguments Raise {A} e.
Arguments Return {A} a.

Definition res_bind {A B} (r : res A) (k : A -> res B) : res B :=
  match r with
  | Raise e => Raise e
  | Return a => k a
  end.

(** [try: body  except (k1, k2, ...) : handler]. *)
Definition try_except {A} (body : res A) (classes : list exn_class)
    (handler : exn -> res A) : res A :=
  match body with
  | Raise e => if existsb (isinstance_exn e) classes then handler e else Raise e
  | Return a => Return a
  end.

(* ------------------------------------------------------------------ *)
(** * ValueCoercers: [float()], [parse_percentage], [strptime], [parse_date] *)
(* ------------------------------------------------------------------ *)

Definition digit_val (c : ascii) : Z := Z.of_N (code c) - 48.

Fixpoint span_digits (s : text) : text * text :=
  match s with
  | c :: t =>
      if is_digit c then let (ds, r) := span_digits t in (c :: ds, r)
      else ([], s)
  | [] => ([], [])
  end.

Definition digits_to_Z (ds : text) : Z :=
  fold_left (fun acc c => 10 * acc + digit_val c)%Z ds 0%Z.

Definition is_nil {A} (l : list A) : bool :=
  match l with [] => true | _ => false end.

Definition pow10 (e : Z) : Q :=
  if (0 <=? e)%Z then inject_Z (10 ^ e) else (1 # Z.to_pos (10 ^ (- e)))%Q.

(** The float a decimal numeral [+-m * 10^e] denotes. *)
Definition decimal (negative : bool) (m e : Z) : pyfloat :=
  FNearest (Qred (inject_Z (if negative then - m else m) * pow10 e)).

(** [float(n)] for an [int]: the conversion overflows when [n] rounds to
    2^1024 or beyond. *)
Definition float_of_int (n : Z) : res pyfloat :=
  if (2 ^ 1024 - 2 ^ 970 <=? Z.abs n)%Z
  then Raise (Exn OverflowError (lit "int too large to convert to float"))
  else Return (FNearest (inject_Z n)).

Definition parse_sign (s : text) : bool * text :=
  match s with
  | c :: t => if is_code 45 c then (true, t)
              else if is_code 43 c then (false, t) else (false, s)
  | [] => (false, s)
  end.

(** [Py_TOLOWER]: ASCII only. *)
Definition c_tolower (c : ascii) : ascii :=
  if between 65 90 c then ascii_of_N (code c + 32) else c.

Definition c_lower_eqb (s : text) (t : string) : bool :=
  text_eqb (map c_tolower s) (lit t).

(** [_Py_parse_inf_or_nan], on the whole remaining text. *)
Definition parse_inf_or_nan (s : text) : option pyfloat :=
  let (negative, r) := parse_sign s in
  if c_lower_eqb r "inf" || c_lower_eqb r "infinity" then Some (FInf negative)
  else if c_lower_eqb r "nan" then Some FNan
  else None.

(** The numeral grammar of [float()], underscores already removed:
    [sign] digits [. digits] [(e|E) [sign] digits], with a digit in the
    mantissa, or else an infinity or a NaN; all of the text is used. *)
Definition parse_float_literal (s : text) : option pyfloat :=
  let (negative, s1) := parse_sign s in
  let (ip, s2) := span_digits s1 in
  let (fp, s3) :=
    match s2 with
    | c :: t => if is_code 46 c then span_digits t else ([], s2)
    | [] => ([], s2)
    end in
  if is_nil ip && is_nil fp then parse_inf_or_nan s
  else
    let m := digits_to_Z (ip ++ fp) in
    let scale := (- Z.of_nat (List.length fp))%Z in
    match s3 with
    | [] => Some (decimal negative m scale)
    | c :: s4 =>
        if is_code 101 c || is_code 69 c then
          let (eneg, s5) := parse_sign s4 in
          let (ed, s6) := span_digits s5 in
          if is_nil ed || negb (is_nil s6) then None
          else
            let ex := digits_to_Z ed in
            Some (decimal negative m (scale + if eneg then - ex else ex))
        else None
    end.

(** [_Py_string_to_number_with_underscores]: an underscore is allowed only
    between two digits. *)
Fixpoint underscores_ok (prev : ascii) (s : text) : bool :=
  match s with
  | [] => negb (is_code 95 prev)
  | c :: t =>
      (if is_code 95 c then is_digit prev
       else negb (is_code 95 prev && negb (is_digit c)))
      && underscores_ok c t
  end.

(** [_PyUnicode_TransformDecimalAndSpaceToASCII] on a text that is not
    pure ASCII: whitespace becomes a space, and the copy stops with a [?]
    at the first other character that is not a decimal digit. *)
Fixpoint transform_decimal_and_space (s : text) : text :=
  match s with
  | [] => []
  | c :: t =>
      if (code c <? 127)%N then c :: transform_decimal_and_space t
      else if py_isspace c then " "%char :: transform_decimal_and_space t
      else ["?"%char]
  end.

Definition is_ascii_text (s : text) : bool :=
  forallb (fun c => (code c <? 128)%N) s.

(** [float(s)] for a [str]. *)
Definition float_of_str (s : text) : res pyfloat :=
  let a := if is_ascii_text s then s else transform_decimal_and_space s in
  let t := rstrip_by c_isspace (lstrip_by c_isspace a) in
  let parsed :=
    if negb (existsb (is_code 95) t) then parse_float_literal t
    else if underscores_ok "000"%char t
         then parse_float_literal (filter (fun c => negb (is_code 95 c)) t)
         else None in
  match parsed with
  | Some f => Return f
  | None =>
      Raise (Exn ValueError (lit "could not convert string to float: " ++ s))
  end.

(** [value.replace(',', '.').strip().rstrip('%').strip()]. *)
Definition clean_percentage (s : text) : text :=
  py_strip (py_rstrip_char "%" (py_strip (py_replace_char "," "." s))).

Definition parse_percentage (value : pyval) : res (option pyfloat) :=
  match value with
  | PBool b => res_bind (float_of_int (if b then 1 else 0)%Z) (fun f => Return (Some f))
  | PInt n => res_bind (float_of_int n) (fun f => Return (Some f))
  | PFloat f => Return (Some f)
  | PStr s =>
      try_except
        (let cleaned_value := clean_percentage s in
         if is_nil cleaned_value then Return None
         else res_bind (float_of_str cleaned_value) (fun f => Return (Some f)))
        [ValueError; TypeError]
        (fun _ => Return None)
  | _ => Return None
  end.

(** The alternatives of the [%d] directive,
    [3[0-1]|[1-2]\d|0[1-9]|[1-9]| [1-9]], in order, each with the text
    left after it. *)
Definition day_candidates (s : text) : list (Z * text) :=
  (match s with
   | a :: b :: t =>
       (if is_code 51 a && between 48 49 b then [(30 + digit_val b, t)] else [])
       ++ (if between 49 50 a && is_digit b
           then [(10 * digit_val a + digit_val b, t)] else [])
       ++ (if is_code 48 a && between 49 57 b then [(digit_val b, t)] else [])
   | _ => []
   end
   ++ match s with
      | a :: t => if between 49 57 a then [(digit_val a, t)] else []
      | [] => []
      end
   ++ match s with
      | a :: b :: t =>
          if is_code 32 a && between 49 57 b then [(digit_val b, t)] else []
      | _ => []
      end)%Z.

(** The alternatives of [%m], [1[0-2]|0[1-9]|[1-9]]. *)
Definition month_candidates (s : text) : list (Z * text) :=
  (match s with
   | a :: b :: t =>
       (if is_code 49 a && between 48 50 b then [(10 + digit_val b, t)] else [])
       ++ (if is_code 48 a && between 49 57 b then [(digit_val b, t)] else [])
   | _ => []
   end
   ++ match s with
      | a :: t => if between 49 57 a then [(digit_val a, t)] else []
      | [] => []
      end)%Z.

Fixpoint first_some {A B} (f : A -> option B) (l : list A) : option B :=
  match l with
  | [] => None
  | a :: t => match f a with Some b => Some b | None => first_some f t end
  end.

(** The compiled format [%d/%m/%y] matched at the start of the text, with
    backtracking over the alternatives: day, month, two-digit year and the
    text left over. *)
Definition match_dmy (s : text) : option (Z * Z * Z * text) :=
  first_some
    (fun dr : Z * text =>
       let (d, r1) := dr in
       match r1 with
       | sl :: r2 =>
           if is_code 47 sl then
             first_some
               (fun mr : Z * text =>
                  let (m, r3) := mr in
                  match r3 with
                  | sl2 :: y1 :: y2 :: r4 =>
                      if is_code 47 sl2 && is_digit y1 && is_digit y2
                      then Some (d, m, (10 * digit_val y1 + digit_val y2)%Z, r4)
                      else None
                  | _ => None
                  end)
               (month_candidates r2)
           else None
       | [] => None
       end)
    (day_candidates s).

Definition is_leap (y : Z) : bool :=
  ((y mod 4 =? 0) && (negb (y mod 100 =? 0) || (y mod 400 =? 0)))%Z.

Definition days_in_month (y m : Z) : Z :=
  (if m =? 2 then (if is_leap y then 29 else 28)
   else if (m =? 4) || (m =? 6) || (m =? 9) || (m =? 11) then 30 else 31)%Z.

(** [datetime.strptime(s, '%d/%m/%y').date()]. *)
Definition strptime_dmy (s : text) : res date :=
  match match_dmy s with
  | None =>
      Raise (Exn ValueError (lit "time data does not match format"))
  | Some (d, m, y, rest) =>
      if negb (is_nil rest)
      then Raise (Exn ValueError (lit "unconverted data remains"))
      else
        let y := (if y <=? 68 then y + 2000 else y + 1900)%Z in
        if (d <=? days_in_month y m)%Z
        then Return {| year := y; month := m; day := d |}
        else Raise (Exn ValueError (lit "day is out of range for month"))
  end.

(** [isinstance(value, date)]: [datetime] is a subclass of [date]. *)
Definition isinstance_date (v : pyval) : bool :=
  match v with PDate _ | PDatetime _ _ => true | _ => false end.

Definition parse_date (value : pyval) : res (option pyval) :=
  if isinstance_date value then Return (Some value)
  else
    match value with
    | PStr s =>
        let cleaned_value := py_strip s in
        if is_nil cleaned_value then Return None
        else
          try_except
            (res_bind (strptime_dmy cleaned_value) (fun d => Return (Some (PDate d))))
            [ValueError; TypeError]
            (fun _ => Return None)
    | _ => Return None
    end.

(* ------------------------------------------------------------------ *)
(** * SheetKeyResolver: [extract_sheet_key_from_url] *)
(* ------------------------------------------------------------------ *)

Fixpoint strip_prefix (pre s : text) : option text :=
  match pre, s with
  | [], _ => Some s
  | p :: pre', c :: s' => if Ascii.eqb p c then strip_prefix pre' s' else None
  | _ :: _, [] => None
  end.

Fixpoint take_while (f : ascii -> bool) (s : text) : text :=
  match s with
  | c :: t => if f c then c :: take_while f t else []
  | [] => []
  end.

(** The class [[a-zA-Z0-9-_]]. *)
Definition is_key_char (c : ascii) : bool :=
  between 97 122 c || between 65 90 c || between 48 57 c
  || is_code 45 c || is_code 95 c.

(** [re.search(r'/spreadsheets/d/([a-zA-Z0-9-_]+)', url)] and its group 1:
    the leftmost position where the literal is followed by a key
    character, and the longest run of key characters there. *)
Fixpoint extract_sheet_key_from_url (url : text) : option text :=
  let here :=
    match strip_prefix (lit "/spreadsheets/d/") url with
    | Some r => let k := take_while is_key_char r in
                if is_nil k then None else Some k
    | None => None
    end in
  match here, url with
  | Some k, _ => Some k
  | None, _ :: t => extract_sheet_key_from_url t
  | None, [] => None
  end.

(* ------------------------------------------------------------------ *)
(** * The spreadsheet client *)
(* ------------------------------------------------------------------ *)

(** The grid [get_as_df] returns with [numerize=False] and
    [empty_value='']: rows of text cells. *)
Definition row := list text.
Definition grid := list row.

(** A worksheet handle: its title, what a read of one cell gives, and what
    the fetch of the window A3:R358 gives. *)
Record worksheet := {
  wks_title : text;
  get_value : text -> res pyval;
  get_as_df : res grid
}.

Record spreadsheet := {
  sh_title : text;
  sh_worksheets : res (list worksheet)
}.

Record client := {
  open_by_key : text -> res spreadsheet
}.

(* ------------------------------------------------------------------ *)
(** * GridExtractor: [extract_worksheet_data] *)
(* ------------------------------------------------------------------ *)

Record period_progress_record := {
  pp_grade_level : text;
  pp_periodo : Z;
  pp_paralelo : text;
  pp_progress_percentage : pyfloat
}.

Record topic_completion_record := {
  tc_grade_level : text;
  tc_periodo : Z;
  tc_paralelo : text;
  tc_tema_number : text;
  tc_tema_title : text;
  tc_completion_date : pyval
}.

Record results := {
  period_progress : list period_progress_record;
  topic_completion : list topic_completion_record
}.

(** [paralelo_indices], in insertion order: columns O, P, Q, R. *)
Definition paralelo_indices : list (text * nat) :=
  [(lit "A", 14); (lit "B", 15); (lit "C", 16); (lit "D", 17)].

(** [sys.int_max_str_digits], default value: [int(s)] refuses a numeral
    with more digits. *)
Definition int_max_str_digits : nat := 4300.

Definition py_int (ds : text) : res Z :=
  if int_max_str_digits <? List.length ds
  then Raise (Exn ValueError (lit "Exceeds the limit for integer string conversion"))
  else Return (digits_to_Z ds).

(** The pattern [(\d+)(?:ER|DO|ER|TO|TO|TO) PERIODO] at the head of [s]:
    the digits captured.  [\d+] takes the whole run of digits; giving some
    back cannot help, since a digit would then have to start the suffix. *)
Definition match_period_at (s : text) : option text :=
  let (ds, r) := span_digits s in
  if is_nil ds then None
  else
    first_some
      (fun suffix =>
         match strip_prefix (lit suffix) r with
         | Some r' =>
             match strip_prefix (lit " PERIODO") r' with
             | Some _ => Some ds
             | None => None
             end
         | None => None
         end)
      ["ER"; "DO"; "ER"; "TO"; "TO"; "TO"]%string.

(** [re.search] of that pattern: the leftmost match. *)
Fixpoint search_period (s : text) : option text :=
  match match_period_at s, s with
  | Some ds, _ => Some ds
  | None, _ :: t => search_period t
  | None, [] => None
  end.

(** [str(row_values[i]).strip()...  if len(row_values) > i else '']. *)
Definition cell_or_empty (f : text -> text) (r : row) (i : nat) : text :=
  match nth_error r i with
  | Some c => f c
  | None => []
  end.

(** Group 1 of [period_match] for a row, when the row is a period header. *)
Definition period_match (r : row) : option text :=
  let cell_a := cell_or_empty (fun c => py_upper (py_strip c)) r 0 in
  let cell_g := cell_or_empty (fun c => py_upper (py_strip c)) r 6 in
  search_period (cell_a ++ cell_g).

(** The state carried from row to row: [current_periodo] and
    [expect_period_progress_next]. *)
Record scan_state := {
  current_periodo : Z;
  expect_period_progress_next : bool
}.

Definition initial_state : scan_state :=
  {| current_periodo := 0; expect_period_progress_next := false |}.

(** The inner loop of a progress row. *)
Fixpoint progress_records (grade_level : text) (periodo : Z) (r : row)
    (cols : list (text * nat)) : res (list period_progress_record) :=
  match cols with
  | [] => Return []
  | (paralelo, col_idx) :: cols' =>
      res_bind
        (match nth_error r col_idx with
         | Some cell =>
             res_bind (parse_percentage (PStr cell)) (fun progress_val =>
               match progress_val with
               | Some v =>
                   if (0 <? periodo)%Z
                   then Return [ {| pp_grade_level := grade_level;
                                    pp_periodo := periodo;
                                    pp_paralelo := paralelo;
                                    pp_progress_percentage := v |} ]
                   else Return []
               | None => Return []
               end)
         | None => Return []
         end)
        (fun here =>
           res_bind (progress_records grade_level periodo r cols')
                    (fun more => Return (here ++ more)))
  end.

(** The inner loop of a topic row. *)
Fixpoint topic_records (grade_level : text) (periodo : Z)
    (tema_number tema_title : text) (r : row)
    (cols : list (text * nat)) : res (list topic_completion_record) :=
  match cols with
  | [] => Return []
  | (paralelo, col_idx) :: cols' =>
      res_bind
        (match nth_error r col_idx with
         | Some cell =>
             res_bind (parse_date (PStr cell)) (fun completion_date =>
               match completion_date with
               | Some d =>
                   Return [ {| tc_grade_level := grade_level;
                               tc_periodo := periodo;
                               tc_paralelo := paralelo;
                               tc_tema_number := tema_number;
                               tc_tema_title := tema_title;
                               tc_completion_date := d |} ]
               | None => Return []
               end)
         | None => Return []
         end)
        (fun here =>
           res_bind (topic_records grade_level periodo tema_number tema_title r cols')
                    (fun more => Return (here ++ more)))
  end.

(** One iteration of the loop over the rows: the next state and the
    records this row appends to the two lists. *)
Definition row_step (grade_level : text) (st : scan_state) (r : row)
  : res (scan_state * list period_progress_record * list topic_completion_record) :=
  match period_match r with
  | Some ds =>
      res_bind (py_int ds) (fun n =>
        Return ({| current_periodo := n; expect_period_progress_next := true |},
                [], []))
  | None =>
      if expect_period_progress_next st then
        res_bind (progress_records grade_level (current_periodo st) r paralelo_indices)
          (fun pp =>
             Return ({| current_periodo := current_periodo st;
                        expect_period_progress_next := false |}, pp, []))
      else
        let tema_title_raw := cell_or_empty py_strip r 4 in
        if negb (is_nil tema_title_raw) && (0 <? current_periodo st)%Z then
          let tema_number_raw := cell_or_empty py_strip r 3 in
          res_bind (topic_records grade_level (current_periodo st)
                      tema_number_raw tema_title_raw r paralelo_indices)
            (fun tc => Return (st, [], tc))
        else
          Return ({| current_periodo := current_periodo st;
                     expect_period_progress_next := false |}, [], [])
  end.

(** The loop [for index, row in df.iterrows()]. *)
Fixpoint scan_rows (grade_level : text) (st : scan_state) (rows : grid)
    (acc : results) : res results :=
  match rows with
  | [] => Return acc
  | r :: rows' =>
      res_bind (row_step grade_level st r) (fun out =>
        let '(st', pp, tc) := out in
        scan_rows grade_level st' rows'
          {| period_progress := period_progress acc ++ pp;
             topic_completion := topic_completion acc ++ tc |})
  end.

Definition empty_results : results :=
  {| period_progress := []; topic_completion := [] |}.

Definition extract_worksheet_data (ws : worksheet) : res results :=
  let grade_level := wks_title ws in
  match get_as_df ws with
  | Raise e =>
      (* except Exception as e: print(...); return results *)
      if isinstance_exn e Exception then Return empty_results else Raise e
  | Return df => scan_rows grade_level initial_state df empty_results
  end.

(* ------------------------------------------------------------------ *)
(** * WorksheetValidator: [find_valid_teacher_worksheets] *)
(* ------------------------------------------------------------------ *)

(** The calls made to the spreadsheet service and to the fuzzy matcher,
    in the order they are made. *)
Inductive call :=
| CallAuthorize (service_file : text)
| CallOpenByKey (key : text)
| CallWorksheets
| CallGetValue (worksheet_title cell : text)
| CallTokenSetRatio (a b : text).

(** A computation that talks to the outside: the calls it made and how it
    ended. *)
Definition io (A : Type) : Type := list call * res A.

Definition io_ret {A} (a : A) : io A := ([], Return a).
Definition io_raise {A} (e : exn) : io A := ([], Raise e).
Definition io_call {A} (c : call) (outcome : res A) : io A := ([c], outcome).

Definition io_bind {A B} (m : io A) (k : A -> io B) : io B :=
  match m with
  | (calls, Raise e) => (calls, Raise e)
  | (calls, Return a) => let (calls', r) := k a in (calls ++ calls', r)
  end.

Notation "x <- m ;; k" := (io_bind m (fun x => k))
  (at level 61, m at next level, right associativity).

(** [spreadsheet_title.strip().split('_', 1)[0].strip()]. *)
Definition title_name_part (title : text) : text :=
  py_strip (take_while (fun c => negb (is_code 95 c)) (py_strip title)).

Section Validator.

(** [pygsheets.authorize(service_file=...)] and [fuzz.token_set_ratio],
    both of libraries outside the repository. *)
Variable authorize : text -> res client.
Variable token_set_ratio : text -> text -> res Z.

(** Each [except] clause of [get_pygsheets_client] re-raises. *)
Definition get_pygsheets_client (service_file_path : text) : io client :=
  io_call (CallAuthorize service_file_path) (authorize service_file_path).

(** The body of [for wks in sh.worksheets()]. *)
Fixpoint check_worksheets (header_cell expected_header_value teacher_name_cell : text)
    (similarity_threshold : Z) (clean_name_title : text)
    (wkss : list worksheet) (valid_titles : list text) : io (list text) :=
  match wkss with
  | [] => io_ret valid_titles
  | wks :: rest =>
      let continue := check_worksheets header_cell expected_header_value
                        teacher_name_cell similarity_threshold clean_name_title rest in
      header_cell_value_raw <-
        io_call (CallGetValue (wks_title wks) header_cell) (get_value wks header_cell) ;;
      match header_cell_value_raw with
      | PStr h =>
          if negb (text_eqb (py_upper (py_strip h)) (py_upper expected_header_value))
          then continue valid_titles
          else
            name_in_cell_raw <-
              io_call (CallGetValue (wks_title wks) teacher_name_cell)
                      (get_value wks teacher_name_cell) ;;
            match name_in_cell_raw with
            | PStr n =>
                if is_nil (py_strip n) then continue valid_titles
                else
                  let clean_name_cell := preprocess_name name_in_cell_raw in
                  if is_nil clean_name_title || is_nil clean_name_cell
                  then continue valid_titles
                  else
                    similarity_score <-
                      io_call (CallTokenSetRatio clean_name_cell clean_name_title)
                              (token_set_ratio clean_name_cell clean_name_title) ;;
                    if (similarity_threshold <=? similarity_score)%Z
                    then continue (valid_titles ++ [wks_title wks])
                    else continue valid_titles
            | _ => continue valid_titles
            end
      | _ => continue valid_titles
      end
  end.

(** The [try] block: list the worksheets and check them one by one. *)
Definition worksheets_pass (header_cell expected_header_value teacher_name_cell : text)
    (similarity_threshold : Z) (sh : spreadsheet) : io (list text) :=
  let clean_name_title := preprocess_name (PStr (title_name_part (sh_title sh))) in
  wkss <- io_call CallWorksheets (sh_worksheets sh) ;;
  check_worksheets header_cell expected_header_value teacher_name_cell
    similarity_threshold clean_name_title wkss [].

(** The two [except] clauses of that block: [except ImportError: raise],
    then [except Exception as e: raise RuntimeError(...) from e]. *)
Definition wrap_worksheet_errors {A} (sheet_key : text) (body : io A) : io A :=
  match body with
  | (calls, Raise e) =>
      if isinstance_exn e ImportError then (calls, Raise e)
      else if isinstance_exn e Exception
      then (calls,
            Raise (ExnFrom RuntimeError
                     (lit "Error processing worksheets in sheet " ++ sheet_key) e))
      else (calls, Raise e)
  | (calls, Return a) => (calls, Return a)
  end.

Definition find_valid_teacher_worksheets (sheet_url service_file_path : text)
    (header_cell expected_header_value teacher_name_cell : text)
    (similarity_threshold : Z) : io (list text) :=
  match extract_sheet_key_from_url sheet_url with
  | Some ((_ :: _) as sheet_key) =>
      gc <- get_pygsheets_client service_file_path ;;
      sh <- io_call (CallOpenByKey sheet_key) (open_by_key gc sheet_key) ;;
      wrap_worksheet_errors sheet_key
        (worksheets_pass header_cell expected_header_value teacher_name_cell
           similarity_threshold sh)
  | _ =>
      io_raise (Exn ValueError
                  (lit "Could not extract valid sheet key from URL: " ++ sheet_url))
  end.

End Validator.

(* ------------------------------------------------------------------ *)
(** * Vocabulary of the properties *)
(* ------------------------------------------------------------------ *)

(** ** Words of a text *)

Definition nonword_head (s : text) : bool :=
  match s with [] => true | c :: _ => negb (is_word c) end.

Definition all_word (w : text) : bool := forallb is_word w.

(** The maximal runs of [\w] characters, left to right. *)
Fixpoint words (s : text) : list text :=
  match s with
  | [] => []
  | c :: t =>
      if is_word c then
        match words t with
        | w :: ws => if nonword_head t then [c] :: w :: ws else (c :: w) :: ws
        | [] => [[c]]
        end
      else words t
  end.

(** [tok] (lower-case) is one of the words of [s], letter case ignored. *)
Definition standalone_word (tok : text) (s : text) : bool :=
  existsb (fun w => text_eqb (py_lower w) tok) (words s).

(** Two or more whitespace characters in a row. *)
Fixpoint space_run (s : text) : bool :=
  match s with
  | a :: (b :: _) as t => (py_isspace a && py_isspace b) || space_run t
  | _ => false
  end.

Definition good_token (tok : text) : bool :=
  match tok with [] => false | _ => all_word tok end.

Definition good_pattern (p : title_pattern) : bool := forallb good_token (alts p).

Definition mem_ci (w : text) (toks : list text) : bool :=
  existsb (fun tok => text_eqb (py_lower w) tok) toks.

Definition dot_after (dot : bool) (rest : text) : nat :=
  match rest with
  | c :: _ => if dot && is_code 46 c then 1 else 0
  | [] => 0
  end.

Definition drop_dot (dot : bool) (rest : text) : text :=
  match rest with
  | c :: t => if dot && is_code 46 c then t else rest
  | [] => []
  end.

(** Every whitespace character is a single space between two others. *)
Fixpoint tidy (in_run : bool) (s : text) : bool :=
  match s with
  | [] => true
  | c :: t =>
      if py_isspace c
      then negb in_run && Ascii.eqb c " " && tidy true t
      else tidy false t
  end.

Definition lowered (c : ascii) : Prop := lower_char c = c.

(** The honorific tokens the specification lists for the normaliser. *)
Definition honorifics : list text :=
  map lit ["lic"; "dr"; "ing"; "sr"; "sra"; "srta";
           "licenciado"; "doctor"; "ingeniero"; "maestro"]%string.

Definition is_str (v : pyval) : bool :=
  match v with PStr _ => true | _ => false end.

(** ** Rows, traces and examples *)

(** What each row did, for stating properties row by row: the state the
    row was met in, the row, and the records it appended. *)
Record row_event := {
  ev_state : scan_state;
  ev_row : row;
  ev_progress : list period_progress_record;
  ev_topics : list topic_completion_record
}.

Fixpoint scan_trace (grade_level : text) (st : scan_state) (rows : grid)
  : res (list row_event) :=
  match rows with
  | [] => Return []
  | r :: rows' =>
      res_bind (row_step grade_level st r) (fun out =>
        let '(st', pp, tc) := out in
        res_bind (scan_trace grade_level st' rows') (fun evs =>
          Return ({| ev_state := st; ev_row := r;
                     ev_progress := pp; ev_topics := tc |} :: evs)))
  end.

(** The number of the most recent period header among [rows], or 0 when
    there is none: the period context in the words of the specification. *)
Definition last_header_period (rows : grid) : Z :=
  match first_some period_match (rev rows) with
  | Some ds => digits_to_Z ds
  | None => 0%Z
  end.

(** A row of the 18 columns A..R with the given cells and [''] elsewhere. *)
Definition row_of (cells : list (nat * string)) : row :=
  map (fun i =>
         match find (fun c => Nat.eqb (fst c) i) cells with
         | Some c => lit (snd c)
         | None => []
         end)
      (seq 0 18).

(** A row that is no period header. *)
Definition headerless_row (r : row) : bool :=
  match period_match r with Some _ => false | None => true end.

(** Column [i] of [r] holds the text [s]. *)
Definition cell_is (r : row) (i : nat) (s : string) : bool :=
  match nth_error r i with
  | Some c => text_eqb c (lit s)
  | None => false
  end.

(** Column [i] of [r] is missing, or does not read as a percentage. *)
Definition no_percentage_at (r : row) (i : nat) : bool :=
  match nth_error r i with
  | Some c => match parse_percentage (PStr c) with
              | Return None => true
              | _ => false
              end
  | None => true
  end.

(** Column [i] of [r] is missing, or does not read as a date. *)
Definition no_date_at (r : row) (i : nat) : bool :=
  match nth_error r i with
  | Some c => match parse_date (PStr c) with
              | Return None => true
              | _ => false
              end
  | None => true
  end.

(** A row that is no period header and gives no topic: nothing in column
    E, or no date in the columns O to R.  A spacer or description row. *)
Definition spacer_row (r : row) : bool :=
  headerless_row r
  && (is_nil (cell_or_empty py_strip r 4)
      || forallb (fun pc => no_date_at r (snd pc)) paralelo_indices).

(** The three rows of the specification's example, by the cells it names:
    a row with "1ER PERIODO" in column A; a row with "90%" in column O and
    "85%" in column P; a row with "Fracciones" in column E, "3" in column
    D and "6/3/25" in column O. *)
Definition period_1_header (r : row) : bool := cell_is r 0 "1ER PERIODO".

Definition percentages_row (r : row) : bool :=
  cell_is r 14 "90%" && cell_is r 15 "85%".

Definition fracciones_row (r : row) : bool :=
  cell_is r 4 "Fracciones" && cell_is r 3 "3" && cell_is r 14 "6/3/25".

(** [df] holds the rows [h], [p] and [t] in this order. *)
Definition in_order (h p t : row) (df : grid) : Prop :=
  exists a b c d, df = a ++ h :: b ++ p :: c ++ t :: d.

(** The grid of the specification's example: a period header, the row
    with the percentages, a blank row and a topic row. *)
Definition example_header : row := row_of [(0, "1ER PERIODO")]%string.
Definition example_progress : row := row_of [(14, "90%"); (15, "85%")]%string.
Definition example_topic : row :=
  row_of [(4, "Fracciones"); (3, "3"); (14, "6/3/25")]%string.

Definition example_results (grade_level : text) : results :=
  {| period_progress :=
       [ {| pp_grade_level := grade_level; pp_periodo := 1;
            pp_paralelo := lit "A";
            pp_progress_percentage := decimal false 900 (-1) |};
         {| pp_grade_level := grade_level; pp_periodo := 1;
            pp_paralelo := lit "B";
            pp_progress_percentage := decimal false 850 (-1) |} ];
     topic_completion :=
       [ {| tc_grade_level := grade_level; tc_periodo := 1;
            tc_paralelo := lit "A";
            tc_tema_number := lit "3"; tc_tema_title := lit "Fracciones";
            tc_completion_date :=
              PDate {| year := 2025; month := 3; day := 6 |} |} ] |}.

Definition example_worksheet : worksheet :=
  {| wks_title := lit "5to";
     get_value := fun _ => Return (PStr []);
     get_as_df :=
       Return [example_header; example_progress; row_of []; example_topic] |}.


Definition is_some {A} (o : option A) : bool :=
  match o with Some _ => true | None => false end.

(** The row just above is a period header: [above] holds the rows before
    the current one. *)
Definition follows_header (above : grid) : bool :=
  match rev above with
  | r :: _ => is_some (period_match r)
  | [] => false
  end.

Definition example_grid : grid :=
  [example_header; example_progress; row_of []; example_topic].

(** The rows of the example with a blank row between the header and the
    row with the percentages. *)
Definition displaced_grid : grid :=
  [example_header; row_of []; example_progress; example_topic].

Definition displaced_worksheet : worksheet :=
  {| wks_title := lit "5to";
     get_value := fun _ => Return (PStr []);
     get_as_df := Return displaced_grid |}.

(** The rows of the example with one more cell or row: a third
    percentage in column Q of the progress row; a second dated topic row;
    the header of period 2 above the topic row. *)
Definition three_sections_grid : grid :=
  [example_header; row_of [(14, "90%"); (15, "85%"); (16, "70%")]%string;
   example_topic].

Definition two_topics_grid : grid :=
  [example_header; example_progress;
   row_of [(4, "Decimales"); (14, "7/3/25")]%string; example_topic].

Definition second_header_grid : grid :=
  [example_header; example_progress; row_of [(0, "2DO PERIODO")]%string;
   example_topic].

Definition worksheet_of (df : grid) : worksheet :=
  {| wks_title := lit "5to";
     get_value := fun _ => Return (PStr []);
     get_as_df := Return df |}.

(** The example on rows of 16 columns, A to P, with a note in column B of
    the header row, descriptions above the header and a dated remark whose
    column E is blank at the end. *)
Definition narrow_row (cells : list (nat * string)) : row := firstn 16 (row_of cells).

Definition narrow_worksheet : worksheet :=
  {| wks_title := lit "6to";
     get_value := fun _ => Return (PStr []);
     get_as_df :=
       Return [ narrow_row [(0, "PLAN ANUAL"); (4, "Unidad")]%string;
                narrow_row [(0, "1ER PERIODO"); (1, "febrero - marzo")]%string;
                narrow_row [(14, "90%"); (15, "85%")]%string;
                narrow_row [(4, "Objetivos"); (14, "pendiente")]%string;
                narrow_row [(4, "Fracciones"); (3, "3"); (14, "6/3/25")]%string;
                narrow_row [(0, "revisado"); (14, "7/3/25")]%string ] |}.

(** [result] is made of the records of the rows of [df], row after row,
    and [P i ev] holds of the event [ev] of every row [i]. *)
Definition each_row (grade_level : text) (df : grid) (result : results)
    (P : nat -> row_event -> Prop) : Prop :=
  exists evs,
    scan_trace grade_level initial_state df = Return evs
    /\ period_progress result = flat_map ev_progress evs
    /\ topic_completion result = flat_map ev_topics evs
    /\ List.length evs = List.length df
    /\ forall i ev, nth_error evs i = Some ev ->
         nth_error df i = Some (ev_row ev) /\ P i ev.

(** A spreadsheet whose second worksheet cannot be read, and one whose
    matcher is missing, for the examples. *)
Definition example_client (second_read : res pyval) : client :=
  {| open_by_key := fun _ =>
       Return {| sh_title := lit "Maria Lopez_2025";
                 sh_worksheets :=
                   Return [ {| wks_title := lit "5to";
                               get_value := fun cell =>
                                 if text_eqb cell (lit "E3")
                                 then Return (PStr (lit " docente "))
                                 else Return (PStr (lit "Lic. Maria Lopez"));
                               get_as_df := Return example_grid |};
                            {| wks_title := lit "6to";
                               get_value := fun _ => second_read;
                               get_as_df := Return [] |} ] |} |}.

Definition example_url : text :=
  lit "https://docs.google.com/spreadsheets/d/ABC123-xyz/edit".

(** The two patterns, by name. *)
Definition pattern1 : title_pattern := nth 0 titles_to_remove {| alts := []; opt_dot := false |}.
Definition pattern2 : title_pattern := nth 1 titles_to_remove {| alts := []; opt_dot := false |}.

(** The normaliser on a string, step by step. *)
Definition strip_titles (p : title_pattern) (s : text) : text :=
  py_strip (re_sub_title p s).


(** The last character of [s] is [c]. *)
Definition ends_with (c : ascii) (s : text) : bool :=
  match rev s with
  | x :: _ => Ascii.eqb x c
  | [] => false
  end.

(* ------------------------------------------------------------------ *)
(** * Further vocabulary *)
(* ------------------------------------------------------------------ *)

(** ** Sheet keys *)

Definition key_marker : text := lit "/spreadsheets/d/".

(** The pattern of [extract_sheet_key_from_url] matched at the head of
    [s]: the marker and the longest non-empty run of key characters. *)
Definition key_at (s : text) : option text :=
  match strip_prefix key_marker s with
  | Some r => let k := take_while is_key_char r in
              if is_nil k then None else Some k
  | None => None
  end.

(** [s] starts with a key character. *)
Definition key_head (s : text) : bool :=
  match s with c :: _ => is_key_char c | [] => false end.

(** No slash of [s] is directly followed by the letter s. *)
Fixpoint slash_s_free (s : text) : bool :=
  match s with
  | a :: (b :: _) as t => negb (is_code 47 a && is_code 115 b) && slash_s_free t
  | _ => true
  end.

(** ** Calendar dates *)

(** A date of the proleptic calendar in the years a two-digit year of
    [%y] can denote. *)
Definition valid_date (d : date) : bool :=
  ((1969 <=? year d) && (year d <=? 2068)
   && (1 <=? month d) && (month d <=? 12)
   && (1 <=? day d) && (day d <=? days_in_month (year d) (month d)))%Z.

Definition digit_char (n : Z) : ascii := ascii_of_N (Z.to_N n + 48).

Definition two_digits (n : Z) : text :=
  [digit_char (n / 10); digit_char (n mod 10)].

(** A number below 100 written with or without a leading zero. *)
Definition day_month_text (padded : bool) (n : Z) : text :=
  if padded || (10 <=? n)%Z then two_digits n else [digit_char n].

(** A date written day/month/two-digit year, as [strftime('%d/%m/%y')]
    writes it ([padded]) or without leading zeros. *)
Definition format_dmy (pad_day pad_month : bool) (d : date) : text :=
  day_month_text pad_day (day d) ++ "/"%char
  :: day_month_text pad_month (month d) ++ "/"%char
  :: two_digits (year d mod 100).

(** The round trip of one date through [format_dmy] and [parse_date],
    in the four ways of padding; dates that do not exist pass. *)
Definition round_trip_ok (y m d : Z) : bool :=
  let dt := {| year := y; month := m; day := d |} in
  negb (valid_date dt)
  || forallb (fun pads : bool * bool =>
                match parse_date (PStr (format_dmy (fst pads) (snd pads) dt)) with
                | Return (Some (PDate r)) =>
                    (year r =? y)%Z && (month r =? m)%Z && (day r =? d)%Z
                | _ => false
                end)
       [(false, false); (false, true); (true, false); (true, true)].

(** ** Names *)

(** The characters of a plain decimal numeral: a digit or the dot. *)
Definition numeral_char (c : ascii) : bool := is_digit c || is_code 46 c.

(** [w] is one of the titles the normaliser removes, letter case ignored. *)
Definition is_title (w : text) : bool :=
  mem_ci w (alts pattern1) || mem_ci w (alts pattern2).

(** A name in normal form: lower-case, without leading or trailing
    whitespace, with single spaces as its only whitespace, and with no
    title among its words. *)
Definition normal_name (s : text) : bool :=
  forallb (fun c => Ascii.eqb (lower_char c) c) s
  && tidy false s
  && text_eqb (py_strip s) s
  && forallb (fun w => negb (is_title w)) (words s).

(** ** The validator *)

(** The two tests of the loop of [find_valid_teacher_worksheets] on one
    worksheet: the header cell reads the expected header, trimmed and
    letter case ignored; the name cell holds a string that is not blank,
    its normal form and the one of the title are not empty, and the
    matcher scores them at the threshold or above. *)
Definition worksheet_accepted (token_set_ratio : text -> text -> res Z)
    (header_cell expected_header_value teacher_name_cell : text)
    (similarity_threshold : Z) (clean_name_title : text) (wks : worksheet) : bool :=
  match get_value wks header_cell with
  | Return (PStr h) =>
      text_eqb (py_upper (py_strip h)) (py_upper expected_header_value)
      && match get_value wks teacher_name_cell with
         | Return (PStr n) =>
             negb (is_nil (py_strip n))
             && negb (is_nil clean_name_title)
             && negb (is_nil (preprocess_name (PStr n)))
             && match token_set_ratio (preprocess_name (PStr n)) clean_name_title with
                | Return score => (similarity_threshold <=? score)%Z
                | Raise _ => false
                end
         | _ => false
         end
  | _ => false
  end.

(** A call to the matcher with two non-empty names in normal form, or any
    other call. *)
Definition sound_call (c : call) : bool :=
  match c with
  | CallTokenSetRatio a b =>
      negb (is_nil a) && negb (is_nil b) && normal_name a && normal_name b
  | _ => true
  end.

Definition is_ratio_call (c : call) : bool :=
  match c with CallTokenSetRatio _ _ => true | _ => false end.

(** ** The extractor, row by row *)

(** The period-progress record of one section column of a row, when the
    cell is there and reads as a percentage. *)
Definition cell_progress (grade_level : text) (periodo : Z) (r : row)
    (pc : text * nat) : list period_progress_record :=
  match nth_error r (snd pc) with
  | Some cell =>
      match parse_percentage (PStr cell) with
      | Return (Some v) =>
          [ {| pp_grade_level := grade_level; pp_periodo := periodo;
               pp_paralelo := fst pc; pp_progress_percentage := v |} ]
      | _ => []
      end
  | None => []
  end.

(** The topic-completion record of one section column of a row, when the
    cell is there and reads as a date. *)
Definition cell_topic (grade_level : text) (periodo : Z)
    (tema_number tema_title : text) (r : row)
    (pc : text * nat) : list topic_completion_record :=
  match nth_error r (snd pc) with
  | Some cell =>
      match parse_date (PStr cell) with
      | Return (Some d) =>
          [ {| tc_grade_level := grade_level; tc_periodo := periodo;
               tc_paralelo := fst pc; tc_tema_number := tema_number;
               tc_tema_title := tema_title; tc_completion_date := d |} ]
      | _ => []
      end
  | None => []
  end.

(** What a row that is no period header emits, from the state it is met
    in: the percentages of columns O to R when a progress row is expected
    and a period is known; otherwise the dates of columns O to R when
    column E holds a title and a period is known. *)
Definition progress_of_row (grade_level : text) (st : scan_state) (r : row)
  : list period_progress_record :=
  if expect_period_progress_next st && (0 <? current_periodo st)%Z
  then flat_map (cell_progress grade_level (current_periodo st) r) paralelo_indices
  else [].

Definition topics_of_row (grade_level : text) (st : scan_state) (r : row)
  : list topic_completion_record :=
  if negb (expect_period_progress_next st)
     && negb (is_nil (cell_or_empty py_strip r 4))
     && (0 <? current_periodo st)%Z
  then flat_map (cell_topic grade_level (current_periodo st)
                   (cell_or_empty py_strip r 3) (cell_or_empty py_strip r 4) r)
         paralelo_indices
  else [].

(** The numeral of a period header is short enough for [int()]. *)
Definition header_fits (r : row) : bool :=
  match period_match r with
  | Some ds => List.length ds <=? int_max_str_digits
  | None => true
  end.

Definition paralelos : list text := [lit "A"; lit "B"; lit "C"; lit "D"].

(** A worksheet whose grid has no period header. *)
Definition headerless_worksheet : worksheet :=
  {| wks_title := lit "5to";
     get_value := fun _ => Return (PStr []);
     get_as_df := Return [example_progress; example_topic] |}.

(** A worksheet with the first two rows of the example grid. *)
Definition shorter_worksheet : worksheet :=
  {| wks_title := lit "5to";
     get_value := fun _ => Return (PStr []);
     get_as_df := Return [example_header; example_progress] |}.

(* ------------------------------------------------------------------ *)
(** * UpdateOrchestrator: the command [update_progress_data] *)
(* ------------------------------------------------------------------ *)

(** What [timezone.now()] returns. *)
Definition datetime : Type := (date * clock)%type.

(** ** Model instances

    The rows of the tables the command reads, with the fields of the
    model classes of [teachers/models.py] and [academics/models.py]; a
    foreign key is held by the key of the row it points to. *)

Record Teacher := {
  teacher_id : Z;
  full_name : text;
  email : option text;
  google_sheet_url : text;
  teacher_is_active : bool;
  created_at : datetime;
  updated_at : datetime
}.

Record AcademicYear := {
  academic_year_id : Z;
  ay_year : Z;
  ay_start_date : date;
  ay_end_date : date;
  ay_is_active : bool
}.

Record Periodo := {
  periodo_id : Z;
  periodo_trimestre_id : Z;
  periodo_number : Z;
  periodo_name : text;
  periodo_start_date : option date;
  periodo_end_date : option date
}.

Record GradeLevel := {
  grade_code : text;
  grade_name : text;
  grade_stage : text;
  grade_order : Z
}.

Record Paralelo := {
  paralelo_code : text;
  paralelo_name : text
}.

(** ** The requests of the command to the database

    One constructor for each call the command makes on a model manager,
    with the arguments of the call. *)
Inductive query :=
| ActiveAcademicYear
    (* AcademicYear.objects.get(is_active=True) *)
| ActiveTeachers
    (* the evaluation of Teacher.objects.filter(is_active=True) *)
| GetGradeLevel (code_ : text)
    (* GradeLevel.objects.get(code=...) *)
| GetPeriodo (academic_year : AcademicYear) (number : Z)
    (* Periodo.objects.get(trimestre__academic_year=..., number=...) *)
| GetParalelo (code_ : text)
    (* Paralelo.objects.get(code=...) *)
| UpdateOrCreateProgress (teacher : Teacher) (academic_year : AcademicYear)
    (grade_level : GradeLevel) (periodo : Periodo) (paralelo : Paralelo)
    (progress_percentage : pyfloat) (last_updated : datetime)
    (* PeriodProgress.objects.update_or_create(..., defaults={...}) *)
| UpdateOrCreateTopic (teacher : Teacher) (academic_year : AcademicYear)
    (grade_level : GradeLevel) (periodo : Periodo) (paralelo : Paralelo)
    (tema_number tema_title : text) (completion_date : pyval)
    (last_updated : datetime).
    (* TopicCompletion.objects.update_or_create(..., defaults={...}) *)

(** What a request returns when it does not raise; the pair that
    [update_or_create] returns is not used. *)
Definition answer (q : query) : Type :=
  match q with
  | ActiveAcademicYear => AcademicYear
  | ActiveTeachers => list Teacher
  | GetGradeLevel _ => GradeLevel
  | GetPeriodo _ _ => Periodo
  | GetParalelo _ => Paralelo
  | UpdateOrCreateProgress _ _ _ _ _ _ _ => unit
  | UpdateOrCreateTopic _ _ _ _ _ _ _ _ _ => unit
  end.

(** The exception classes of the models that the command names; each
    derives from [Exception]. *)
Definition AcademicYear_DoesNotExist : exn_class :=
  OtherError "AcademicYear.DoesNotExist".
Definition AcademicYear_MultipleObjectsReturned : exn_class :=
  OtherError "AcademicYear.MultipleObjectsReturned".
Definition GradeLevel_DoesNotExist : exn_class := OtherError "GradeLevel.DoesNotExist".
Definition Periodo_DoesNotExist : exn_class := OtherError "Periodo.DoesNotExist".
Definition Paralelo_DoesNotExist : exn_class := OtherError "Paralelo.DoesNotExist".

(** ** What the command reports

    The messages written to [self.stdout] and [self.stderr], by their
    template and the values put into it. *)
Inductive message :=
| Starting
| NoActiveYear
| MultipleActiveYears
| ProcessingTeacher (full_name_ : text)
| NoValidWorksheets (full_name_ : text)
| ProcessingWorksheet (title : text)
| LookupErrorProgress (record : period_progress_record) (lookup_e : exn)
| DbErrorProgress (record : period_progress_record) (db_e : exn)
| LookupErrorTopic (record : topic_completion_record) (lookup_e : exn)
| DbErrorTopic (record : topic_completion_record) (db_e : exn)
| FailedWorksheet (title full_name_ : text) (e : exn)
| FailedTeacher (full_name_ : text) (e : exn)
| Finished.

(** ** The trace of a run

    What the command does to the outside, in order: the calls of the
    utility functions to the sheet service and the matcher, its own calls
    to the sheet service, its requests to the database with what came
    back, and its reports. *)
Inductive event :=
| Sheets (c : call)
| OpenByKeyNone                    (* gc.open_by_key(None) *)
| WorksheetByTitle (title : text)  (* sh.worksheet_by_title(title) *)
| Query (q : query) (outcome : res (answer q))
| Stdout (m : message)
| Stderr (m : message).

Section Command.

(** The state of what lies outside the process and changes during a run:
    the database and the clock. *)
Variable world : Type.

(** The database: a request is answered from the state it meets, and
    leaves a state. *)
Variable database : forall q : query, world -> world * res (answer q).

Variable timezone_now : world -> datetime.

(** The sheet service and the matcher, as the utility functions see them,
    and the two calls on the client that only the command makes. *)
Variable authorize : text -> res client.
Variable token_set_ratio : text -> text -> res Z.
Variable open_by_key_none : client -> res spreadsheet.
Variable worksheet_by_title : spreadsheet -> text -> res worksheet.

(** [settings.SERVICE_ACCOUNT_FILE]. *)
Variable SERVICE_ACCOUNT_FILE : text.

(** A step of the command: from a state of the outside, the state it
    leaves, the events it caused and how it ended.  Writing to the console
    is taken not to fail. *)
Definition cmd (A : Type) : Type := world -> world * list event * res A.

Definition cmd_ret {A} (a : A) : cmd A := fun w => (w, [], Return a).

Definition cmd_bind {A B} (m : cmd A) (k : A -> cmd B) : cmd B :=
  fun w =>
    match m w with
    | (w1, evs, Raise e) => (w1, evs, Raise e)
    | (w1, evs, Return a) =>
        match k a w1 with
        | (w2, evs', r) => (w2, evs ++ evs', r)
        end
    end.

(** The [except] clauses of a [try], in order: the first whose classes
    the exception is an instance of handles it. *)
Fixpoint select_handler {A} (clauses : list (list exn_class * (exn -> cmd A)))
    (e : exn) : option (cmd A) :=
  match clauses with
  | [] => None
  | (classes, handler) :: rest =>
      if existsb (isinstance_exn e) classes then Some (handler e)
      else select_handler rest e
  end.

Definition cmd_try {A} (body : cmd A)
    (clauses : list (list exn_class * (exn -> cmd A))) : cmd A :=
  fun w =>
    match body w with
    | (w1, evs, Raise e) =>
        match select_handler clauses e with
        | Some handler =>
            match handler w1 with
            | (w2, evs', r) => (w2, evs ++ evs', r)
            end
        | None => (w1, evs, Raise e)
        end
    | (w1, evs, Return a) => (w1, evs, Return a)
    end.

(** [for a in l: body(a)]. *)
Fixpoint for_each {A} (l : list A) (body : A -> cmd unit) : cmd unit :=
  match l with
  | [] => cmd_ret tt
  | a :: rest => cmd_bind (body a) (fun _ => for_each rest body)
  end.

Definition stdout_write (m : message) : cmd unit :=
  fun w => (w, [Stdout m], Return tt).
Definition stderr_write (m : message) : cmd unit :=
  fun w => (w, [Stderr m], Return tt).

Definition execute (q : query) : cmd (answer q) :=
  fun w => let (w1, outcome) := database q w in (w1, [Query q outcome], outcome).

(** A utility function that talks to the sheet service. *)
Definition sheets {A} (m : io A) : cmd A :=
  fun w => (w, map Sheets (fst m), snd m).

(** A computation that talks to nobody. *)
Definition pure {A} (r : res A) : cmd A := fun w => (w, [], r).

Definition now : cmd datetime := fun w => (w, [], Return (timezone_now w)).

(** [gc.open_by_key(extract_sheet_key_from_url(url))]. *)
Definition open_sheet (gc : client) (key : option text) : cmd spreadsheet :=
  match key with
  | Some k => sheets (io_call (CallOpenByKey k) (open_by_key gc k))
  | None => fun w => (w, [OpenByKeyNone], open_by_key_none gc)
  end.

Definition get_worksheet (sh : spreadsheet) (title : text) : cmd worksheet :=
  fun w => (w, [WorksheetByTitle title], worksheet_by_title sh title).

(** The body of [for record in extracted_data.get('period_progress', [])]. *)
Definition save_period_progress (teacher : Teacher)
    (current_academic_year : AcademicYear) (now_ : datetime)
    (record : period_progress_record) : cmd unit :=
  cmd_try
    (cmd_bind (execute (GetGradeLevel (pp_grade_level record))) (fun grade_level_obj =>
     cmd_bind (execute (GetPeriodo current_academic_year (pp_periodo record)))
       (fun periodo_obj =>
     cmd_bind (execute (GetParalelo (pp_paralelo record))) (fun paralelo_obj =>
     execute (UpdateOrCreateProgress teacher current_academic_year grade_level_obj
                periodo_obj paralelo_obj (pp_progress_percentage record) now_)))))
    [ ([GradeLevel_DoesNotExist; Periodo_DoesNotExist; Paralelo_DoesNotExist],
       fun lookup_e => stderr_write (LookupErrorProgress record lookup_e));
      ([Exception],
       fun db_e => stderr_write (DbErrorProgress record db_e)) ].

(** The body of [for record in extracted_data.get('topic_completion', [])]. *)
Definition save_topic_completion (teacher : Teacher)
    (current_academic_year : AcademicYear) (now_ : datetime)
    (record : topic_completion_record) : cmd unit :=
  cmd_try
    (cmd_bind (execute (GetGradeLevel (tc_grade_level record))) (fun grade_level_obj =>
     cmd_bind (execute (GetPeriodo current_academic_year (tc_periodo record)))
       (fun periodo_obj =>
     cmd_bind (execute (GetParalelo (tc_paralelo record))) (fun paralelo_obj =>
     execute (UpdateOrCreateTopic teacher current_academic_year grade_level_obj
                periodo_obj paralelo_obj (tc_tema_number record)
                (tc_tema_title record) (tc_completion_date record) now_)))))
    [ ([GradeLevel_DoesNotExist; Periodo_DoesNotExist; Paralelo_DoesNotExist],
       fun lookup_e => stderr_write (LookupErrorTopic record lookup_e));
      ([Exception],
       fun db_e => stderr_write (DbErrorTopic record db_e)) ].

(** The body of [for title in valid_titles]. *)
Definition process_worksheet (teacher : Teacher)
    (current_academic_year : AcademicYear) (sh : spreadsheet) (title : text)
  : cmd unit :=
  cmd_bind (stdout_write (ProcessingWorksheet title)) (fun _ =>
  cmd_try
    (cmd_bind (get_worksheet sh title) (fun wks =>
     cmd_bind (pure (extract_worksheet_data wks)) (fun extracted_data =>
     cmd_bind now (fun now_ =>
     cmd_bind (for_each (period_progress extracted_data)
                 (save_period_progress teacher current_academic_year now_)) (fun _ =>
     for_each (topic_completion extracted_data)
       (save_topic_completion teacher current_academic_year now_))))))
    [ ([Exception],
       fun e => stderr_write (FailedWorksheet title (full_name teacher) e)) ]).

(** The body of [for teacher in active_teachers]; the validator is called
    with its default cells, header and threshold. *)
Definition process_teacher (gc : client) (current_academic_year : AcademicYear)
    (teacher : Teacher) : cmd unit :=
  cmd_bind (stdout_write (ProcessingTeacher (full_name teacher))) (fun _ =>
  cmd_try
    (cmd_bind
       (sheets (find_valid_teacher_worksheets authorize token_set_ratio
                  (google_sheet_url teacher) SERVICE_ACCOUNT_FILE
                  (lit "E3") (lit "DOCENTE") (lit "E4") 80)) (fun valid_titles =>
     if is_nil valid_titles
     then stdout_write (NoValidWorksheets (full_name teacher))
     else
       cmd_bind (open_sheet gc (extract_sheet_key_from_url (google_sheet_url teacher)))
         (fun sh =>
       for_each valid_titles (process_worksheet teacher current_academic_year sh))))
    [ ([Exception],
       fun e => stderr_write (FailedTeacher (full_name teacher) e)) ]).

(** [Command.handle].  The query set of the active teachers is built
    first but evaluated by the [for] statement, after the client is
    made. *)
Definition handle : cmd unit :=
  cmd_bind (stdout_write Starting) (fun _ =>
  cmd_bind
    (cmd_try
       (cmd_bind (execute ActiveAcademicYear) (fun y => cmd_ret (Some y)))
       [ ([AcademicYear_DoesNotExist],
          fun _ => cmd_bind (stderr_write NoActiveYear) (fun _ => cmd_ret None));
         ([AcademicYear_MultipleObjectsReturned],
          fun _ => cmd_bind (stderr_write MultipleActiveYears) (fun _ => cmd_ret None)) ])
    (fun found =>
       match found with
       | None => cmd_ret tt
       | Some current_academic_year =>
           cmd_bind (sheets (get_pygsheets_client authorize SERVICE_ACCOUNT_FILE))
             (fun gc =>
           cmd_bind (execute ActiveTeachers) (fun active_teachers =>
           cmd_bind (for_each active_teachers
                       (process_teacher gc current_academic_year)) (fun _ =>
           stdout_write Finished)))
       end)).

End Command.

Arguments cmd_ret {world A} a w.
Arguments cmd_bind {world A B} m k w.
Arguments select_handler {world A} clauses e.
Arguments cmd_try {world A} body clauses w.
Arguments for_each {world A} l body.
Arguments stdout_write {world} m w.
Arguments stderr_write {world} m w.
Arguments execute {world} database q w.
Arguments sheets {world A} m w.
Arguments pure {world A} r w.

(** ** Vocabulary of the properties of the command *)

Definition returned {A} (r : res A) : bool :=
  match r with Return _ => true | Raise _ => false end.

(** An exception that [except Exception] catches, or no exception. *)
Definition caught {A} (r : res A) : Prop :=
  forall e, r = Raise e -> isinstance_exn e Exception = true.

(** The academic year an event is about, when it is about one. *)
Definition event_year (ev : event) : option AcademicYear :=
  match ev with
  | Query (GetPeriodo y _) _
  | Query (UpdateOrCreateProgress _ y _ _ _ _ _) _
  | Query (UpdateOrCreateTopic _ y _ _ _ _ _ _ _) _ => Some y
  | _ => None
  end.

(** A report, or the lookup of the active year. *)
Definition preliminary (ev : event) : bool :=
  match ev with
  | Stdout _ | Stderr _ | Query ActiveAcademicYear _ => true
  | _ => false
  end.


(** The teachers the trace announces, in order. *)
Definition announced (evs : list event) : list text :=
  flat_map (fun ev => match ev with
                      | Stdout (ProcessingTeacher n) => [n]
                      | _ => []
                      end) evs.

Definition is_authorize (ev : event) : bool :=
  match ev with Sheets (CallAuthorize _) => true | _ => false end.

(** The spreadsheet is opened with a key: not without one, and not with
    an empty one or one holding other characters than key characters. *)
Definition opened_with_key (ev : event) : bool :=
  match ev with
  | OpenByKeyNone => false
  | Sheets (CallOpenByKey k) => negb (is_nil k) && forallb is_key_char k
  | _ => true
  end.

(** The objects a write refers to. *)
Definition written_objects (q : query)
  : option (AcademicYear * GradeLevel * Periodo * Paralelo) :=
  match q with
  | UpdateOrCreateProgress _ y g p a _ _
  | UpdateOrCreateTopic _ y g p a _ _ _ _ => Some (y, g, p, a)
  | _ => None
  end.

(** The start of the work on a record, a write that succeeded, and the
    report of a record that failed. *)
Definition record_started (ev : event) : bool :=
  match ev with Query (GetGradeLevel _) _ => true | _ => false end.

Definition record_written (ev : event) : bool :=
  match ev with
  | Query q outcome => is_some (written_objects q) && returned outcome
  | _ => false
  end.

Definition record_reported (ev : event) : bool :=
  match ev with
  | Stderr (LookupErrorProgress _ _) | Stderr (DbErrorProgress _ _)
  | Stderr (LookupErrorTopic _ _) | Stderr (DbErrorTopic _ _) => true
  | _ => false
  end.

(** A topic with a title, a title and a number without whitespace around
    them, and a date that exists. *)
Definition well_formed_topic (number title : text) (d : pyval) : Prop :=
  title <> [] /\ py_strip title = title /\ py_strip number = number
  /\ exists dt, d = PDate dt /\ valid_date dt = true.

(** The requests of the command are for the sections A to D, and the
    topics it writes are well formed. *)
Definition well_formed_request (ev : event) : Prop :=
  match ev with
  | Query (GetParalelo c) _ => In c paralelos
  | Query (UpdateOrCreateTopic _ _ _ _ _ number title d _) _ =>
      well_formed_topic number title d
  | _ => True
  end.

Definition event_objects (ev : event)
  : option (AcademicYear * GradeLevel * Periodo * Paralelo) :=
  match ev with Query q _ => written_objects q | _ => None end.

(** Every write of the trace comes right after the lookups of a grade, of
    a period of the year it is for and of a section, which returned the
    objects it refers to. *)
Definition guarded (evs : list event) : Prop :=
  forall pre ev post y g p a,
    evs = pre ++ ev :: post -> event_objects ev = Some (y, g, p, a) ->
    exists pre' c n c',
      pre = pre' ++ [ Query (GetGradeLevel c) (Return g);
                      Query (GetPeriodo y n) (Return p);
                      Query (GetParalelo c') (Return a) ].

(** As many records were started as were written or reported. *)
Definition balanced (evs : list event) : Prop :=
  List.length (filter record_started evs)
  = List.length (filter record_written evs)
    + List.length (filter record_reported evs).

(** What holds of every event of a run for the academic year [y]. *)
Definition event_ok (y : AcademicYear) (ev : event) : Prop :=
  (forall y', event_year ev = Some y' -> y' = y)
  /\ well_formed_request ev
  /\ opened_with_key ev = true.

(** No authorization and no teacher announced. *)
Definition quiet (evs : list event) : Prop :=
  filter is_authorize evs = [] /\ announced evs = [].

(** What holds of the work on a worksheet or on a record. *)
Definition inner_run (y : AcademicYear) {A} (evs : list event) (r : res A) : Prop :=
  Forall (event_ok y) evs /\ guarded evs /\ quiet evs
  /\ (caught r -> balanced evs).

(** What holds of the work on the teacher [t]: the teacher is announced
    once, the validator authorizes once when the URL holds a key, and no
    exception that [except Exception] catches gets out. *)
Definition teacher_run (y : AcademicYear) (t : Teacher) (evs : list event)
    (r : res unit) : Prop :=
  Forall (event_ok y) evs /\ guarded evs
  /\ announced evs = [full_name t]
  /\ List.length (filter is_authorize evs)
     = (if is_some (extract_sheet_key_from_url (google_sheet_url t)) then 1 else 0)
  /\ (r = Return tt -> balanced evs)
  /\ (forall e, r = Raise e -> isinstance_exn e Exception = false).

(** The events of a call of the validator. *)
Definition validator_events_ok (y : AcademicYear) (url : text) (evs : list event) : Prop :=
  Forall (event_ok y) evs
  /\ Forall (fun ev => event_objects ev = None) evs
  /\ announced evs = [] /\ balanced evs
  /\ List.length (filter is_authorize evs)
     = (if is_some (extract_sheet_key_from_url url) then 1 else 0).

(** An event that starts, writes or reports no record, and is no call of
    the validator. *)
Definition plain (ev : event) : bool :=
  match ev with
  | WorksheetByTitle _ => true
  | Stdout (ProcessingTeacher _) => false
  | Stdout _ => true
  | Stderr m => negb (record_reported (Stderr m))
  | _ => false
  end.

(** The calls of the loop of the validator. *)
Definition cell_or_ratio (c : call) : bool :=
  match c with
  | CallGetValue _ _ | CallTokenSetRatio _ _ => true
  | _ => false
  end.

Definition well_formed_progress_record (x : period_progress_record) : Prop :=
  In (pp_paralelo x) paralelos.

Definition well_formed_topic_record (x : topic_completion_record) : Prop :=
  In (tc_paralelo x) paralelos
  /\ well_formed_topic (tc_tema_number x) (tc_tema_title x) (tc_completion_date x).

(** ** An example run *)

Definition example_teacher : Teacher :=
  {| teacher_id := 1;
     full_name := lit "Maria Lopez";
     email := None;
     google_sheet_url := example_url;
     teacher_is_active := true;
     created_at := ({| year := 2025; month := 1; day := 15 |},
                    {| hour := 9; minute := 0; second := 0; microsecond := 0 |});
     updated_at := ({| year := 2025; month := 1; day := 15 |},
                    {| hour := 9; minute := 0; second := 0; microsecond := 0 |}) |}.

(** A teacher whose URL holds no key. *)
Definition example_teacher_without_key : Teacher :=
  {| teacher_id := 2;
     full_name := lit "Juan Perez";
     email := None;
     google_sheet_url := lit "https://example.com/sheet";
     teacher_is_active := true;
     created_at := ({| year := 2025; month := 1; day := 15 |},
                    {| hour := 9; minute := 0; second := 0; microsecond := 0 |});
     updated_at := ({| year := 2025; month := 1; day := 15 |},
                    {| hour := 9; minute := 0; second := 0; microsecond := 0 |}) |}.

Definition example_year : AcademicYear :=
  {| academic_year_id := 1; ay_year := 2025;
     ay_start_date := {| year := 2025; month := 2; day := 3 |};
     ay_end_date := {| year := 2025; month := 11; day := 28 |};
     ay_is_active := true |}.

Definition example_grade : GradeLevel :=
  {| grade_code := lit "5to"; grade_name := lit "5to de Primaria";
     grade_stage := lit "PRE"; grade_order := 1 |}.

Definition example_periodo : Periodo :=
  {| periodo_id := 1; periodo_trimestre_id := 1; periodo_number := 1;
     periodo_name := lit "1er Periodo";
     periodo_start_date := None; periodo_end_date := None |}.

Definition example_paralelo : Paralelo :=
  {| paralelo_code := lit "A"; paralelo_name := lit "Paralelo A" |}.

(** A database with one active year, two active teachers, the grade 5to,
    the period 1 and the section A only; the state counts the requests. *)
Definition example_database (q : query) (w : nat) : nat * res (answer q) :=
  (S w,
   match q as q0 return res (answer q0) with
   | ActiveAcademicYear => Return example_year
   | ActiveTeachers => Return [example_teacher_without_key; example_teacher]
   | GetGradeLevel c =>
       if text_eqb c (lit "5to") then Return example_grade
       else Raise (Exn GradeLevel_DoesNotExist
                     (lit "GradeLevel matching query does not exist."))
   | GetPeriodo _ n =>
       if (n =? 1)%Z then Return example_periodo
       else Raise (Exn Periodo_DoesNotExist
                     (lit "Periodo matching query does not exist."))
   | GetParalelo c =>
       if text_eqb c (lit "A") then Return example_paralelo
       else Raise (Exn Paralelo_DoesNotExist
                     (lit "Paralelo matching query does not exist."))
   | UpdateOrCreateProgress _ _ _ _ _ _ _ => Return tt
   | UpdateOrCreateTopic _ _ _ _ _ _ _ _ _ => Return tt
   end).

Definition example_now (w : nat) : datetime :=
  ({| year := 2025; month := 3; day := 7 |},
   {| hour := 8; minute := 30; second := Z.of_nat w; microsecond := 0 |}).

Definition example_authorize (service_file : text) : res client :=
  Return (example_client (Return PNone)).

Definition example_matcher (a b : text) : res Z :=
  Return (if text_eqb a b then 100 else 0)%Z.

Definition example_by_title (sh : spreadsheet) (title : text) : res worksheet :=
  match sh_worksheets sh with
  | Return wkss =>
      match find (fun wks => text_eqb (wks_title wks) title) wkss with
      | Some wks => Return wks
      | None => Raise (Exn (OtherError "WorksheetNotFound") title)
      end
  | Raise e => Raise e
  end.

Definition example_open_none (gc : client) : res spreadsheet :=
  Raise (Exn (OtherError "HttpError") (lit "not found")).

Definition example_service_file : text := lit "service_account.json".

Definition example_handle : cmd nat unit :=
  handle nat example_database example_now example_authorize example_matcher
    example_open_none example_by_title example_service_file.

(** The events of the example run, from the state 0. *)
Definition example_trace : list event :=
  Eval vm_compute in snd (fst (example_handle 0)).

(** A database without an active year. *)
Definition database_without_year (q : query) (w : nat) : nat * res (answer q) :=
  match q as q0 return nat * res (answer q0) with
  | ActiveAcademicYear =>
      (S w, Raise (Exn AcademicYear_DoesNotExist
                     (lit "AcademicYear matching query does not exist.")))
  | q0 => example_database q0 w
  end.


(** The runs of the command on these. *)
Definition example_handle_without_year : cmd nat unit :=
  handle nat database_without_year example_now example_authorize example_matcher
    example_open_none example_by_title example_service_file.


(* ------------------------------------------------------------------ *)
(** * NameNormalizer: examples *)
(* ------------------------------------------------------------------ *)

Example preprocess_name_ex1 :
  preprocess_name (PStr (lit "Lic. Maria  LOPEZ ")) = lit "maria lopez".
Proof. vm_compute. reflexivity. Qed.

Example preprocess_name_ex2 :
  preprocess_name (PStr (lit "Dr.Doctor Sra. msc srta-x drx dr_ x.dr"))
  = lit "-x drx dr_ x.".
Proof. vm_compute. reflexivity. Qed.

(* ------------------------------------------------------------------ *)
(** * Facts about characters *)
(* ------------------------------------------------------------------ *)

Ltac all_chars c :=
  destruct c as [[|] [|] [|] [|] [|] [|] [|] [|]]; vm_compute; try reflexivity; try discriminate.

Lemma is_word_lower_char c : is_word (lower_char c) = is_word c.
Proof. all_chars c. Qed.

Lemma lower_char_idem c : lower_char (lower_char c) = lower_char c.
Proof. all_chars c. Qed.

Lemma space_not_word c : py_isspace c = true -> is_word c = false.
Proof. all_chars c. Qed.

Lemma is_code_eq n c : is_code n c = true -> c = ascii_of_N n.
Proof.
  unfold is_code, code. intros H. apply N.eqb_eq in H. rewrite <- H.
  symmetry. apply ascii_N_embedding.
Qed.

Lemma text_eqb_eq a b : text_eqb a b = true <-> a = b.
Proof. unfold text_eqb. destruct (list_eq_dec ascii_dec a b); split; congruence. Qed.

Lemma text_eqb_neq a b : text_eqb a b = false <-> a <> b.
Proof. unfold text_eqb. destruct (list_eq_dec ascii_dec a b); split; congruence. Qed.

Lemma words_nonword c t : is_word c = false -> words (c :: t) = words t.
Proof. intros H. simpl. rewrite H. reflexivity. Qed.

Lemma words_head_word c t :
  is_word c = true -> exists w ws, words (c :: t) = (c :: w) :: ws.
Proof.
  intros H. simpl. rewrite H.
  destruct (words t); [eauto|]. destruct (nonword_head t); eauto.
Qed.

Lemma words_cons_word c c' t :
  is_word c = true -> is_word c' = true ->
  words (c :: c' :: t) =
  match words (c' :: t) with w :: ws => (c :: w) :: ws | [] => [[c]] end.
Proof.
  intros H H'. cbn [words]. rewrite H.
  cbn [nonword_head]. rewrite H'. reflexivity.
Qed.

Lemma words_cons_end c t :
  is_word c = true -> nonword_head t = true -> words (c :: t) = [c] :: words t.
Proof.
  intros H Ht. cbn [words]. rewrite H, Ht.
  destruct (words t); reflexivity.
Qed.

(** A maximal word at the head is the first word. *)
Lemma words_word_app w rest :
  w <> [] -> all_word w = true -> nonword_head rest = true ->
  words (w ++ rest) = w :: words rest.
Proof.
  induction w as [|c w IH]; intros Hne Hw Hr; [congruence|].
  simpl in Hw. apply andb_true_iff in Hw as [Hc Hw].
  destruct w as [|c' w].
  - simpl app. apply words_cons_end; assumption.
  - assert (Hc' : is_word c' = true) by (simpl in Hw; apply andb_true_iff in Hw; tauto).
    change ((c :: c' :: w) ++ rest) with (c :: c' :: (w ++ rest)).
    rewrite words_cons_word by assumption.
    change (c' :: w ++ rest) with ((c' :: w) ++ rest).
    rewrite IH by (assumption || discriminate). reflexivity.
Qed.

(** Every text is empty, starts with a non-word character, or starts with
    a maximal non-empty word. *)
Lemma text_cases (s : text) :
  s = [] \/
  (exists c t, s = c :: t /\ is_word c = false) \/
  (exists w rest, s = w ++ rest /\ w <> [] /\ all_word w = true
                  /\ nonword_head rest = true).
Proof.
  induction s as [|c t IH]; [now left|].
  right. destruct (is_word c) eqn:E.
  - right. destruct IH as [-> | [(c' & t' & -> & H) | (w & rest & -> & Hne & Hw & Hr)]].
    + exists [c], []. simpl. rewrite E. repeat split; congruence.
    + exists [c], (c' :: t'). simpl. rewrite E, H. repeat split; congruence.
    + exists (c :: w), rest. simpl. rewrite E, Hw. repeat split; congruence.
  - left. eauto.
Qed.

Lemma word_split_unique w1 r1 w2 r2 :
  all_word w1 = true -> all_word w2 = true ->
  nonword_head r1 = true -> nonword_head r2 = true ->
  w1 ++ r1 = w2 ++ r2 -> w1 = w2 /\ r1 = r2.
Proof.
  revert w2. induction w1 as [|a w1 IH]; intros [|b w2] H1 H2 Hr1 Hr2 E; simpl in *.
  - auto.
  - subst r1. simpl in Hr1. apply andb_true_iff in H2 as [H2 _].
    rewrite H2 in Hr1. discriminate.
  - subst r2. simpl in Hr2. apply andb_true_iff in H1 as [H1 _].
    rewrite H1 in Hr2. discriminate.
  - apply andb_true_iff in H1 as [_ H1]. apply andb_true_iff in H2 as [_ H2].
    injection E as -> E. destruct (IH w2 H1 H2 Hr1 Hr2 E) as [-> ->]. auto.
Qed.

(* ------------------------------------------------------------------ *)
(** * The title patterns on a text cut into words *)
(* ------------------------------------------------------------------ *)

Lemma match_literal_sound tok : forall s l r,
  match_literal tok s = Some (l, r) ->
  exists m, s = (m ++ [l]) ++ r /\ py_lower (m ++ [l]) = tok.
Proof.
  induction tok as [|p tok IH]; intros s l r H; [destruct s; discriminate|].
  destruct s as [|c s]; [discriminate|].
  cbn [match_literal] in H.
  destruct (Ascii.eqb (lower_char c) p) eqn:E; [|discriminate].
  apply Ascii.eqb_eq in E. destruct tok as [|p' tok].
  - injection H as <- <-. exists []. simpl. now rewrite E.
  - destruct (IH _ _ _ H) as (m & -> & Hm).
    exists (c :: m). simpl. simpl in Hm. now rewrite E, Hm.
Qed.

Lemma match_literal_complete m : forall l r,
  match_literal (py_lower (m ++ [l])) ((m ++ [l]) ++ r) = Some (l, r).
Proof.
  unfold py_lower. induction m as [|a m IH]; intros l r.
  - simpl. now rewrite Ascii.eqb_refl.
  - specialize (IH l r). cbn [app map match_literal]. rewrite Ascii.eqb_refl.
    destruct (map lower_char (m ++ [l])) eqn:E; [destruct m; discriminate|].
    exact IH.
Qed.

Lemma snoc_cases (w : text) : w = [] \/ exists m l, w = m ++ [l].
Proof.
  destruct (rev w) eqn:E.
  - left. apply (f_equal (@rev ascii)) in E. now rewrite rev_involutive in E.
  - right. exists (rev l), a. apply (f_equal (@rev ascii)) in E.
    now rewrite rev_involutive in E.
Qed.

Lemma all_word_lower w : all_word (py_lower w) = all_word w.
Proof.
  induction w as [|c w IH]; [reflexivity|].
  simpl. now rewrite is_word_lower_char, <- IH.
Qed.

Lemma all_word_app a b : all_word (a ++ b) = all_word a && all_word b.
Proof. apply forallb_app. Qed.

(** On a text that starts with a maximal word [w], the alternation matches
    exactly when [w] is one of its tokens, and takes [w] (and the dot). *)
Lemma match_alts_word toks dot w rest :
  forallb good_token toks = true ->
  w <> [] -> all_word w = true -> nonword_head rest = true ->
  match_alts toks dot (w ++ rest) =
  if mem_ci w toks then Some (List.length w + dot_after dot rest) else None.
Proof.
  intros Hg Hne Hw Hr. induction toks as [|tok toks IH]; [reflexivity|].
  simpl in Hg. apply andb_true_iff in Hg as [Ht Hg]. specialize (IH Hg).
  cbn [match_alts mem_ci existsb]. fold (mem_ci w toks).
  destruct (match_literal tok (w ++ rest)) as [[l r]|] eqn:E.
  - destruct (match_literal_sound _ _ _ _ E) as (m & Hs & Hm).
    assert (Hml : all_word (m ++ [l]) = true).
    { rewrite <- all_word_lower, Hm. destruct tok; [discriminate|exact Ht]. }
    assert (Hl : is_word l = true).
    { rewrite all_word_app in Hml. apply andb_true_iff in Hml as [_ Hml].
      simpl in Hml. now rewrite andb_true_r in Hml. }
    unfold word_boundary. cbn [is_word_opt]. rewrite Hl.
    destruct r as [|c r'] eqn:Er.
    + cbn [hd_error is_word_opt xorb].
      destruct (word_split_unique w rest (m ++ [l]) [] Hw Hml Hr eq_refl Hs) as [-> ->].
      rewrite Hm. assert (Heq : text_eqb tok tok = true) by now apply text_eqb_eq.
      rewrite Heq. cbn [orb dot_after]. rewrite <- Hm. unfold py_lower.
      now rewrite length_map.
    + cbn [hd_error is_word_opt xorb]. destruct (is_word c) eqn:Ec; cbn [negb xorb].
      * assert (Hn : text_eqb (py_lower w) tok = false).
        { apply text_eqb_neq. intros Heq.
          destruct (snoc_cases w) as [->|(m' & l' & ->)]; [congruence|].
          rewrite <- Heq, match_literal_complete in E.
          injection E as _ E'. rewrite E' in Hr. simpl in Hr.
          rewrite Ec in Hr. discriminate. }
        rewrite Hn. exact IH.
      * assert (Hr' : nonword_head (c :: r') = true) by (simpl; now rewrite Ec).
        destruct (word_split_unique w rest (m ++ [l]) (c :: r') Hw Hml Hr Hr' Hs) as [-> ->].
        rewrite Hm. assert (Heq : text_eqb tok tok = true) by now apply text_eqb_eq.
        rewrite Heq. cbn [orb dot_after]. rewrite <- Hm. unfold py_lower.
        now rewrite length_map.
  - assert (Hn : text_eqb (py_lower w) tok = false).
    { apply text_eqb_neq. intros Heq.
      destruct (snoc_cases w) as [->|(m' & l' & ->)]; [congruence|].
      rewrite <- Heq, match_literal_complete in E. discriminate. }
    rewrite Hn. exact IH.
Qed.

Lemma match_literal_nonword tok c t :
  good_token tok = true -> is_word c = false -> match_literal tok (c :: t) = None.
Proof.
  intros Hg Hc. destruct (match_literal tok (c :: t)) as [[l r]|] eqn:E; [|reflexivity].
  destruct (match_literal_sound _ _ _ _ E) as (m & Hs & Hm).
  assert (Hml : all_word (m ++ [l]) = true).
  { rewrite <- all_word_lower, Hm. destruct tok; [discriminate|exact Hg]. }
  destruct m as [|a m]; simpl in Hs; injection Hs as -> _;
    simpl in Hml; rewrite Hc in Hml; discriminate.
Qed.

Lemma match_alts_nonword toks dot c t :
  forallb good_token toks = true -> is_word c = false ->
  match_alts toks dot (c :: t) = None.
Proof.
  intros Hg Hc. induction toks as [|tok toks IH]; [reflexivity|].
  simpl in Hg. apply andb_true_iff in Hg as [Ht Hg].
  cbn [match_alts]. rewrite (match_literal_nonword tok c t Ht Hc). auto.
Qed.

(* ------------------------------------------------------------------ *)
(** * Equations of the title substitution *)
(* ------------------------------------------------------------------ *)

Section TitleSubstitution.

Variable p : title_pattern.
Hypothesis p_good : good_pattern p = true.

Lemma sub_scan_prev p1 p2 k s :
  is_word_opt p1 = is_word_opt p2 -> sub_scan p p1 k s = sub_scan p p2 k s.
Proof.
  intros H. destruct s as [|c t]; [reflexivity|]. destruct k; [|reflexivity].
  cbn [sub_scan]. unfold match_title, word_boundary. now rewrite H.
Qed.

Lemma sub_scan_skip m : forall prev l rest,
  sub_scan p prev (List.length (m ++ [l])) ((m ++ [l]) ++ rest)
  = sub_scan p (Some l) 0 rest.
Proof.
  induction m as [|a m IH]; intros prev l rest; [reflexivity|].
  cbn [app List.length sub_scan]. apply IH.
Qed.

Lemma sub_nonword prev c t :
  is_word c = false -> sub_scan p prev 0 (c :: t) = c :: re_sub_title p t.
Proof.
  intros Hc. cbn [sub_scan]. unfold match_title.
  rewrite (match_alts_nonword (alts p) (opt_dot p) c t p_good Hc).
  destruct (word_boundary prev (hd_error (c :: t))); f_equal;
    apply sub_scan_prev; simpl; now rewrite Hc.
Qed.

Lemma sub_nonword_head prev s :
  nonword_head s = true -> sub_scan p prev 0 s = re_sub_title p s.
Proof.
  destruct s as [|c t]; [reflexivity|]. cbn [nonword_head]. intros H.
  apply negb_true_iff in H. unfold re_sub_title.
  rewrite (sub_nonword prev c t H), (sub_nonword None c t H). reflexivity.
Qed.

Lemma sub_inside w : forall prev rest,
  is_word_opt prev = true -> all_word w = true -> nonword_head rest = true ->
  sub_scan p prev 0 (w ++ rest) = w ++ re_sub_title p rest.
Proof.
  induction w as [|c w IH]; intros prev rest Hp Hw Hr.
  - now apply sub_nonword_head.
  - simpl in Hw. apply andb_true_iff in Hw as [Hc Hw].
    cbn [app sub_scan]. unfold match_title, word_boundary. cbn [hd_error is_word_opt].
    rewrite Hp, Hc. cbn [xorb]. f_equal. now apply IH.
Qed.

Lemma sub_word_keep prev w rest :
  is_word_opt prev = false ->
  w <> [] -> all_word w = true -> nonword_head rest = true ->
  mem_ci w (alts p) = false ->
  sub_scan p prev 0 (w ++ rest) = w ++ re_sub_title p rest.
Proof.
  intros Hp Hne Hw Hr Hm.
  pose proof (match_alts_word (alts p) (opt_dot p) w rest p_good Hne Hw Hr) as E.
  rewrite Hm in E. destruct w as [|c w]; [congruence|].
  simpl in Hw. apply andb_true_iff in Hw as [Hc Hw].
  cbn [app sub_scan]. unfold match_title. cbn [app] in E. rewrite E.
  destruct (word_boundary prev (hd_error (c :: w ++ rest))); f_equal;
    now apply sub_inside.
Qed.

Lemma drop_dot_none dot rest : dot_after dot rest = 0 -> drop_dot dot rest = rest.
Proof.
  destruct rest as [|c t]; [reflexivity|]. simpl.
  destruct (dot && is_code 46 c); [discriminate|reflexivity].
Qed.

Lemma drop_dot_some dot rest :
  dot_after dot rest <> 0 ->
  exists c, rest = c :: drop_dot dot rest /\ is_word c = false /\ dot_after dot rest = 1.
Proof.
  destruct rest as [|c t]; [simpl; congruence|]. simpl.
  destruct (dot && is_code 46 c) eqn:E; [|congruence].
  intros _. exists c. repeat split. apply andb_true_iff in E as [_ E].
  apply is_code_eq in E. subst c. reflexivity.
Qed.

Lemma sub_word_drop prev w rest :
  is_word_opt prev = false ->
  w <> [] -> all_word w = true -> nonword_head rest = true ->
  mem_ci w (alts p) = true ->
  sub_scan p prev 0 (w ++ rest) = re_sub_title p (drop_dot (opt_dot p) rest).
Proof.
  intros Hp Hne Hw Hr Hm.
  pose proof (match_alts_word (alts p) (opt_dot p) w rest p_good Hne Hw Hr) as E.
  rewrite Hm in E. destruct w as [|c w]; [congruence|].
  simpl in Hw. apply andb_true_iff in Hw as [Hc Hw].
  cbn [app sub_scan]. unfold match_title, word_boundary.
  cbn [hd_error is_word_opt]. rewrite Hp, Hc. cbn [xorb].
  cbn [app] in E. rewrite E. cbn [List.length Nat.add].
  destruct (Nat.eq_dec (dot_after (opt_dot p) rest) 0) as [Hd|Hd].
  - rewrite Hd, Nat.add_0_r, (drop_dot_none _ _ Hd).
    destruct (snoc_cases w) as [->|(m & l & ->)].
    + cbn [List.length app]. now apply sub_nonword_head.
    + rewrite sub_scan_skip. now apply sub_nonword_head.
  - destruct (drop_dot_some _ _ Hd) as (d & Hrest & Hdw & ->).
    rewrite Hrest at 1.
    replace (w ++ d :: drop_dot (opt_dot p) rest)
      with ((w ++ [d]) ++ drop_dot (opt_dot p) rest)
      by (rewrite <- app_assoc; reflexivity).
    replace (List.length w + 1) with (List.length (w ++ [d]))
      by (rewrite length_app; reflexivity).
    rewrite sub_scan_skip. apply sub_scan_prev. simpl. now rewrite Hdw.
Qed.

(** The substitution keeps exactly the words that are not tokens. *)
Lemma words_re_sub_title s :
  words (re_sub_title p s)
  = filter (fun w => negb (mem_ci w (alts p))) (words s).
Proof.
  remember (List.length s) as n eqn:Hn. revert s Hn.
  induction n as [n IH] using lt_wf_ind. intros s Hn.
  destruct (text_cases s) as [-> | [(c & t & -> & Hc) | (w & rest & -> & Hne & Hw & Hr)]].
  - reflexivity.
  - unfold re_sub_title. rewrite sub_nonword by assumption.
    rewrite !words_nonword by assumption.
    apply (IH (List.length t)); [subst n; simpl; lia | reflexivity].
  - assert (Hlen : List.length rest < n).
    { subst n. rewrite length_app. destruct w; [congruence|simpl; lia]. }
    rewrite (words_word_app w rest Hne Hw Hr). cbn [filter].
    unfold re_sub_title. destruct (mem_ci w (alts p)) eqn:Hm; cbn [negb].
    + rewrite sub_word_drop by (assumption || reflexivity).
      destruct (Nat.eq_dec (dot_after (opt_dot p) rest) 0) as [Hd|Hd].
      * rewrite (drop_dot_none _ _ Hd). now apply (IH (List.length rest)).
      * destruct (drop_dot_some _ _ Hd) as (d & Hrest & Hdw & _).
        rewrite Hrest at 2. rewrite words_nonword by assumption.
        apply (IH (List.length (drop_dot (opt_dot p) rest))); [|reflexivity].
        rewrite Hrest in Hlen. simpl in Hlen. lia.
    + rewrite sub_word_keep by (assumption || reflexivity).
      rewrite words_word_app; [|assumption|assumption|].
      * f_equal. now apply (IH (List.length rest)).
      * destruct rest as [|d t]; [reflexivity|]. simpl in Hr.
        apply negb_true_iff in Hr. unfold re_sub_title.
        rewrite sub_nonword by assumption. simpl. now rewrite Hr.
Qed.

(** A text none of whose words is a token is left as it is. *)
Lemma re_sub_title_fixed s :
  forallb (fun w => negb (mem_ci w (alts p))) (words s) = true ->
  re_sub_title p s = s.
Proof.
  remember (List.length s) as n eqn:Hn. revert s Hn.
  induction n as [n IH] using lt_wf_ind. intros s Hn Hall.
  destruct (text_cases s) as [-> | [(c & t & -> & Hc) | (w & rest & -> & Hne & Hw & Hr)]].
  - reflexivity.
  - unfold re_sub_title. rewrite sub_nonword by assumption. f_equal.
    rewrite words_nonword in Hall by assumption.
    apply (IH (List.length t)); [subst n; simpl; lia | reflexivity | assumption].
  - rewrite (words_word_app w rest Hne Hw Hr) in Hall. simpl in Hall.
    apply andb_true_iff in Hall as [Hm Hall]. apply negb_true_iff in Hm.
    unfold re_sub_title. rewrite sub_word_keep by (assumption || reflexivity).
    f_equal. apply (IH (List.length rest)); [|reflexivity|assumption].
    subst n. rewrite length_app. destruct w; [congruence|simpl; lia].
Qed.

Lemma sub_scan_Forall (P : ascii -> Prop) s : forall prev k,
  Forall P s -> Forall P (sub_scan p prev k s).
Proof.
  induction s as [|c t IH]; intros prev k H; [constructor|].
  inversion H; subst. cbn [sub_scan]. destruct k; [|now apply IH].
  destruct (match_title p prev (c :: t)) as [[|j]|]; try (constructor; [assumption|]);
    now apply IH.
Qed.

End TitleSubstitution.

(* ------------------------------------------------------------------ *)
(** * Stripping and whitespace collapsing *)
(* ------------------------------------------------------------------ *)

Lemma drop_while_split f s :
  exists tk, s = tk ++ drop_while f s /\ forallb f tk = true.
Proof.
  induction s as [|c t (tk & E & H)]; [now exists []|].
  simpl. destruct (f c) eqn:Ec.
  - exists (c :: tk). simpl. rewrite Ec, H. split; [now f_equal | reflexivity].
  - now exists [].
Qed.

Lemma drop_while_head f s :
  match drop_while f s with [] => True | c :: _ => f c = false end.
Proof.
  induction s as [|c t IH]; [exact I|]. simpl. destruct (f c) eqn:E; [exact IH|exact E].
Qed.

Lemma drop_while_fixed f s :
  match s with [] => True | c :: _ => f c = false end -> drop_while f s = s.
Proof. destruct s as [|c t]; [reflexivity|]. simpl. now intros ->. Qed.

Lemma rstrip_by_split f s :
  exists tl, s = rstrip_by f s ++ tl /\ forallb f tl = true.
Proof.
  unfold rstrip_by. destruct (drop_while_split f (rev s)) as (tk & E & H).
  exists (rev tk). split.
  - rewrite <- rev_app_distr, <- E. now rewrite rev_involutive.
  - rewrite forallb_forall in *. intros x Hx. apply H. now apply in_rev.
Qed.

Lemma rstrip_by_idem f s : rstrip_by f (rstrip_by f s) = rstrip_by f s.
Proof.
  unfold rstrip_by. rewrite rev_involutive. f_equal.
  apply drop_while_fixed, drop_while_head.
Qed.

Lemma py_strip_idem s : py_strip (py_strip s) = py_strip s.
Proof.
  unfold py_strip, lstrip_by.
  set (a := drop_while py_isspace s).
  assert (Hfix : drop_while py_isspace (rstrip_by py_isspace a) = rstrip_by py_isspace a).
  { apply drop_while_fixed.
    destruct (rstrip_by_split py_isspace a) as (tl & E & _).
    pose proof (drop_while_head py_isspace s) as Hh. fold a in Hh.
    destruct (rstrip_by py_isspace a) as [|c r]; [exact I|].
    rewrite E in Hh. exact Hh. }
  rewrite Hfix. apply rstrip_by_idem.
Qed.

Lemma words_all_nonword tl : forallb py_isspace tl = true -> words tl = [].
Proof.
  induction tl as [|c t IH]; [reflexivity|]. simpl. intros H.
  apply andb_true_iff in H as [Hc H]. rewrite (space_not_word c Hc). auto.
Qed.

Lemma nonword_head_app_cons c t b :
  nonword_head ((c :: t) ++ b) = nonword_head (c :: t).
Proof. reflexivity. Qed.

Lemma words_nil_nonword_head t : words t = [] -> nonword_head t = true.
Proof.
  destruct t as [|c t]; [reflexivity|]. simpl.
  destruct (is_word c); [|reflexivity].
  destruct (words t); [discriminate|]. destruct (nonword_head t); discriminate.
Qed.

Lemma words_app a b :
  nonword_head b = true -> words (a ++ b) = words a ++ words b.
Proof.
  intros Hb. induction a as [|c t IH]; [reflexivity|].
  cbn [app words]. destruct (is_word c); [|exact IH].
  rewrite IH. destruct t as [|c' t'].
  - cbn [app words]. rewrite Hb. destruct (words b); reflexivity.
  - rewrite nonword_head_app_cons.
    destruct (words (c' :: t')) as [|w ws] eqn:E.
    + rewrite (words_nil_nonword_head _ E). cbn [app].
      destruct (words b); reflexivity.
    + cbn [app]. destruct (nonword_head (c' :: t')); reflexivity.
Qed.

Lemma nonword_head_spaces tl : forallb py_isspace tl = true -> nonword_head tl = true.
Proof.
  destruct tl as [|c t]; [reflexivity|]. simpl. intros H.
  apply andb_true_iff in H as [Hc _]. now rewrite (space_not_word c Hc).
Qed.

Lemma words_drop_while s : words (drop_while py_isspace s) = words s.
Proof.
  induction s as [|c t IH]; [reflexivity|]. cbn [drop_while].
  destruct (py_isspace c) eqn:E; [|reflexivity].
  rewrite (words_nonword c t (space_not_word c E)). exact IH.
Qed.

Lemma words_rstrip s : words (rstrip_by py_isspace s) = words s.
Proof.
  destruct (rstrip_by_split py_isspace s) as (tl & E & H).
  rewrite E at 2. rewrite words_app by now apply nonword_head_spaces.
  rewrite (words_all_nonword tl H). now rewrite app_nil_r.
Qed.

Lemma words_py_strip s : words (py_strip s) = words s.
Proof. unfold py_strip, lstrip_by. now rewrite words_rstrip, words_drop_while. Qed.

Lemma collapse_tidy s : forall b, tidy b (collapse_scan b s) = true.
Proof.
  induction s as [|c t IH]; intros b; [reflexivity|].
  cbn [collapse_scan]. destruct (py_isspace c) eqn:E.
  - destruct b; [apply IH|]. cbn [tidy].
    change (py_isspace " ") with true. cbn. apply IH.
  - cbn [tidy]. rewrite E. apply IH.
Qed.

Lemma tidy_fixed s : forall b, tidy b s = true -> collapse_scan b s = s.
Proof.
  induction s as [|c t IH]; intros b H; [reflexivity|].
  cbn [tidy collapse_scan] in *. destruct (py_isspace c).
  - apply andb_true_iff in H as [H Ht]. apply andb_true_iff in H as [Hb Hc].
    apply negb_true_iff in Hb. apply Ascii.eqb_eq in Hc. subst b c.
    f_equal. now apply IH.
  - f_equal. now apply IH.
Qed.

Lemma tidy_drop_while s : forall b,
  tidy b s = true -> tidy false (drop_while py_isspace s) = true.
Proof.
  induction s as [|c t IH]; intros b H; [reflexivity|].
  cbn [tidy drop_while] in *. destruct (py_isspace c) eqn:E.
  - apply andb_true_iff in H as [_ Ht]. now apply (IH true).
  - cbn [tidy]. now rewrite E.
Qed.

Lemma tidy_prefix x y : forall b, tidy b (x ++ y) = true -> tidy b x = true.
Proof.
  induction x as [|c t IH]; intros b H; [reflexivity|].
  cbn [app tidy] in *. destruct (py_isspace c).
  - apply andb_true_iff in H as [H Ht]. rewrite H. now apply IH.
  - now apply IH.
Qed.

Lemma tidy_py_strip s b : tidy b s = true -> tidy false (py_strip s) = true.
Proof.
  intros H. unfold py_strip, lstrip_by. apply tidy_drop_while in H.
  destruct (rstrip_by_split py_isspace (drop_while py_isspace s)) as (tl & E & _).
  rewrite E in H. now apply tidy_prefix in H.
Qed.

Lemma space_run_cons a c t :
  space_run (a :: c :: t) = (py_isspace a && py_isspace c) || space_run (c :: t).
Proof. reflexivity. Qed.

Lemma tidy_no_space_run s : forall b, tidy b s = true -> space_run s = false.
Proof.
  induction s as [|a t IH]; intros b H; [reflexivity|].
  destruct t as [|c t']; [reflexivity|].
  rewrite space_run_cons. cbn [tidy] in H. destruct (py_isspace a) eqn:Ea.
  - apply andb_true_iff in H as [_ Ht]. rewrite (IH true Ht).
    cbn [tidy] in Ht. destruct (py_isspace c); [discriminate|reflexivity].
  - cbn [andb orb]. now apply (IH false).
Qed.

Lemma nonword_head_collapse t :
  nonword_head (collapse_scan false t) = nonword_head t.
Proof.
  destruct t as [|c t]; [reflexivity|]. cbn [collapse_scan].
  destruct (py_isspace c) eqn:E; [|reflexivity].
  simpl. now rewrite (space_not_word c E).
Qed.

Lemma words_collapse s : forall b, words (collapse_scan b s) = words s.
Proof.
  induction s as [|c t IH]; intros b; [reflexivity|].
  cbn [collapse_scan]. destruct (py_isspace c) eqn:E.
  - rewrite (words_nonword c t (space_not_word c E)).
    destruct b; [apply IH|]. rewrite words_nonword by reflexivity. apply IH.
  - cbn [words]. now rewrite IH, nonword_head_collapse.
Qed.

Lemma py_lower_lowered s : Forall lowered (py_lower s).
Proof.
  induction s as [|c t IH]; constructor; [apply lower_char_idem|exact IH].
Qed.

Lemma py_lower_fixed s : Forall lowered s -> py_lower s = s.
Proof.
  induction 1 as [|c t Hc _ IH]; [reflexivity|]. simpl. now rewrite Hc, IH.
Qed.

Lemma drop_while_Forall (P : ascii -> Prop) f s :
  Forall P s -> Forall P (drop_while f s).
Proof.
  induction 1 as [|c t Hc Ht IH]; [constructor|]. simpl.
  destruct (f c); [exact IH|now constructor].
Qed.

Lemma py_strip_Forall (P : ascii -> Prop) s : Forall P s -> Forall P (py_strip s).
Proof.
  intros H. unfold py_strip, rstrip_by, lstrip_by.
  apply Forall_rev, drop_while_Forall, Forall_rev, drop_while_Forall, H.
Qed.

Lemma collapse_Forall (P : ascii -> Prop) s : forall b,
  P " "%char -> Forall P s -> Forall P (collapse_scan b s).
Proof.
  induction s as [|c t IH]; intros b Hsp H; [constructor|].
  inversion H; subst. cbn [collapse_scan]. destruct (py_isspace c).
  - destruct b; [now apply IH|constructor; [assumption|now apply IH]].
  - constructor; [assumption|now apply IH].
Qed.

(* ------------------------------------------------------------------ *)
(** * NameNormalizer: properties *)
(* ------------------------------------------------------------------ *)

Lemma pattern1_good : good_pattern pattern1 = true.
Proof. vm_compute. reflexivity. Qed.

Lemma pattern2_good : good_pattern pattern2 = true.
Proof. vm_compute. reflexivity. Qed.

Lemma preprocess_name_str s :
  preprocess_name (PStr s)
  = py_strip (re_sub_spaces (strip_titles pattern2 (strip_titles pattern1 (py_lower s)))).
Proof. reflexivity. Qed.

Lemma words_strip_titles p s :
  good_pattern p = true ->
  words (strip_titles p s) = filter (fun w => negb (mem_ci w (alts p))) (words s).
Proof.
  intros Hp. unfold strip_titles. rewrite words_py_strip.
  now apply words_re_sub_title.
Qed.

Lemma words_preprocess_name s :
  words (preprocess_name (PStr s))
  = filter (fun w => negb (mem_ci w (alts pattern2)))
      (filter (fun w => negb (mem_ci w (alts pattern1))) (words (py_lower s))).
Proof.
  rewrite preprocess_name_str, words_py_strip. unfold re_sub_spaces.
  rewrite words_collapse, (words_strip_titles pattern2 _ pattern2_good).
  now rewrite (words_strip_titles pattern1 _ pattern1_good).
Qed.

Lemma preprocess_name_word_free s w :
  In w (words (preprocess_name (PStr s))) ->
  mem_ci w (alts pattern1) = false /\ mem_ci w (alts pattern2) = false.
Proof.
  rewrite words_preprocess_name. intros H.
  apply filter_In in H as [H H2]. apply filter_In in H as [_ H1].
  apply negb_true_iff in H1, H2. auto.
Qed.

Lemma honorific_is_removed tok w :
  In tok honorifics -> py_lower w = tok ->
  mem_ci w (alts pattern1) = true \/ mem_ci w (alts pattern2) = true.
Proof.
  intros Hin Hw. unfold mem_ci. rewrite Hw.
  repeat (destruct Hin as [<- | Hin]; [vm_compute; auto|]). destruct Hin.
Qed.

Lemma preprocess_name_tidy s : tidy false (preprocess_name (PStr s)) = true.
Proof.
  rewrite preprocess_name_str. apply (tidy_py_strip _ false). apply collapse_tidy.
Qed.

Lemma preprocess_name_lowered s : Forall lowered (preprocess_name (PStr s)).
Proof.
  rewrite preprocess_name_str. unfold strip_titles, re_sub_title, re_sub_spaces.
  apply py_strip_Forall, collapse_Forall; [reflexivity|].
  apply py_strip_Forall, sub_scan_Forall, py_strip_Forall, sub_scan_Forall.
  apply py_lower_lowered.
Qed.

(** An occurrence of a word between two boundaries is one of the words of
    the text: this is what [standalone_word] looks for. *)
Lemma standalone_word_occurrence pre tok post :
  tok <> [] -> all_word tok = true ->
  nonword_head (rev pre) = true -> nonword_head post = true ->
  standalone_word (py_lower tok) (pre ++ tok ++ post) = true.
Proof.
  intros Hne Hw Hpre Hpost. unfold standalone_word.
  apply existsb_exists. exists tok. split; [|now apply text_eqb_eq].
  assert (Hcut : forall a b, nonword_head (rev a) = true ->
                 words (a ++ b) = words a ++ words b).
  { intros a b. induction a as [|c t IH] using rev_ind; [reflexivity|].
    rewrite rev_app_distr. cbn [rev app nonword_head]. intros Hc.
    apply negb_true_iff in Hc. rewrite <- app_assoc. cbn [app].
    rewrite (words_app t (c :: b)) by (simpl; now rewrite Hc).
    rewrite (words_app t [c]) by (simpl; now rewrite Hc).
    rewrite (words_nonword c b Hc). simpl. rewrite Hc. now rewrite app_nil_r. }
  rewrite Hcut by assumption. rewrite (words_word_app tok post Hne Hw Hpost).
  apply in_or_app. right. now left.
Qed.

(** C7.  For every input that is not a string the normaliser returns the
    empty string; for every input the result has none of the honorific
    tokens of the fixed list (lic, dr, ing, sr, sra, srta, licenciado,
    doctor, ingeniero, maestro) among its words, and no two whitespace
    characters in a row. *)
Theorem preprocess_name_clean (name : pyval) :
  (if is_str name then True else preprocess_name name = [])
  /\ forallb (fun tok => negb (standalone_word tok (preprocess_name name)))
       honorifics = true
  /\ space_run (preprocess_name name) = false.
Proof.
  destruct name as [| | | |s| | |]; try (repeat split; reflexivity).
  split; [exact I|]. split.
  - apply forallb_forall. intros tok Hin. apply negb_true_iff.
    destruct (standalone_word tok (preprocess_name (PStr s))) eqn:E; [|reflexivity].
    unfold standalone_word in E. apply existsb_exists in E as (w & Hw & Heq).
    apply text_eqb_eq in Heq.
    destruct (preprocess_name_word_free s w Hw) as [H1 H2].
    destruct (honorific_is_removed tok w Hin Heq); congruence.
  - apply (tidy_no_space_run _ false), preprocess_name_tidy.
Qed.

(** C8.  The normaliser is idempotent: normalising its own result, for a
    string or any other input, changes nothing. *)
Theorem preprocess_name_idempotent (x : pyval) :
  preprocess_name (PStr (preprocess_name x)) = preprocess_name x.
Proof.
  destruct x as [| | | |s| | |]; try reflexivity.
  set (r := preprocess_name (PStr s)).
  assert (Hfree : forall p, p = pattern1 \/ p = pattern2 ->
            forallb (fun w => negb (mem_ci w (alts p))) (words r) = true).
  { intros p Hp. apply forallb_forall. intros w Hw. apply negb_true_iff.
    destruct (preprocess_name_word_free s w Hw) as [H1 H2].
    destruct Hp; subst p; assumption. }
  assert (Hstrip : py_strip r = r).
  { unfold r. rewrite preprocess_name_str. apply py_strip_idem. }
  assert (Ht : forall p, p = pattern1 \/ p = pattern2 -> strip_titles p r = r).
  { intros p Hp. unfold strip_titles.
    rewrite re_sub_title_fixed; [exact Hstrip| |now apply Hfree].
    destruct Hp; subst p; [apply pattern1_good|apply pattern2_good]. }
  rewrite preprocess_name_str.
  rewrite (py_lower_fixed r (preprocess_name_lowered s)).
  rewrite (Ht pattern1) by auto. rewrite (Ht pattern2) by auto.
  unfold re_sub_spaces. rewrite (tidy_fixed r false (preprocess_name_tidy s)).
  exact Hstrip.
Qed.

(* ------------------------------------------------------------------ *)
(** * ValueCoercers: examples *)
(* ------------------------------------------------------------------ *)

Example parse_percentage_ex1 :
  parse_percentage (PStr (lit "100,00%")) = Return (Some (decimal false 100 0)).
Proof. vm_compute. reflexivity. Qed.

Example parse_percentage_ex2 :
  parse_percentage (PStr (lit " 1_0.5_5e1_0 % ")) = Return (Some (decimal false 1055 8)).
Proof. vm_compute. reflexivity. Qed.

Example parse_percentage_ex3 :
  map parse_percentage
    [PStr (lit "abc"); PStr []; PStr (lit "%"); PStr (lit "1_"); PStr (lit ".");
     PStr (lit "1e"); PStr (lit "infi"); PStr (lit "0x10"); PStr (lit "5 %%x"); PNone]
  = repeat (Return None) 10.
Proof. vm_compute. reflexivity. Qed.

Example parse_percentage_ex4 :
  map parse_percentage [PStr (lit "+inFinity"); PStr (lit "-nan"); PStr (lit "5.");
                        PInt 42; PBool true]
  = [Return (Some (FInf false)); Return (Some FNan); Return (Some (decimal false 5 0));
     Return (Some (decimal false 42 0)); Return (Some (decimal false 1 0))].
Proof. vm_compute. reflexivity. Qed.

Example parse_date_ex1 :
  parse_date (PStr (lit "6/3/25")) = Return (Some (PDate {| year := 2025; month := 3; day := 6 |})).
Proof. vm_compute. reflexivity. Qed.

Example parse_date_ex2 :
  map parse_date [PStr []; PStr (lit "13/13/25"); PStr (lit "31/2/25");
                  PStr (lit "01/012/68"); PStr (lit "1/1/2025"); PStr (lit "00/1/25");
                  PStr (lit "29/2/25"); PInt 3]
  = repeat (Return None) 8.
Proof. vm_compute. reflexivity. Qed.

Example parse_date_ex3 :
  map parse_date [PStr (lit "29/2/00"); PStr (lit "1/1/69"); PStr (lit " 01/12/68 ")]
  = [Return (Some (PDate {| year := 2000; month := 2; day := 29 |}));
     Return (Some (PDate {| year := 1969; month := 1; day := 1 |}));
     Return (Some (PDate {| year := 2068; month := 12; day := 1 |}))].
Proof. vm_compute. reflexivity. Qed.

(* ------------------------------------------------------------------ *)
(** * GridExtractor: properties *)
(* ------------------------------------------------------------------ *)

Example extract_example :
  extract_worksheet_data example_worksheet = Return (example_results (lit "5to")).
Proof. vm_compute. reflexivity. Qed.

Lemma res_bind_Return {A B} (r : res A) (k : A -> res B) b :
  res_bind r k = Return b -> exists a, r = Return a /\ k a = Return b.
Proof. destruct r as [e|a]; simpl; [discriminate|eauto]. Qed.

Lemma scan_rows_cons g st r rows acc st' pp tc :
  row_step g st r = Return (st', pp, tc) ->
  scan_rows g st (r :: rows) acc
  = scan_rows g st' rows
      {| period_progress := period_progress acc ++ pp;
         topic_completion := topic_completion acc ++ tc |}.
Proof. intros H. cbn [scan_rows]. rewrite H. reflexivity. Qed.

(** The result of the loop is the records of the rows, in row order. *)
Lemma scan_rows_trace g rows : forall st acc,
  scan_rows g st rows acc
  = res_bind (scan_trace g st rows) (fun evs =>
      Return {| period_progress := period_progress acc ++ flat_map ev_progress evs;
                topic_completion := topic_completion acc ++ flat_map ev_topics evs |}).
Proof.
  induction rows as [|r rows IH]; intros st acc.
  - simpl. rewrite !app_nil_r. now destruct acc.
  - cbn [scan_rows scan_trace].
    destruct (row_step g st r) as [e|[[st' pp] tc]]; [reflexivity|].
    cbn [res_bind]. rewrite IH.
    destruct (scan_trace g st' rows) as [e|evs]; [reflexivity|].
    cbn [res_bind flat_map period_progress topic_completion ev_progress ev_topics].
    now rewrite !app_assoc.
Qed.

(** Before the first period header no row emits anything. *)
Lemma headerless_row_step g st r :
  headerless_row r = true ->
  current_periodo st = 0%Z -> expect_period_progress_next st = false ->
  row_step g st r = Return (st, [], []).
Proof.
  unfold headerless_row, row_step. intros Hh Hcp Hf.
  destruct (period_match r); [discriminate|]. rewrite Hf, Hcp.
  rewrite andb_false_r. destruct st as [cp fl]. simpl in Hf, Hcp. now subst.
Qed.

Lemma scan_rows_headerless g rows : forall acc rest,
  forallb headerless_row rows = true ->
  scan_rows g initial_state (rows ++ rest) acc = scan_rows g initial_state rest acc.
Proof.
  induction rows as [|r rows IH]; intros acc rest Hb; [reflexivity|].
  simpl in Hb. apply andb_true_iff in Hb as [Hr Hb]. cbn [app].
  rewrite (scan_rows_cons g initial_state r _ acc initial_state [] []
             (headerless_row_step g initial_state r Hr eq_refl eq_refl)).
  rewrite !app_nil_r. destruct acc as [a b]. now apply IH.
Qed.

Lemma cell_is_nth r i s : cell_is r i s = true -> nth_error r i = Some (lit s).
Proof.
  unfold cell_is. destruct (nth_error r i) as [c|]; [|discriminate].
  intros H. apply text_eqb_eq in H. now subst.
Qed.

(** No date in the columns [cols]: the inner loop of a topic row appends
    nothing. *)
Lemma topic_records_none g p num title r cols :
  forallb (fun pc => no_date_at r (snd pc)) cols = true ->
  topic_records g p num title r cols = Return [].
Proof.
  induction cols as [|[par idx] cols IH]; [reflexivity|].
  cbn [forallb snd]. intros H. apply andb_true_iff in H as [Hc H].
  cbn [topic_records]. rewrite (IH H). unfold no_date_at in Hc.
  destruct (nth_error r idx) as [c|]; [|reflexivity].
  destruct (parse_date (PStr c)) as [e|[d|]]; try discriminate. reflexivity.
Qed.

(** A spacer row met while no progress row is expected changes nothing. *)
Lemma spacer_row_step g st r :
  spacer_row r = true -> expect_period_progress_next st = false ->
  row_step g st r = Return (st, [], []).
Proof.
  unfold spacer_row, headerless_row, row_step. intros Hi Hf.
  apply andb_true_iff in Hi as [Hh He].
  destruct (period_match r); [discriminate|]. rewrite Hf.
  destruct st as [cp fl]. cbn [expect_period_progress_next current_periodo] in *.
  subst fl.
  destruct (is_nil (cell_or_empty py_strip r 4)); cbn [negb andb orb] in *;
    [reflexivity|].
  destruct (0 <? cp)%Z; [|reflexivity].
  now rewrite topic_records_none.
Qed.

Lemma scan_rows_spacers g rows : forall st acc rest,
  forallb spacer_row rows = true -> expect_period_progress_next st = false ->
  scan_rows g st (rows ++ rest) acc = scan_rows g st rest acc.
Proof.
  induction rows as [|r rows IH]; intros st acc rest Hb Hf; [reflexivity|].
  simpl in Hb. apply andb_true_iff in Hb as [Hr Hb].
  cbn [app]. rewrite (scan_rows_cons g st r _ acc st [] [] (spacer_row_step g st r Hr Hf)).
  rewrite !app_nil_r. destruct acc as [a b]. now apply IH.
Qed.

(** A row with "1ER PERIODO" in column A is the header of period 1,
    whatever its other cells hold. *)
Lemma period_1_header_step g st h :
  period_1_header h = true ->
  row_step g st h
  = Return ({| current_periodo := 1; expect_period_progress_next := true |}, [], []).
Proof.
  intros H. apply cell_is_nth in H.
  assert (Hm : period_match h = Some (lit "1")).
  { unfold period_match, cell_or_empty. rewrite H.
    generalize (match nth_error h 6 with
                | Some c => py_upper (py_strip c)
                | None => []
                end).
    intros cell_g. reflexivity. }
  unfold row_step. rewrite Hm. reflexivity.
Qed.

(** The row with the two percentages, met right below the header of
    period 1. *)
Lemma percentages_row_step g p :
  headerless_row p = true -> percentages_row p = true ->
  no_percentage_at p 16 = true -> no_percentage_at p 17 = true ->
  row_step g {| current_periodo := 1; expect_period_progress_next := true |} p
  = Return ({| current_periodo := 1; expect_period_progress_next := false |},
            period_progress (example_results g), []).
Proof.
  unfold headerless_row, percentages_row, no_percentage_at, row_step.
  intros Hh Hp H16 H17. apply andb_true_iff in Hp as [HO HP].
  apply cell_is_nth in HO, HP.
  destruct (period_match p); [discriminate|].
  cbn [expect_period_progress_next current_periodo progress_records paralelo_indices].
  rewrite HO, HP.
  change (parse_percentage (PStr (lit "90%")))
    with (Return (A := option pyfloat) (Some (decimal false 900 (-1)))).
  change (parse_percentage (PStr (lit "85%")))
    with (Return (A := option pyfloat) (Some (decimal false 850 (-1)))).
  destruct (nth_error p 16) as [c16|];
    [destruct (parse_percentage (PStr c16)) as [e|[v|]]; try discriminate|];
    (destruct (nth_error p 17) as [c17|];
     [destruct (parse_percentage (PStr c17)) as [e|[v|]]; try discriminate|]);
    reflexivity.
Qed.

(** The topic row, met in period 1 when no progress row is expected. *)
Lemma fracciones_row_step g t :
  headerless_row t = true -> fracciones_row t = true ->
  no_date_at t 15 = true -> no_date_at t 16 = true -> no_date_at t 17 = true ->
  row_step g {| current_periodo := 1; expect_period_progress_next := false |} t
  = Return ({| current_periodo := 1; expect_period_progress_next := false |},
            [], topic_completion (example_results g)).
Proof.
  unfold headerless_row, fracciones_row, no_date_at, row_step.
  intros Hh Ht H15 H16 H17. apply andb_true_iff in Ht as [Ht HO].
  apply andb_true_iff in Ht as [HE HD]. apply cell_is_nth in HE, HD, HO.
  destruct (period_match t); [discriminate|].
  cbn [expect_period_progress_next current_periodo]. unfold cell_or_empty.
  rewrite HE, HD.
  change (py_strip (lit "Fracciones")) with (lit "Fracciones").
  change (py_strip (lit "3")) with (lit "3").
  cbn [topic_records paralelo_indices is_nil negb andb lit list_ascii_of_string].
  change (0 <? 1)%Z with true. cbn iota.
  cbn [topic_records]. rewrite HO.
  change (parse_date (PStr (lit "6/3/25")))
    with (Return (A := option pyval)
            (Some (PDate {| year := 2025; month := 3; day := 6 |}))).
  destruct (nth_error t 15) as [c15|];
    [destruct (parse_date (PStr c15)) as [e|[v|]]; try discriminate|];
    (destruct (nth_error t 16) as [c16|];
     [destruct (parse_date (PStr c16)) as [e|[v|]]; try discriminate|]);
    (destruct (nth_error t 17) as [c17|];
     [destruct (parse_date (PStr c17)) as [e|[v|]]; try discriminate|]);
    reflexivity.
Qed.

(** C1, as the code has it.  A grid made of any rows without a period
    header, a row with "1ER PERIODO" in column A, directly below it a row
    that is no period header with "90%" in column O, "85%" in column P and
    no percentage in the columns Q and R, any spacer rows, a row that is
    no period header with "Fracciones" in column E, "3" in column D,
    "6/3/25" in column O and no date in the columns P to R, and any spacer
    rows: the extraction returns exactly two period-progress records
    (periodo 1, A with 90.0, then B with 85.0) and exactly one
    topic-completion record (periodo 1, A, number "3", title "Fracciones",
    date 2025-03-06).  The rows may have any width and any other cells. *)
Theorem extract_example_grid (ws : worksheet) (before between after : grid)
    (h p t : row) :
  get_as_df ws = Return (before ++ [h; p] ++ between ++ [t] ++ after) ->
  forallb headerless_row before = true ->
  period_1_header h = true ->
  headerless_row p = true -> percentages_row p = true ->
  no_percentage_at p 16 = true -> no_percentage_at p 17 = true ->
  forallb spacer_row between = true ->
  headerless_row t = true -> fracciones_row t = true ->
  no_date_at t 15 = true -> no_date_at t 16 = true -> no_date_at t 17 = true ->
  forallb spacer_row after = true ->
  extract_worksheet_data ws = Return (example_results (wks_title ws)).
Proof.
  intros Hdf Hb Hh Hp1 Hp2 Hp3 Hp4 Hm Ht1 Ht2 Ht3 Ht4 Ht5 Ha.
  unfold extract_worksheet_data. rewrite Hdf.
  set (g := wks_title ws).
  rewrite scan_rows_headerless by assumption.
  cbn [app].
  rewrite (scan_rows_cons g initial_state h _ empty_results _ [] []
             (period_1_header_step g initial_state h Hh)).
  cbn [period_progress topic_completion empty_results app].
  rewrite (scan_rows_cons g _ p _ _ _ _ []
             (percentages_row_step g p Hp1 Hp2 Hp3 Hp4)).
  cbn [period_progress topic_completion app].
  rewrite scan_rows_spacers by (assumption || reflexivity).
  rewrite (scan_rows_cons g _ t _ _ _ [] _
             (fracciones_row_step g t Ht1 Ht2 Ht3 Ht4 Ht5)).
  cbn [period_progress topic_completion app].
  rewrite <- (app_nil_r after), scan_rows_spacers by (assumption || reflexivity).
  rewrite app_nil_r. reflexivity.
Qed.

Lemma extract_example_grid_witness :
  extract_worksheet_data example_worksheet
  = Return (example_results (wks_title example_worksheet))
  /\ extract_worksheet_data narrow_worksheet
     = Return (example_results (wks_title narrow_worksheet)).
Proof.
  split.
  - apply (extract_example_grid example_worksheet [] [row_of []] []
             example_header example_progress example_topic); reflexivity.
  - apply (extract_example_grid narrow_worksheet
             [narrow_row [(0, "PLAN ANUAL"); (4, "Unidad")]%string]
             [narrow_row [(4, "Objetivos"); (14, "pendiente")]%string]
             [narrow_row [(0, "revisado"); (14, "7/3/25")]%string]
             (narrow_row [(0, "1ER PERIODO"); (1, "febrero - marzo")]%string)
             (narrow_row [(14, "90%"); (15, "85%")]%string)
             (narrow_row [(4, "Fracciones"); (3, "3"); (14, "6/3/25")]%string));
      reflexivity.
Defined.

(** C1, as the specification words it, fails.  The grid with a blank row
    between the header and the row with the percentages holds the three
    rows in order, and the extraction gives no period-progress record for
    it: the progress row is the row directly below the header, whatever it
    holds. *)
Lemma extract_example_grid_displaced :
  in_order example_header example_progress example_topic displaced_grid
  /\ period_1_header example_header = true
  /\ percentages_row example_progress = true
  /\ fracciones_row example_topic = true
  /\ extract_worksheet_data displaced_worksheet
     = Return {| period_progress := [];
                 topic_completion := topic_completion (example_results (lit "5to")) |}
  /\ extract_worksheet_data displaced_worksheet
     <> Return (example_results (lit "5to")).
Proof.
  split; [exists [], [row_of []], [], []; reflexivity|].
  split; [reflexivity|]. split; [reflexivity|]. split; [reflexivity|].
  split; [vm_compute; reflexivity|].
  vm_compute. discriminate.
Qed.

(** Why the other rows of the grid matter: each of these grids holds the
    three rows of the example in order, and gives three period-progress
    records, two topic-completion records, and no topic-completion record
    at all. *)
Lemma example_rows_not_alone :
  (exists r, extract_worksheet_data (worksheet_of three_sections_grid) = Return r
             /\ List.length (period_progress r) = 3
             /\ List.length (topic_completion r) = 1)
  /\ (exists r, extract_worksheet_data (worksheet_of two_topics_grid) = Return r
                /\ List.length (period_progress r) = 2
                /\ List.length (topic_completion r) = 2)
  /\ (exists r, extract_worksheet_data (worksheet_of second_header_grid) = Return r
                /\ List.length (period_progress r) = 2
                /\ List.length (topic_completion r) = 0).
Proof.
  repeat split; eexists; (split; [vm_compute; reflexivity|]); split; reflexivity.
Qed.

Lemma progress_records_spec g p r cols : forall pps,
  progress_records g p r cols = Return pps ->
  forall x, In x pps -> pp_periodo x = p /\ (0 < p)%Z.
Proof.
  induction cols as [|[par idx] cols IH]; intros pps H x Hx.
  - injection H as <-. destruct Hx.
  - cbn [progress_records] in H.
    apply res_bind_Return in H as (here & Hhere & H).
    apply res_bind_Return in H as (more & Hmore & H). injection H as <-.
    apply in_app_or in Hx as [Hx|Hx]; [|now apply (IH more)].
    destruct (nth_error r idx) as [cell|]; [|injection Hhere as <-; destruct Hx].
    apply res_bind_Return in Hhere as ([v|] & _ & Hv);
      [|injection Hv as <-; destruct Hx].
    destruct (0 <? p)%Z eqn:E; injection Hv as <-; [|destruct Hx].
    destruct Hx as [<-|[]]. split; [reflexivity|now apply Z.ltb_lt].
Qed.

Lemma topic_records_spec g p num title r cols : forall tcs,
  topic_records g p num title r cols = Return tcs ->
  forall x, In x tcs -> tc_periodo x = p.
Proof.
  induction cols as [|[par idx] cols IH]; intros tcs H x Hx.
  - injection H as <-. destruct Hx.
  - cbn [topic_records] in H.
    apply res_bind_Return in H as (here & Hhere & H).
    apply res_bind_Return in H as (more & Hmore & H). injection H as <-.
    apply in_app_or in Hx as [Hx|Hx]; [|now apply (IH more)].
    destruct (nth_error r idx) as [cell|]; [|injection Hhere as <-; destruct Hx].
    apply res_bind_Return in Hhere as ([d|] & _ & Hd); injection Hd as <-;
      [|destruct Hx].
    destruct Hx as [<-|[]]. reflexivity.
Qed.

(** What one iteration does, case by case. *)
Lemma row_step_spec g st r st' pp tc :
  row_step g st r = Return (st', pp, tc) ->
  match period_match r with
  | Some ds =>
      current_periodo st' = digits_to_Z ds
      /\ expect_period_progress_next st' = true /\ pp = [] /\ tc = []
  | None =>
      current_periodo st' = current_periodo st
      /\ expect_period_progress_next st' = false
      /\ (if expect_period_progress_next st then tc = [] else pp = [])
      /\ (forall x, In x pp ->
            pp_periodo x = current_periodo st /\ (0 < current_periodo st)%Z)
      /\ (forall x, In x tc ->
            tc_periodo x = current_periodo st /\ (0 < current_periodo st)%Z)
  end.
Proof.
  unfold row_step. destruct (period_match r) as [ds|].
  - intros H. apply res_bind_Return in H as (n & Hn & H). injection H as <- <- <-.
    unfold py_int in Hn. destruct (int_max_str_digits <? List.length ds); [discriminate|].
    injection Hn as <-. auto.
  - destruct (expect_period_progress_next st) eqn:Ef.
    + intros H. apply res_bind_Return in H as (pps & Hp & H). injection H as <- <- <-.
      split; [reflexivity|]. split; [reflexivity|]. split; [reflexivity|]. split.
      * intros x Hx. exact (progress_records_spec _ _ _ _ _ Hp x Hx).
      * intros x [].
    + destruct (negb (is_nil (cell_or_empty py_strip r 4))
                && (0 <? current_periodo st)%Z) eqn:Et.
      * intros H. apply res_bind_Return in H as (tcs & Ht & H). injection H as <- <- <-.
        apply andb_true_iff in Et as [_ Et]. apply Z.ltb_lt in Et.
        split; [reflexivity|]. split; [exact Ef|]. split; [reflexivity|]. split.
        -- intros x [].
        -- intros x Hx. split; [|exact Et].
           exact (topic_records_spec _ _ _ _ _ _ _ Ht x Hx).
      * intros H. injection H as <- <- <-.
        split; [reflexivity|]. split; [reflexivity|]. split; [reflexivity|].
        split; intros x [].
Qed.

Lemma last_header_period_snoc pre r :
  last_header_period (pre ++ [r])
  = match period_match r with
    | Some ds => digits_to_Z ds
    | None => last_header_period pre
    end.
Proof.
  unfold last_header_period. rewrite rev_app_distr. cbn [rev app first_some].
  now destruct (period_match r).
Qed.

Lemma follows_header_snoc pre r :
  follows_header (pre ++ [r]) = is_some (period_match r).
Proof. unfold follows_header. now rewrite rev_app_distr. Qed.

(** The carried state is a function of the rows above, and every event of
    the trace is one iteration of the loop on its row. *)
Lemma scan_trace_inv g rows : forall pre st evs,
  scan_trace g st rows = Return evs ->
  current_periodo st = last_header_period pre ->
  expect_period_progress_next st = follows_header pre ->
  List.length evs = List.length rows /\
  forall i ev, nth_error evs i = Some ev ->
    nth_error rows i = Some (ev_row ev)
    /\ current_periodo (ev_state ev) = last_header_period (pre ++ firstn i rows)
    /\ expect_period_progress_next (ev_state ev) = follows_header (pre ++ firstn i rows)
    /\ exists st', row_step g (ev_state ev) (ev_row ev)
                   = Return (st', ev_progress ev, ev_topics ev).
Proof.
  induction rows as [|r rows IH]; intros pre st evs H Hcp Hfl.
  - injection H as <-. split; [reflexivity|]. intros [|i] ev; discriminate.
  - cbn [scan_trace] in H. apply res_bind_Return in H as ([[st' pp] tc] & Hstep & H).
    apply res_bind_Return in H as (evs' & Hrest & H). injection H as <-.
    pose proof (row_step_spec _ _ _ _ _ _ Hstep) as Hspec.
    assert (Hcp' : current_periodo st' = last_header_period (pre ++ [r])).
    { rewrite last_header_period_snoc. destruct (period_match r); [tauto|].
      destruct Hspec as (-> & _). exact Hcp. }
    assert (Hfl' : expect_period_progress_next st' = follows_header (pre ++ [r])).
    { rewrite follows_header_snoc. destruct (period_match r); simpl; tauto. }
    destruct (IH (pre ++ [r]) st' evs' Hrest Hcp' Hfl') as [Hlen Hev].
    split; [simpl; now rewrite Hlen|].
    intros [|i] ev Hnth.
    + injection Hnth as <-. cbn [firstn nth_error ev_row ev_state ev_progress ev_topics].
      rewrite app_nil_r. eauto.
    + cbn [nth_error firstn] in *. destruct (Hev i ev Hnth) as (H1 & H2 & H3 & H4).
      rewrite <- app_assoc in H2, H3. auto.
Qed.

Lemma extract_trace ws df result :
  get_as_df ws = Return df ->
  extract_worksheet_data ws = Return result ->
  exists evs,
    scan_trace (wks_title ws) initial_state df = Return evs
    /\ period_progress result = flat_map ev_progress evs
    /\ topic_completion result = flat_map ev_topics evs.
Proof.
  intros Hdf H. unfold extract_worksheet_data in H. rewrite Hdf, scan_rows_trace in H.
  apply res_bind_Return in H as (evs & Hevs & H). injection H as <-. eauto.
Qed.

(** C2.  In every grid, every period-progress and topic-completion record
    carries a strictly positive periodo, the number captured from the most
    recent period-header row above the row that emitted it; a row met
    while the carried period is 0 emits no record. *)
Theorem records_carry_header_period (ws : worksheet) (df : grid) (result : results) :
  get_as_df ws = Return df ->
  extract_worksheet_data ws = Return result ->
  each_row (wks_title ws) df result (fun i ev =>
    current_periodo (ev_state ev) = last_header_period (firstn i df)
    /\ (forall x, In x (ev_progress ev) ->
          pp_periodo x = last_header_period (firstn i df) /\ (0 < pp_periodo x)%Z)
    /\ (forall x, In x (ev_topics ev) ->
          tc_periodo x = last_header_period (firstn i df) /\ (0 < tc_periodo x)%Z)
    /\ (current_periodo (ev_state ev) = 0%Z ->
          ev_progress ev = [] /\ ev_topics ev = [])).
Proof.
  intros Hdf H. destruct (extract_trace ws df result Hdf H) as (evs & Htr & Hpp & Htc).
  exists evs. destruct (scan_trace_inv _ _ [] _ _ Htr eq_refl eq_refl) as [Hlen Hev].
  split; [exact Htr|]. split; [exact Hpp|]. split; [exact Htc|]. split; [exact Hlen|].
  intros i ev Hnth. destruct (Hev i ev Hnth) as (Hrow & Hcp & _ & st' & Hstep).
  simpl in Hcp. apply row_step_spec in Hstep.
  split; [exact Hrow|]. split; [exact Hcp|].
  destruct (period_match (ev_row ev)).
  - destruct Hstep as (_ & _ & -> & ->).
    split; [intros x []|]. split; [intros x []|]. auto.
  - destruct Hstep as (_ & _ & _ & Hp & Ht). rewrite <- Hcp.
    split; [|split].
    + intros x Hx. destruct (Hp x Hx) as [E L]. rewrite E. auto.
    + intros x Hx. destruct (Ht x Hx) as [E L]. rewrite E. auto.
    + intros Hz. split.
      * destruct (ev_progress ev) as [|x l]; [reflexivity|].
        destruct (Hp x (or_introl eq_refl)). lia.
      * destruct (ev_topics ev) as [|x l]; [reflexivity|].
        destruct (Ht x (or_introl eq_refl)). lia.
Qed.

Lemma records_carry_header_period_witness :
  each_row (lit "5to") example_grid (example_results (lit "5to")) (fun i ev =>
    current_periodo (ev_state ev) = last_header_period (firstn i example_grid)
    /\ (forall x, In x (ev_progress ev) ->
          pp_periodo x = last_header_period (firstn i example_grid)
          /\ (0 < pp_periodo x)%Z)
    /\ (forall x, In x (ev_topics ev) ->
          tc_periodo x = last_header_period (firstn i example_grid)
          /\ (0 < tc_periodo x)%Z)
    /\ (current_periodo (ev_state ev) = 0%Z ->
          ev_progress ev = [] /\ ev_topics ev = [])).
Proof.
  exact (records_carry_header_period example_worksheet example_grid
           (example_results (lit "5to")) eq_refl extract_example).
Defined.

(** C3.  In every grid, the records of a row come from one archetype at
    most, tried in the order header, progress, topic, other: a period
    header row emits nothing; the row just below a period header emits no
    topic-completion record, whatever its column E holds; any other row
    emits no period-progress record. *)
Theorem row_archetypes_exclusive (ws : worksheet) (df : grid) (result : results) :
  get_as_df ws = Return df ->
  extract_worksheet_data ws = Return result ->
  each_row (wks_title ws) df result (fun i ev =>
    expect_period_progress_next (ev_state ev) = follows_header (firstn i df)
    /\ (is_some (period_match (ev_row ev)) = true ->
          ev_progress ev = [] /\ ev_topics ev = [])
    /\ (follows_header (firstn i df) = true -> ev_topics ev = [])
    /\ (is_some (period_match (ev_row ev)) = false ->
          follows_header (firstn i df) = false -> ev_progress ev = [])
    /\ (ev_progress ev = [] \/ ev_topics ev = [])).
Proof.
  intros Hdf H. destruct (extract_trace ws df result Hdf H) as (evs & Htr & Hpp & Htc).
  exists evs. destruct (scan_trace_inv _ _ [] _ _ Htr eq_refl eq_refl) as [Hlen Hev].
  split; [exact Htr|]. split; [exact Hpp|]. split; [exact Htc|]. split; [exact Hlen|].
  intros i ev Hnth. destruct (Hev i ev Hnth) as (Hrow & _ & Hfl & st' & Hstep).
  simpl in Hfl. apply row_step_spec in Hstep.
  split; [exact Hrow|]. split; [exact Hfl|]. rewrite <- Hfl.
  destruct (period_match (ev_row ev)); cbn [is_some].
  - destruct Hstep as (_ & _ & -> & ->). auto.
  - destruct Hstep as (_ & _ & Hx & _).
    destruct (expect_period_progress_next (ev_state ev)).
    + repeat split; auto; discriminate.
    + repeat split; auto; discriminate.
Qed.

Lemma row_archetypes_exclusive_witness :
  each_row (lit "5to") example_grid (example_results (lit "5to")) (fun i ev =>
    expect_period_progress_next (ev_state ev) = follows_header (firstn i example_grid)
    /\ (is_some (period_match (ev_row ev)) = true ->
          ev_progress ev = [] /\ ev_topics ev = [])
    /\ (follows_header (firstn i example_grid) = true -> ev_topics ev = [])
    /\ (is_some (period_match (ev_row ev)) = false ->
          follows_header (firstn i example_grid) = false -> ev_progress ev = [])
    /\ (ev_progress ev = [] \/ ev_topics ev = [])).
Proof.
  exact (row_archetypes_exclusive example_worksheet example_grid
           (example_results (lit "5to")) eq_refl extract_example).
Defined.


(** An interrupt is no failure of the fetch: [except Exception] lets an
    exception that does not derive from [Exception] through. *)
Remark fetch_interrupt_propagates (ws : worksheet) (e : exn) :
  get_as_df ws = Raise e ->
  isinstance_exn e Exception = false ->
  extract_worksheet_data ws = Raise e.
Proof.
  intros Hdf He. unfold extract_worksheet_data. now rewrite Hdf, He.
Qed.


(* ------------------------------------------------------------------ *)
(** * ValueCoercers: properties *)
(* ------------------------------------------------------------------ *)

Lemma float_of_str_raises s e :
  float_of_str s = Raise e -> exn_cls e = ValueError.
Proof.
  unfold float_of_str.
  destruct (if negb (existsb (is_code 95) _) then _ else _); [discriminate|].
  intros H. injection H as <-. reflexivity.
Qed.

Lemma strptime_dmy_raises s e :
  strptime_dmy s = Raise e -> exn_cls e = ValueError.
Proof.
  unfold strptime_dmy. destruct (match_dmy s) as [[[[d m] y] rest]|].
  - destruct (negb (is_nil rest)); [intros H; injection H as <-; reflexivity|].
    destruct (d <=? _)%Z; [discriminate|]. intros H. injection H as <-. reflexivity.
  - intros H. injection H as <-. reflexivity.
Qed.

(** [parse_date] returns for every input. *)
Lemma parse_date_never_raises (value : pyval) :
  exists r, parse_date value = Return r.
Proof.
  destruct value as [| | | |s| | |]; try (eexists; reflexivity).
  unfold parse_date. cbn [isinstance_date].
  destruct (is_nil (py_strip s)); [eexists; reflexivity|].
  destruct (strptime_dmy (py_strip s)) as [e|d] eqn:E; cbn [res_bind try_except].
  - unfold isinstance_exn. rewrite (strptime_dmy_raises _ _ E). eexists; reflexivity.
  - eexists; reflexivity.
Qed.

(** When [parse_date] gives no date the cause is one of the failure
    paths: a value that is neither a date nor a string, a string that is
    empty once stripped, or one [strptime] refuses. *)
Lemma parse_date_absent (value : pyval) :
  parse_date value = Return None ->
  match value with
  | PStr s => is_nil (py_strip s) = true
              \/ exists e, strptime_dmy (py_strip s) = Raise e
  | PDate _ | PDatetime _ _ => False
  | _ => True
  end.
Proof.
  destruct value as [| | | |s| | |]; try (intros; exact I); try discriminate.
  unfold parse_date. cbn [isinstance_date].
  destruct (is_nil (py_strip s)); [now left|].
  destruct (strptime_dmy (py_strip s)) as [e|d]; [right; eauto|discriminate].
Qed.

(** [parse_percentage] returns for every input except an [int] too large
    for a float. *)
Lemma parse_percentage_never_raises_otherwise (value : pyval) :
  match value with
  | PInt n => (Z.abs n < 2 ^ 1024 - 2 ^ 970)%Z
  | _ => True
  end ->
  exists r, parse_percentage value = Return r.
Proof.
  destruct value as [|b|n|f|s| | |]; intros H; try (eexists; reflexivity).
  - destruct b; eexists; reflexivity.
  - cbn [parse_percentage]. unfold float_of_int.
    destruct (Z.leb_spec (2 ^ 1024 - 2 ^ 970) (Z.abs n)); [lia|].
    eexists; reflexivity.
  - cbn [parse_percentage]. destruct (is_nil (clean_percentage s)); [eexists; reflexivity|].
    destruct (float_of_str (clean_percentage s)) as [e|f] eqn:E; cbn [res_bind try_except].
    + unfold isinstance_exn. rewrite (float_of_str_raises _ _ E). eexists; reflexivity.
    + eexists; reflexivity.
Qed.

(** C6 fails on the code.  [parse_percentage] hands an [int] to [float()]
    outside its [try]: for 2**1024 the conversion raises [OverflowError],
    which reaches the caller. *)
Theorem parse_percentage_overflow :
  parse_percentage (PInt (2 ^ 1024))
  = Raise (Exn OverflowError (lit "int too large to convert to float")).
Proof. vm_compute. reflexivity. Qed.

Lemma py_replace_char_gone a b s :
  a <> b -> ~ In a (py_replace_char a b s).
Proof.
  intros Hab. unfold py_replace_char. rewrite in_map_iff. intros (c & Hc & _).
  destruct (Ascii.eqb_spec c a); congruence.
Qed.

Lemma rstrip_by_last f s x c : rstrip_by f s = x ++ [c] -> f c = false.
Proof.
  unfold rstrip_by. intros H. apply (f_equal (@rev ascii)) in H.
  rewrite rev_involutive, rev_app_distr in H. cbn [rev app] in H.
  pose proof (drop_while_head f (rev s)) as Hh. now rewrite H in Hh.
Qed.

Lemma drop_while_incl f s c : In c (drop_while f s) -> In c s.
Proof.
  induction s as [|a t IH]; [easy|]. simpl. destruct (f a); [right; auto|easy].
Qed.

Lemma rstrip_by_incl f s c : In c (rstrip_by f s) -> In c s.
Proof.
  unfold rstrip_by. intros H. apply in_rev in H. apply drop_while_incl in H.
  now apply in_rev.
Qed.

Lemma clean_percentage_no_comma s : ~ In ","%char (clean_percentage s).
Proof.
  unfold clean_percentage, py_strip, py_rstrip_char, lstrip_by. intros H.
  apply rstrip_by_incl, drop_while_incl, rstrip_by_incl in H.
  apply rstrip_by_incl, drop_while_incl in H.
  revert H. apply py_replace_char_gone. discriminate.
Qed.

(** C9.  In the cleaning of [parse_percentage] every comma becomes a dot
    and every trailing percent sign goes: each character of the replaced
    text is the dot where the text had a comma and the same character
    elsewhere, no comma is left in the cleaned text, the text
    [rstrip('%')] returns never ends with a percent sign, and so "1,234"
    gives 1.234, "50%%" gives 50.0 and "1,2,3" gives the absent marker. *)
Theorem parse_percentage_cleaning :
  (forall s i,
     nth_error (py_replace_char "," "." s) i
     = option_map (fun c => if Ascii.eqb c "," then "."%char else c) (nth_error s i))
  /\ (forall s, existsb (Ascii.eqb ",") (clean_percentage s) = false)
  /\ (forall s, ends_with "%" (py_rstrip_char "%" s) = false)
  /\ parse_percentage (PStr (lit "1,234")) = Return (Some (decimal false 1234 (-3)))
  /\ parse_percentage (PStr (lit "50%%")) = Return (Some (decimal false 500 (-1)))
  /\ parse_percentage (PStr (lit "1,2,3")) = Return None.
Proof.
  split.
  { intros s i. unfold py_replace_char. apply nth_error_map. }
  split.
  { intros s. destruct (existsb _ _) eqn:E; [|reflexivity].
    apply existsb_exists in E as (c & Hc & Heq). apply Ascii.eqb_eq in Heq. subst c.
    now apply clean_percentage_no_comma in Hc. }
  split.
  { intros s. unfold ends_with, py_rstrip_char, rstrip_by. rewrite rev_involutive.
    pose proof (drop_while_head (Ascii.eqb "%") (rev s)) as H.
    destruct (drop_while _ (rev s)) as [|x t]; [reflexivity|].
    now rewrite Ascii.eqb_sym. }
  repeat split; vm_compute; reflexivity.
Qed.

(** C10.  [parse_date] returns a value of a subtype of [date] as it is: a
    [datetime] comes back as that same [datetime], time of day included,
    not as a calendar date. *)
Theorem parse_date_keeps_datetime :
  (forall d, parse_date (PDate d) = Return (Some (PDate d)))
  /\ (forall d t, parse_date (PDatetime d t) = Return (Some (PDatetime d t)))
  /\ (forall d t,
        match parse_date (PDatetime d t) with
        | Return (Some (PDatetime d' t')) => d' = d /\ t' = t
        | _ => False
        end).
Proof.
  split; [|split]; intros; cbn [parse_date isinstance_date]; auto.
Qed.

(* ------------------------------------------------------------------ *)
(** * SheetKeyResolver and WorksheetValidator: properties *)
(* ------------------------------------------------------------------ *)

Example extract_sheet_key_ex :
  extract_sheet_key_from_url example_url = Some (lit "ABC123-xyz")
  /\ extract_sheet_key_from_url (lit "https://example.com") = None
  /\ extract_sheet_key_from_url (lit "x/spreadsheets/d//spreadsheets/d/a-_b:c/")
     = Some (lit "a-_b").
Proof. repeat split; vm_compute; reflexivity. Qed.

Example find_valid_example :
  find_valid_teacher_worksheets
    (fun _ => Return (example_client (Return PNone)))
    (fun a b => Return (if text_eqb a b then 100 else 0)%Z)
    example_url (lit "key.json") (lit "E3") (lit "DOCENTE") (lit "E4") 80
  = ([CallAuthorize (lit "key.json"); CallOpenByKey (lit "ABC123-xyz"); CallWorksheets;
      CallGetValue (lit "5to") (lit "E3"); CallGetValue (lit "5to") (lit "E4");
      CallTokenSetRatio (lit "maria lopez") (lit "maria lopez");
      CallGetValue (lit "6to") (lit "E3")],
     Return [lit "5to"]).
Proof. vm_compute. reflexivity. Qed.

Lemma extract_sheet_key_nonempty url : forall key,
  extract_sheet_key_from_url url = Some key -> key <> [].
Proof.
  induction url as [|c t IH]; intros key; cbn [extract_sheet_key_from_url].
  - destruct (strip_prefix _ []) as [r|]; [|discriminate].
    destruct (take_while is_key_char r); cbn [is_nil]; [discriminate|].
    intros H. injection H as <-. discriminate.
  - destruct (strip_prefix _ (c :: t)) as [r|]; [|apply IH].
    destruct (take_while is_key_char r); cbn [is_nil]; [apply IH|].
    intros H. injection H as <-. discriminate.
Qed.

(** C4.  When no key can be extracted from the URL the validator raises
    [ValueError] before any call to the spreadsheet service.  When the
    pass over the worksheets raises an error, the validator raises that
    very error if it is an [ImportError], and otherwise one
    [RuntimeError], raised from it, whose message ends with the
    spreadsheet key. *)
Theorem validator_errors (authorize : text -> res client)
    (token_set_ratio : text -> text -> res Z) :
  (forall sheet_url path hc ev nc th,
     extract_sheet_key_from_url sheet_url = None ->
     find_valid_teacher_worksheets authorize token_set_ratio sheet_url path hc ev nc th
     = ([], Raise (Exn ValueError
                     (lit "Could not extract valid sheet key from URL: " ++ sheet_url))))
  /\
  (forall sheet_url path hc ev nc th key gc sh calls e,
     extract_sheet_key_from_url sheet_url = Some key ->
     authorize path = Return gc ->
     open_by_key gc key = Return sh ->
     worksheets_pass token_set_ratio hc ev nc th sh = (calls, Raise e) ->
     isinstance_exn e Exception = true ->
     snd (find_valid_teacher_worksheets authorize token_set_ratio
            sheet_url path hc ev nc th)
     = Raise (if isinstance_exn e ImportError then e
              else ExnFrom RuntimeError
                     (lit "Error processing worksheets in sheet " ++ key) e)).
Proof.
  split.
  - intros sheet_url path hc ev nc th H. unfold find_valid_teacher_worksheets.
    now rewrite H.
  - intros sheet_url path hc ev nc th key gc sh calls e Hkey Hgc Hsh Hpass He.
    unfold find_valid_teacher_worksheets. rewrite Hkey.
    destruct key as [|k key]; [now apply extract_sheet_key_nonempty in Hkey|].
    unfold get_pygsheets_client, io_call. cbn [io_bind]. rewrite Hgc, Hsh.
    unfold wrap_worksheet_errors. rewrite Hpass.
    destruct (isinstance_exn e ImportError); [reflexivity|]. now rewrite He.
Qed.

Lemma validator_errors_witness :
  find_valid_teacher_worksheets
    (fun _ => Return (example_client (Return PNone))) (fun _ _ => Return 100%Z)
    (lit "https://example.com") (lit "key.json")
    (lit "E3") (lit "DOCENTE") (lit "E4") 80
  = ([], Raise (Exn ValueError
                  (lit "Could not extract valid sheet key from URL: https://example.com")))
  /\ snd (find_valid_teacher_worksheets
            (fun _ => Return (example_client
                                (Raise (Exn (OtherError "HttpError") (lit "quota")))))
            (fun _ _ => Return 100%Z)
            example_url (lit "key.json") (lit "E3") (lit "DOCENTE") (lit "E4") 80)
     = Raise (ExnFrom RuntimeError (lit "Error processing worksheets in sheet ABC123-xyz")
                (Exn (OtherError "HttpError") (lit "quota")))
  /\ snd (find_valid_teacher_worksheets
            (fun _ => Return (example_client (Return PNone)))
            (fun _ _ => Raise (Exn ModuleNotFoundError (lit "No module named 'thefuzz'")))
            example_url (lit "key.json") (lit "E3") (lit "DOCENTE") (lit "E4") 80)
     = Raise (Exn ModuleNotFoundError (lit "No module named 'thefuzz'")).
Proof.
  split; [|split].
  - apply (proj1 (validator_errors _ _)). reflexivity.
  - eapply (proj2 (validator_errors _ _) example_url (lit "key.json") (lit "E3")
              (lit "DOCENTE") (lit "E4") 80%Z (lit "ABC123-xyz")
              (example_client (Raise (Exn (OtherError "HttpError") (lit "quota"))))
              _ _ (Exn (OtherError "HttpError") (lit "quota")));
      reflexivity.
  - eapply (proj2 (validator_errors _ _) example_url (lit "key.json") (lit "E3")
              (lit "DOCENTE") (lit "E4") 80%Z (lit "ABC123-xyz")
              (example_client (Return PNone))
              _ _ (Exn ModuleNotFoundError (lit "No module named 'thefuzz'")));
      reflexivity.
Defined.

(* ------------------------------------------------------------------ *)
(** * SheetKeyResolver: further properties *)
(* ------------------------------------------------------------------ *)

Lemma strip_prefix_app pre : forall s r,
  strip_prefix pre s = Some r <-> s = pre ++ r.
Proof.
  induction pre as [|p pre IH]; intros s r; cbn [strip_prefix app].
  - split; [intros H; now injection H|intros ->; reflexivity].
  - destruct s as [|c s]; [split; discriminate|].
    destruct (Ascii.eqb_spec p c) as [->|Hne].
    + rewrite IH. split; [intros ->; reflexivity|intros H; now injection H].
    + split; [discriminate|intros H; injection H; congruence].
Qed.

Lemma take_while_split f s :
  exists rest, s = take_while f s ++ rest
               /\ match rest with c :: _ => f c = false | [] => True end.
Proof.
  induction s as [|c t (rest & E & H)]; [now exists []|].
  cbn [take_while]. destruct (f c) eqn:Ec.
  - exists rest. split; [cbn [app]; now f_equal|exact H].
  - now exists (c :: t).
Qed.

Lemma take_while_all f s : forallb f (take_while f s) = true.
Proof.
  induction s as [|c t IH]; [reflexivity|]. cbn [take_while].
  destruct (f c) eqn:E; [cbn; now rewrite E|reflexivity].
Qed.

Lemma take_while_app f k rest :
  forallb f k = true ->
  match rest with c :: _ => f c = false | [] => True end ->
  take_while f (k ++ rest) = k.
Proof.
  intros Hk Hr. induction k as [|c k IH].
  - destruct rest as [|c r]; [reflexivity|]. cbn. now rewrite Hr.
  - cbn in Hk. apply andb_true_iff in Hk as [Hc Hk]. cbn. rewrite Hc. f_equal. auto.
Qed.

Lemma extract_sheet_key_unfold url :
  extract_sheet_key_from_url url
  = match key_at url with
    | Some k => Some k
    | None => match url with
              | _ :: t => extract_sheet_key_from_url t
              | [] => None
              end
    end.
Proof. destruct url; reflexivity. Qed.

Lemma key_at_sound s k :
  key_at s = Some k ->
  k <> [] /\ forallb is_key_char k = true
  /\ exists post, s = key_marker ++ k ++ post /\ key_head post = false.
Proof.
  unfold key_at. destruct (strip_prefix key_marker s) as [r|] eqn:E; [|discriminate].
  apply strip_prefix_app in E. destruct (take_while is_key_char r) as [|c k'] eqn:Ek;
    [discriminate|].
  cbn [is_nil]. intros H. injection H as <-. split; [discriminate|].
  split; [rewrite <- Ek; apply take_while_all|].
  destruct (take_while_split is_key_char r) as (post & Hr & Hp).
  exists post. rewrite Ek in Hr. split; [now rewrite E, Hr|].
  destruct post; [reflexivity|exact Hp].
Qed.

Lemma key_at_complete k post :
  k <> [] -> forallb is_key_char k = true -> key_head post = false ->
  key_at (key_marker ++ k ++ post) = Some k.
Proof.
  intros Hne Hk Hp. unfold key_at.
  rewrite (proj2 (strip_prefix_app key_marker _ (k ++ post)) eq_refl).
  rewrite take_while_app; [destruct k; [congruence|reflexivity]|exact Hk|].
  destruct post; [exact I|exact Hp].
Qed.

(** X1.  A key the resolver returns is not empty, is made of key
    characters only, stands in the URL right after the first
    "/spreadsheets/d/" that a key character follows, and is the longest
    such run: the character after it, if any, is no key character. *)
Theorem sheet_key_sound (url key : text) :
  extract_sheet_key_from_url url = Some key ->
  key <> [] /\ forallb is_key_char key = true
  /\ exists pre post,
       url = pre ++ key_marker ++ key ++ post
       /\ key_head post = false
       /\ forall p q, pre = p ++ q -> q <> [] ->
            key_at (q ++ key_marker ++ key ++ post) = None.
Proof.
  assert (Hnil : forall (p q : text), [] = p ++ q -> q <> [] -> False).
  { intros p q Hpq Hq. destruct p; destruct q; try discriminate. congruence. }
  revert key. induction url as [|c t IH]; intros key H;
    rewrite extract_sheet_key_unfold in H.
  - destruct (key_at []) eqn:E; [|discriminate]. injection H as ->.
    destruct (key_at_sound _ _ E) as (Hne & Hk & post & Hs & Hp).
    split; [exact Hne|]. split; [exact Hk|]. exists [], post.
    split; [exact Hs|]. split; [exact Hp|].
    intros p q Hpq Hq. destruct (Hnil p q Hpq Hq).
  - destruct (key_at (c :: t)) eqn:E.
    + injection H as ->. destruct (key_at_sound _ _ E) as (Hne & Hk & post & Hs & Hp).
      split; [exact Hne|]. split; [exact Hk|]. exists [], post.
      split; [exact Hs|]. split; [exact Hp|].
      intros p q Hpq Hq. destruct (Hnil p q Hpq Hq).
    + destruct (IH key H) as (Hne & Hk & pre & post & Hs & Hp & Hleft).
      split; [exact Hne|]. split; [exact Hk|]. exists (c :: pre), post.
      split; [cbn [app]; now rewrite Hs|]. split; [assumption|].
      intros p q Hpq Hq. destruct p as [|c' p].
      * cbn [app] in Hpq. subst q. cbn [app]. now rewrite <- Hs.
      * cbn [app] in Hpq. injection Hpq as _ Hpq. now apply (Hleft p q).
Qed.

Lemma sheet_key_sound_witness :
  lit "ABC123-xyz" <> [] /\ forallb is_key_char (lit "ABC123-xyz") = true
  /\ exists pre post,
       example_url = pre ++ key_marker ++ lit "ABC123-xyz" ++ post
       /\ key_head post = false
       /\ forall p q, pre = p ++ q -> q <> [] ->
            key_at (q ++ key_marker ++ lit "ABC123-xyz" ++ post) = None.
Proof. exact (sheet_key_sound example_url (lit "ABC123-xyz") eq_refl). Defined.

(** X2.  The resolver finds no key exactly when no "/spreadsheets/d/" of
    the URL is followed by a key character. *)
Theorem sheet_key_absent (url : text) :
  extract_sheet_key_from_url url = None
  <-> (forall pre c post, url = pre ++ key_marker ++ c :: post ->
         is_key_char c = false).
Proof.
  split.
  - induction url as [|a t IH]; intros H pre c post Hs;
      rewrite extract_sheet_key_unfold in H.
    + destruct pre; discriminate.
    + destruct (key_at (a :: t)) eqn:E; [discriminate|].
      destruct pre as [|a' pre].
      * cbn [app] in Hs. unfold key_at in E.
        rewrite (proj2 (strip_prefix_app key_marker (a :: t) (c :: post)) Hs) in E.
        cbn [take_while] in E. destruct (is_key_char c); [discriminate|reflexivity].
      * cbn [app] in Hs. injection Hs as _ Hs. now apply (IH H pre c post).
  - induction url as [|a t IH]; intros H; rewrite extract_sheet_key_unfold.
    + reflexivity.
    + assert (E : key_at (a :: t) = None).
      { destruct (key_at (a :: t)) as [k|] eqn:E; [|reflexivity].
        destruct (key_at_sound _ _ E) as (Hne & Hk & post & Hs & _).
        destruct k as [|c k]; [congruence|]. cbn in Hk.
        apply andb_true_iff in Hk as [Hc _].
        rewrite (H [] c (k ++ post) Hs) in Hc. discriminate. }
      rewrite E. apply IH. intros pre c post Hs.
      apply (H (a :: pre) c post). cbn [app]. now rewrite Hs.
Qed.

Lemma sheet_key_absent_witness :
  extract_sheet_key_from_url (lit "https://docs.google.com/spreadsheets/d/?usp=sharing") = None
  /\ is_key_char "?" = false.
Proof.
  split; [reflexivity|].
  exact (proj1 (sheet_key_absent (lit "https://docs.google.com/spreadsheets/d/?usp=sharing"))
           eq_refl (lit "https://docs.google.com") "?"%char (lit "usp=sharing") eq_refl).
Defined.

Lemma key_at_before_marker c t rest :
  slash_s_free (c :: t) = true ->
  key_at ((c :: t) ++ key_marker ++ rest) = None.
Proof.
  intros H. unfold key_at.
  destruct (strip_prefix key_marker ((c :: t) ++ key_marker ++ rest)) as [r|] eqn:E;
    [|reflexivity].
  exfalso. destruct t as [|d t].
  - cbn [app strip_prefix key_marker lit list_ascii_of_string] in E.
    destruct (Ascii.eqb "/" c); [cbn in E|]; discriminate.
  - cbn [slash_s_free] in H. apply andb_true_iff in H as [H _].
    cbn [app strip_prefix key_marker lit list_ascii_of_string] in E.
    destruct (Ascii.eqb_spec "/"%char c) as [<-|]; [|discriminate].
    destruct (Ascii.eqb_spec "s"%char d) as [<-|]; [|discriminate].
    discriminate.
Qed.

(** X3.  Round trip.  A URL built from any text free of "/s", the marker
    "/spreadsheets/d/", a non-empty key of key characters, and a rest that
    does not go on with a key character, gives that key back. *)
Theorem sheet_key_round_trip (pre key post : text) :
  slash_s_free pre = true ->
  key <> [] -> forallb is_key_char key = true -> key_head post = false ->
  extract_sheet_key_from_url (pre ++ key_marker ++ key ++ post) = Some key.
Proof.
  intros Hpre Hne Hk Hp. induction pre as [|c t IH].
  - rewrite extract_sheet_key_unfold. cbn [app].
    now rewrite key_at_complete.
  - rewrite extract_sheet_key_unfold, key_at_before_marker by assumption.
    cbn [app]. apply IH. destruct t; [reflexivity|].
    cbn [slash_s_free] in Hpre. now apply andb_true_iff in Hpre as [_ Hpre].
Qed.

Lemma sheet_key_round_trip_witness :
  extract_sheet_key_from_url
    (lit "https://docs.google.com" ++ key_marker ++ lit "ABC123-xyz" ++ lit "/edit")
  = Some (lit "ABC123-xyz").
Proof.
  apply (sheet_key_round_trip (lit "https://docs.google.com") (lit "ABC123-xyz")
           (lit "/edit")); (reflexivity || discriminate).
Defined.

(* ------------------------------------------------------------------ *)
(** * ValueCoercers: further properties *)
(* ------------------------------------------------------------------ *)

Lemma between_bounds lo hi c :
  between lo hi c = true -> (lo <= code c <= hi)%N.
Proof.
  unfold between. intros H. apply andb_true_iff in H as [H1 H2].
  apply N.leb_le in H1, H2. auto.
Qed.

Lemma is_code_code n c : is_code n c = true -> code c = n.
Proof. unfold is_code. apply N.eqb_eq. Qed.

Ltac char_facts :=
  repeat match goal with
  | H : (_ && _)%bool = true |- _ => apply andb_true_iff in H; destruct H
  | H : between _ _ _ = true |- _ => apply between_bounds in H
  | H : is_digit _ = true |- _ => unfold is_digit in H
  | H : is_code _ _ = true |- _ => apply is_code_code in H
  end.

Lemma digit_val_between lo hi c :
  between lo hi c = true ->
  (Z.of_N lo - 48 <= digit_val c <= Z.of_N hi - 48)%Z.
Proof. intros H. apply between_bounds in H. unfold digit_val. lia. Qed.

Ltac digit_facts :=
  repeat match goal with
  | H : (_ && _)%bool = true |- _ => apply andb_true_iff in H; destruct H
  | H : is_digit _ = true |- _ => unfold is_digit in H
  | H : between _ _ _ = true |- _ => apply digit_val_between in H; cbn in H
  end.

Lemma first_some_Some {A B} (f : A -> option B) l b :
  first_some f l = Some b -> exists a, In a l /\ f a = Some b.
Proof.
  induction l as [|a l IH]; [discriminate|]. cbn [first_some].
  destruct (f a) eqn:E.
  - intros H. injection H as <-. exists a. split; [now left|exact E].
  - intros H. destruct (IH H) as (a' & Hin & Ha'). exists a'. split; [now right|exact Ha'].
Qed.

Lemma day_candidates_bounds s d r :
  In (d, r) (day_candidates s) -> (1 <= d <= 31)%Z.
Proof.
  unfold day_candidates. intros H.
  repeat (apply in_app_or in H; destruct H as [H|H]);
    destruct s as [|a [|b t]]; try destruct H;
    repeat (apply in_app_or in H; destruct H as [H|H]);
    repeat match type of H with
    | In _ (if ?c then _ else _) => destruct c eqn:?; [|destruct H]
    | In _ [_] =>
        destruct H as [H|[]]; apply (f_equal fst) in H; cbn [fst] in H; subst d
    end; digit_facts; lia.
Qed.

Lemma month_candidates_bounds s m r :
  In (m, r) (month_candidates s) -> (1 <= m <= 12)%Z.
Proof.
  unfold month_candidates. intros H.
  repeat (apply in_app_or in H; destruct H as [H|H]);
    destruct s as [|a [|b t]]; try destruct H;
    repeat (apply in_app_or in H; destruct H as [H|H]);
    repeat match type of H with
    | In _ (if ?c then _ else _) => destruct c eqn:?; [|destruct H]
    | In _ [_] =>
        destruct H as [H|[]]; apply (f_equal fst) in H; cbn [fst] in H; subst m
    end; digit_facts; lia.
Qed.

Lemma match_dmy_bounds s d m y rest :
  match_dmy s = Some (d, m, y, rest) ->
  (1 <= d <= 31 /\ 1 <= m <= 12 /\ 0 <= y <= 99)%Z.
Proof.
  unfold match_dmy. intros H.
  apply first_some_Some in H as ([d' r1] & Hd & H).
  destruct r1 as [|sl r2]; [discriminate|].
  destruct (is_code 47 sl); [|discriminate].
  apply first_some_Some in H as ([m' r3] & Hm & H).
  destruct r3 as [|sl2 [|y1 [|y2 r4]]]; try discriminate.
  destruct (is_code 47 sl2 && is_digit y1 && is_digit y2) eqn:E; [|discriminate].
  assert (Hy : y = (10 * digit_val y1 + digit_val y2)%Z) by congruence.
  assert (Hd' : d' = d) by congruence. assert (Hm' : m' = m) by congruence.
  clear H. subst.
  apply day_candidates_bounds in Hd. apply month_candidates_bounds in Hm.
  digit_facts. lia.
Qed.

Lemma strptime_dmy_valid s d : strptime_dmy s = Return d -> valid_date d = true.
Proof.
  unfold strptime_dmy. intros H.
  destruct (match_dmy s) as [[[[dd m] y] rest]|] eqn:E; [|discriminate].
  destruct (negb (is_nil rest)); [discriminate|]. cbv zeta in H.
  set (yy := (if (y <=? 68)%Z then y + 2000 else y + 1900)%Z) in H.
  destruct (Z.leb_spec dd (days_in_month yy m)) as [Hle|Hgt]; [|discriminate].
  assert (Hd : d = {| year := yy; month := m; day := dd |}) by congruence.
  subst d. apply match_dmy_bounds in E. unfold valid_date. cbn [year month day].
  assert (1969 <= yy <= 2068)%Z by (unfold yy; destruct (Z.leb_spec y 68); lia).
  repeat (apply andb_true_iff; split); apply Z.leb_le; lia.
Qed.

(** What [parse_date] gives on a string is absent or a date that exists. *)
Lemma parse_date_str_cases s :
  parse_date (PStr s) = Return None
  \/ exists d, parse_date (PStr s) = Return (Some (PDate d)) /\ valid_date d = true.
Proof.
  unfold parse_date. cbn [isinstance_date].
  destruct (is_nil (py_strip s)); [now left|].
  destruct (strptime_dmy (py_strip s)) as [e|d] eqn:E; cbn [res_bind try_except].
  - unfold isinstance_exn. rewrite (strptime_dmy_raises _ _ E). now left.
  - right. exists d. split; [reflexivity|]. now apply strptime_dmy_valid in E.
Qed.

(** X4.  A date [parse_date] reads from a string is a calendar date that
    exists, in a year from 1969 to 2068. *)
Theorem parse_date_valid (s : text) (v : pyval) :
  parse_date (PStr s) = Return (Some v) ->
  exists d, v = PDate d /\ valid_date d = true.
Proof.
  intros H. destruct (parse_date_str_cases s) as [E|(d & E & Hd)];
    rewrite E in H; [discriminate|].
  exists d. split; [congruence|exact Hd].
Qed.

Lemma parse_date_valid_witness :
  exists d, PDate {| year := 2025; month := 3; day := 6 |} = PDate d
            /\ valid_date d = true.
Proof. exact (parse_date_valid (lit "6/3/25") _ eq_refl). Defined.

Lemma round_trip_table :
  forallb (fun y => forallb (fun m => forallb (fun d =>
             round_trip_ok (Z.of_nat y) (Z.of_nat m) (Z.of_nat d))
           (seq 1 31)) (seq 1 12)) (seq 1969 100) = true.
Proof. vm_compute. reflexivity. Qed.

(** X5.  Round trip.  Every calendar date from 1969 to 2068, written
    day/month/two-digit year with or without leading zeros in the day and
    in the month, is read back by [parse_date] as that date. *)
Theorem parse_date_round_trip (pad_day pad_month : bool) (d : date) :
  valid_date d = true ->
  parse_date (PStr (format_dmy pad_day pad_month d)) = Return (Some (PDate d)).
Proof.
  intros Hv. pose proof Hv as Hb. unfold valid_date in Hb.
  repeat (apply andb_true_iff in Hb; destruct Hb as [Hb ?]).
  repeat match goal with H : (_ <=? _)%Z = true |- _ => apply Z.leb_le in H end.
  assert (Hd31 : (day d <= 31)%Z).
  { unfold days_in_month in *.
    repeat match goal with
           | H : context [if ?c then _ else _] |- _ => destruct c
           end; lia. }
  pose proof round_trip_table as T. rewrite forallb_forall in T.
  assert (T1 := T (Z.to_nat (year d)) ltac:(apply in_seq; lia)).
  rewrite forallb_forall in T1.
  assert (T2 := T1 (Z.to_nat (month d)) ltac:(apply in_seq; lia)).
  rewrite forallb_forall in T2.
  assert (Hok := T2 (Z.to_nat (day d)) ltac:(apply in_seq; lia)).
  rewrite !Z2Nat.id in Hok by lia. clear T T1 T2.
  unfold round_trip_ok in Hok. destruct d as [y m dd]. cbn [year month day] in *.
  rewrite Hv in Hok. cbn [negb orb] in Hok. rewrite forallb_forall in Hok.
  specialize (Hok (pad_day, pad_month)). cbn [fst snd] in Hok.
  assert (Hin : In (pad_day, pad_month)
                  [(false, false); (false, true); (true, false); (true, true)]).
  { destruct pad_day, pad_month; cbn; tauto. }
  specialize (Hok Hin).
  destruct (parse_date _) as [e|[[| | | | |r| |]|]]; try discriminate.
  apply andb_true_iff in Hok as [Hok Ed]. apply andb_true_iff in Hok as [Ey Em].
  apply Z.eqb_eq in Ey, Em, Ed. destruct r as [ry rm rd]. cbn in Ey, Em, Ed.
  now subst.
Qed.

Lemma parse_date_round_trip_witness :
  parse_date (PStr (format_dmy true true {| year := 2025; month := 3; day := 6 |}))
  = Return (Some (PDate {| year := 2025; month := 3; day := 6 |})).
Proof. apply parse_date_round_trip. reflexivity. Defined.

(** [parse_percentage] returns for every string. *)
Lemma parse_percentage_str_returns s :
  exists r, parse_percentage (PStr s) = Return r.
Proof.
  cbn [parse_percentage]. destruct (is_nil (clean_percentage s)); [eexists; reflexivity|].
  destruct (float_of_str (clean_percentage s)) as [e|f] eqn:E; cbn [res_bind try_except].
  - unfold isinstance_exn. rewrite (float_of_str_raises _ _ E). eexists; reflexivity.
  - eexists; reflexivity.
Qed.


Lemma drop_while_none f s :
  forallb (fun c => negb (f c)) s = true -> drop_while f s = s.
Proof.
  destruct s as [|c t]; [reflexivity|]. cbn. intros H.
  apply andb_true_iff in H as [H _]. apply negb_true_iff in H. now rewrite H.
Qed.

Lemma forallb_rev {A} (f : A -> bool) l : forallb f (rev l) = forallb f l.
Proof.
  induction l as [|a l IH]; [reflexivity|]. cbn [rev].
  rewrite forallb_app, IH. cbn. now rewrite andb_true_r, andb_comm.
Qed.

Lemma rstrip_by_none f s :
  forallb (fun c => negb (f c)) s = true -> rstrip_by f s = s.
Proof.
  intros H. unfold rstrip_by. rewrite drop_while_none by now rewrite forallb_rev.
  apply rev_involutive.
Qed.

Lemma rstrip_by_snoc f s c : f c = true -> rstrip_by f (s ++ [c]) = rstrip_by f s.
Proof.
  intros H. unfold rstrip_by. rewrite rev_app_distr. cbn. now rewrite H.
Qed.

Lemma py_strip_none s :
  forallb (fun c => negb (py_isspace c)) s = true -> py_strip s = s.
Proof.
  intros H. unfold py_strip, lstrip_by. rewrite drop_while_none by assumption.
  now apply rstrip_by_none.
Qed.

Lemma numeral_char_facts c :
  numeral_char c = true ->
  py_isspace c = false /\ c_isspace c = false /\ Ascii.eqb "%" c = false
  /\ Ascii.eqb c "," = false /\ is_code 95 c = false /\ (code c <? 128)%N = true.
Proof. all_chars c; repeat split. Qed.

Lemma digit_is_numeral c : is_digit c = true -> numeral_char c = true.
Proof. unfold numeral_char. now intros ->. Qed.

Lemma digit_not_sign c :
  is_digit c = true -> is_code 45 c = false /\ is_code 43 c = false /\ is_code 46 c = false.
Proof. all_chars c; repeat split. Qed.

Lemma forallb_impl {A} (f g : A -> bool) l :
  (forall a, f a = true -> g a = true) -> forallb f l = true -> forallb g l = true.
Proof.
  intros Hfg. rewrite !forallb_forall. auto.
Qed.

Lemma span_digits_app ds rest :
  forallb is_digit ds = true ->
  match rest with c :: _ => is_digit c = false | [] => True end ->
  span_digits (ds ++ rest) = (ds, rest).
Proof.
  intros Hd Hr. induction ds as [|c ds IH].
  - destruct rest as [|c r]; [reflexivity|]. cbn. now rewrite Hr.
  - cbn in Hd. apply andb_true_iff in Hd as [Hc Hd]. cbn [app span_digits].
    now rewrite Hc, IH.
Qed.

Lemma numeral_text_facts x :
  forallb numeral_char x = true ->
  forallb (fun c => negb (py_isspace c)) x = true
  /\ forallb (fun c => negb (c_isspace c)) x = true
  /\ forallb (fun c => negb (Ascii.eqb "%" c)) x = true
  /\ py_replace_char "," "." x = x
  /\ existsb (is_code 95) x = false
  /\ is_ascii_text x = true.
Proof.
  induction x as [|c x IH]; [repeat split|]. cbn [forallb]. intros H.
  apply andb_true_iff in H as [Hc Hx].
  destruct (numeral_char_facts c Hc) as (H1 & H2 & H3 & H4 & H5 & H6).
  destruct (IH Hx) as (I1 & I2 & I3 & I4 & I5 & I6).
  unfold is_ascii_text, py_replace_char in *. cbn [forallb existsb map].
  rewrite H1, H2, H3, H4, H5, H6, I1, I2, I3, I4, I5, I6. repeat split.
Qed.

Lemma float_of_numeral (ip fp : text) :
  ip <> [] -> forallb is_digit ip = true -> forallb is_digit fp = true ->
  float_of_str (ip ++ "."%char :: fp)
  = Return (decimal false (digits_to_Z (ip ++ fp)) (- Z.of_nat (List.length fp)))
  /\ float_of_str ip = Return (decimal false (digits_to_Z ip) 0).
Proof.
  intros Hne Hi Hf.
  assert (Hx : forallb numeral_char (ip ++ "."%char :: fp) = true).
  { rewrite forallb_app. cbn [forallb].
    rewrite (forallb_impl _ _ ip digit_is_numeral Hi),
            (forallb_impl _ _ fp digit_is_numeral Hf). reflexivity. }
  assert (Hip : forallb numeral_char ip = true)
    by exact (forallb_impl _ _ ip digit_is_numeral Hi).
  destruct ip as [|c ip]; [congruence|].
  assert (Hc : is_digit c = true) by (cbn in Hi; now apply andb_true_iff in Hi as [? _]).
  destruct (digit_not_sign c Hc) as (Hm & Hp & _).
  split.
  - destruct (numeral_text_facts _ Hx) as (_ & H2 & _ & _ & H5 & H6).
    unfold float_of_str. rewrite H6. unfold lstrip_by.
    rewrite drop_while_none, rstrip_by_none by assumption. rewrite H5. cbn [negb].
    unfold parse_float_literal.
    change ((c :: ip) ++ "."%char :: fp) with (c :: (ip ++ "."%char :: fp)).
    cbn [parse_sign]. rewrite Hm, Hp.
    change (c :: (ip ++ "."%char :: fp)) with ((c :: ip) ++ "."%char :: fp).
    rewrite span_digits_app by (assumption || reflexivity).
    change (is_code 46 ".") with true. cbn iota.
    rewrite <- (app_nil_r fp) at 1. rewrite span_digits_app by (assumption || exact I).
    cbn [is_nil andb]. reflexivity.
  - destruct (numeral_text_facts _ Hip) as (_ & H2 & _ & _ & H5 & H6).
    unfold float_of_str. rewrite H6. unfold lstrip_by.
    rewrite drop_while_none, rstrip_by_none by assumption. rewrite H5. cbn [negb].
    unfold parse_float_literal. cbn [parse_sign]. rewrite Hm, Hp.
    rewrite <- (app_nil_r (c :: ip)) at 1.
    rewrite span_digits_app by (assumption || exact I).
    cbn [is_nil andb]. rewrite app_nil_r. reflexivity.
Qed.

Lemma clean_percentage_numeral x (pct : bool) :
  forallb numeral_char x = true ->
  clean_percentage (x ++ if pct then ["%"%char] else []) = x.
Proof.
  intros Hx. destruct (numeral_text_facts _ Hx) as (H1 & _ & H3 & H4 & _ & _).
  unfold clean_percentage, py_replace_char in *. rewrite map_app, H4.
  destruct pct.
  - cbn [map]. change (Ascii.eqb "%" ",") with false. cbn iota.
    rewrite (py_strip_none (x ++ ["%"%char]))
      by (rewrite forallb_app, H1; reflexivity).
    unfold py_rstrip_char. rewrite rstrip_by_snoc by reflexivity.
    rewrite rstrip_by_none by assumption. now apply py_strip_none.
  - cbn [map]. rewrite app_nil_r.
    rewrite (py_strip_none x) by assumption.
    unfold py_rstrip_char. rewrite rstrip_by_none by assumption.
    now apply py_strip_none.
Qed.

(** X8.  A plain numeral reads as its value: digits, then optionally a
    comma or a dot and more digits, then optionally a percent sign, give
    the float of that decimal ("100,00%" gives 100.0, "25" gives 25.0). *)
Theorem parse_percentage_numeral (ip fp : text) (sep : ascii) (pct : bool) :
  ip <> [] -> forallb is_digit ip = true -> forallb is_digit fp = true ->
  is_code 44 sep || is_code 46 sep = true ->
  parse_percentage (PStr (ip ++ (if pct then ["%"%char] else [])))
  = Return (Some (decimal false (digits_to_Z ip) 0))
  /\ parse_percentage (PStr (ip ++ sep :: fp ++ (if pct then ["%"%char] else [])))
     = Return (Some (decimal false (digits_to_Z (ip ++ fp))
                       (- Z.of_nat (List.length fp)))).
Proof.
  intros Hne Hi Hf Hsep.
  destruct (float_of_numeral ip fp Hne Hi Hf) as [Fd Fi].
  assert (Hip : forallb numeral_char ip = true)
    by exact (forallb_impl _ _ ip digit_is_numeral Hi).
  assert (Hx : forallb numeral_char (ip ++ "."%char :: fp) = true).
  { rewrite forallb_app. cbn [forallb].
    rewrite Hip, (forallb_impl _ _ fp digit_is_numeral Hf). reflexivity. }
  split.
  - cbn [parse_percentage]. rewrite (clean_percentage_numeral ip pct Hip).
    destruct ip; [congruence|]. cbn [is_nil]. rewrite Fi. reflexivity.
  - assert (Hclean :
      clean_percentage (ip ++ sep :: fp ++ (if pct then ["%"%char] else []))
      = ip ++ "."%char :: fp).
    { transitivity (clean_percentage ((ip ++ "."%char :: fp)
                                        ++ if pct then ["%"%char] else []));
        [|now apply clean_percentage_numeral].
      unfold clean_percentage. do 3 f_equal. unfold py_replace_char.
      rewrite <- app_assoc. cbn [app]. rewrite !map_app. cbn [map]. do 2 f_equal.
      apply orb_true_iff in Hsep as [Hs|Hs]; apply is_code_eq in Hs; subst sep;
        reflexivity. }
    cbn [parse_percentage]. rewrite Hclean.
    destruct ip; [congruence|]. cbn [app is_nil]. cbn [app] in Fd. rewrite Fd.
    reflexivity.
Qed.

Lemma parse_percentage_numeral_witness :
  parse_percentage (PStr (lit "100" ++ ["%"%char]))
  = Return (Some (decimal false (digits_to_Z (lit "100")) 0))
  /\ parse_percentage (PStr (lit "100" ++ ","%char :: lit "00" ++ ["%"%char]))
     = Return (Some (decimal false (digits_to_Z (lit "100" ++ lit "00"))
                       (- Z.of_nat (List.length (lit "00"))))).
Proof.
  apply (parse_percentage_numeral (lit "100") (lit "00") "," true);
    (reflexivity || discriminate).
Defined.

Lemma drop_while_app_all f w s :
  forallb f w = true -> drop_while f (w ++ s) = drop_while f s.
Proof.
  induction w as [|c w IH]; [reflexivity|]. cbn. intros H.
  apply andb_true_iff in H as [Hc H]. rewrite Hc. auto.
Qed.

Lemma rstrip_by_app_all f s w :
  forallb f w = true -> rstrip_by f (s ++ w) = rstrip_by f s.
Proof.
  intros H. unfold rstrip_by. rewrite rev_app_distr.
  rewrite drop_while_app_all by now rewrite forallb_rev. reflexivity.
Qed.

Lemma drop_while_app f s w :
  drop_while f (s ++ w)
  = match drop_while f s with
    | [] => drop_while f w
    | r => r ++ w
    end.
Proof.
  induction s as [|c s IH]; cbn [app drop_while].
  - destruct (drop_while f w); reflexivity.
  - destruct (f c); [exact IH|reflexivity].
Qed.

(** Whitespace around a text does not change what [strip()] gives. *)
Lemma py_strip_pad w1 s w2 :
  forallb py_isspace w1 = true -> forallb py_isspace w2 = true ->
  py_strip (w1 ++ s ++ w2) = py_strip s.
Proof.
  intros H1 H2. unfold py_strip, lstrip_by.
  rewrite drop_while_app_all by assumption. rewrite drop_while_app.
  destruct (drop_while py_isspace s) as [|c r] eqn:E.
  - rewrite <- (app_nil_r w2), drop_while_app_all by assumption. reflexivity.
  - now apply rstrip_by_app_all.
Qed.

Lemma replace_spaces w :
  forallb py_isspace w = true -> py_replace_char "," "." w = w.
Proof.
  unfold py_replace_char.
  induction w as [|c w IH]; [reflexivity|]. cbn [forallb map]. intros H.
  apply andb_true_iff in H as [Hc H]. rewrite IH by assumption.
  destruct (Ascii.eqb_spec c ","%char) as [->|]; [discriminate|reflexivity].
Qed.

(** X9.  Whitespace before and after the text of a cell changes nothing:
    both coercers give on the padded text what they give on the text. *)
Theorem coercers_ignore_padding (w1 s w2 : text) :
  forallb py_isspace w1 = true -> forallb py_isspace w2 = true ->
  parse_percentage (PStr (w1 ++ s ++ w2)) = parse_percentage (PStr s)
  /\ parse_date (PStr (w1 ++ s ++ w2)) = parse_date (PStr s).
Proof.
  intros H1 H2. split.
  - cbn [parse_percentage].
    assert (E : clean_percentage (w1 ++ s ++ w2) = clean_percentage s).
    { unfold clean_percentage. do 2 f_equal. unfold py_replace_char.
      rewrite !map_app.
      rewrite (replace_spaces w1 H1 : map _ w1 = w1).
      rewrite (replace_spaces w2 H2 : map _ w2 = w2).
      now apply py_strip_pad. }
    now rewrite E.
  - unfold parse_date. cbn [isinstance_date]. now rewrite py_strip_pad.
Qed.

Lemma coercers_ignore_padding_witness :
  parse_percentage (PStr (lit "  " ++ lit "90%" ++ lit " "))
  = parse_percentage (PStr (lit "90%"))
  /\ parse_date (PStr (lit "  " ++ lit "6/3/25" ++ lit " "))
     = parse_date (PStr (lit "6/3/25")).
Proof.
  split.
  - apply (proj1 (coercers_ignore_padding (lit "  ") (lit "90%") (lit " ")
                    eq_refl eq_refl)).
  - apply (proj2 (coercers_ignore_padding (lit "  ") (lit "6/3/25") (lit " ")
                    eq_refl eq_refl)).
Defined.

(* ------------------------------------------------------------------ *)
(** * ValueCoercers: what they return and when they raise *)
(* ------------------------------------------------------------------ *)

(** X6.  [parse_date] raises on no input, of any type: it returns the
    absent marker or a date, and a date it did not read from a string is
    the value it was given. *)
Theorem parse_date_outcomes (value : pyval) :
  parse_date value = Return None
  \/ (isinstance_date value = true /\ parse_date value = Return (Some value))
  \/ (exists s d, value = PStr s
                  /\ parse_date value = Return (Some (PDate d))
                  /\ valid_date d = true).
Proof.
  destruct value as [| | | |s|d|d t|o]; try (left; reflexivity).
  - destruct (parse_date_str_cases s) as [E|(d & E & Hd)]; [now left|].
    right. right. exists s, d. auto.
  - right. left. split; reflexivity.
  - right. left. split; reflexivity.
Qed.

(** X7.  [parse_percentage] raises on one kind of input only, an [int] of
    magnitude 2**1024 - 2**970 or more, and what it raises then is the
    [OverflowError] of [float()]; on every other value, of any type, it
    returns. *)
Theorem parse_percentage_raises_iff (value : pyval) :
  ((exists e, parse_percentage value = Raise e)
   <-> (exists n, value = PInt n /\ (2 ^ 1024 - 2 ^ 970 <= Z.abs n)%Z))
  /\ (forall e, parse_percentage value = Raise e -> exn_cls e = OverflowError).
Proof.
  assert (Hint : forall n,
            (2 ^ 1024 - 2 ^ 970 <= Z.abs n)%Z ->
            parse_percentage (PInt n)
            = Raise (Exn OverflowError (lit "int too large to convert to float"))).
  { intros n Hn. cbn [parse_percentage]. unfold float_of_int.
    destruct (Z.leb_spec (2 ^ 1024 - 2 ^ 970) (Z.abs n)); [reflexivity|lia]. }
  assert (Hcases :
            (exists n, value = PInt n /\ (2 ^ 1024 - 2 ^ 970 <= Z.abs n)%Z)
            \/ exists r, parse_percentage value = Return r).
  { destruct value as [|b|n|f|s| | |];
      try (right; apply parse_percentage_never_raises_otherwise; exact I).
    destruct (Z.le_gt_cases (2 ^ 1024 - 2 ^ 970) (Z.abs n)) as [Hn|Hn].
    - left. eauto.
    - right. apply parse_percentage_never_raises_otherwise. lia. }
  split; [split|].
  - intros (e & He). destruct Hcases as [H|(r & Hr)]; [exact H|congruence].
  - intros (n & -> & Hn). rewrite (Hint n Hn). eauto.
  - intros e He. destruct Hcases as [(n & -> & Hn)|(r & Hr)]; [|congruence].
    rewrite (Hint n Hn) in He. injection He as <-. reflexivity.
Qed.

Lemma parse_percentage_raises_iff_witness :
  exists e, parse_percentage (PInt (2 ^ 1024)) = Raise e.
Proof.
  apply (proj2 (proj1 (parse_percentage_raises_iff (PInt (2 ^ 1024))))).
  exists (2 ^ 1024)%Z. split; [reflexivity|]. vm_compute. discriminate.
Defined.

(* ------------------------------------------------------------------ *)
(** * NameNormalizer: further properties *)
(* ------------------------------------------------------------------ *)

Lemma lowered_forallb s :
  forallb (fun c => Ascii.eqb (lower_char c) c) s = true <-> Forall lowered s.
Proof.
  rewrite forallb_forall, Forall_forall. unfold lowered.
  split; intros H c Hc; [apply Ascii.eqb_eq|apply Ascii.eqb_eq]; auto.
Qed.

Lemma preprocess_name_normal s : normal_name (preprocess_name (PStr s)) = true.
Proof.
  unfold normal_name. repeat (apply andb_true_iff; split).
  - apply lowered_forallb, preprocess_name_lowered.
  - apply preprocess_name_tidy.
  - apply text_eqb_eq. rewrite preprocess_name_str. apply py_strip_idem.
  - apply forallb_forall. intros w Hw. unfold is_title.
    destruct (preprocess_name_word_free s w Hw) as [-> ->]. reflexivity.
Qed.

Lemma normal_name_fixed s : normal_name s = true -> preprocess_name (PStr s) = s.
Proof.
  unfold normal_name. intros H.
  apply andb_true_iff in H as [H Hw]. apply andb_true_iff in H as [H Hs].
  apply andb_true_iff in H as [Hl Ht].
  apply lowered_forallb in Hl. apply text_eqb_eq in Hs.
  assert (Hfree : forall p, p = pattern1 \/ p = pattern2 ->
            forallb (fun w => negb (mem_ci w (alts p))) (words s) = true).
  { intros p Hp. apply forallb_forall. intros w Hin.
    rewrite forallb_forall in Hw. specialize (Hw w Hin). unfold is_title in Hw.
    apply negb_true_iff, orb_false_iff in Hw as [H1 H2].
    apply negb_true_iff. destruct Hp; now subst p. }
  rewrite preprocess_name_str, (py_lower_fixed s Hl). unfold strip_titles.
  rewrite (re_sub_title_fixed pattern1 pattern1_good s) by auto. rewrite Hs.
  rewrite (re_sub_title_fixed pattern2 pattern2_good s) by auto. rewrite Hs.
  unfold re_sub_spaces. rewrite (tidy_fixed s false Ht). exact Hs.
Qed.

(** X10.  Among the names written with the code points U+0000 to U+00FF
    (the strings of this embedding, see [text]), the names the normaliser
    leaves as they are are exactly the names in normal form: lower-case,
    stripped, single-spaced, and with no title among their words.  The
    statement is about that range only: [str.lower] and the case-blind
    matching of [re.IGNORECASE] are modelled there and nowhere else. *)
Theorem preprocess_name_fixed_points (s : text) :
  preprocess_name (PStr s) = s <-> normal_name s = true.
Proof.
  split.
  - intros H. rewrite <- H. apply preprocess_name_normal.
  - apply normal_name_fixed.
Qed.

Lemma preprocess_name_fixed_points_witness :
  preprocess_name (PStr (lit "maria lopez")) = lit "maria lopez".
Proof.
  apply (proj2 (preprocess_name_fixed_points (lit "maria lopez"))). reflexivity.
Defined.

Lemma nonword_head_lower t : nonword_head (py_lower t) = nonword_head t.
Proof. destruct t as [|c t]; [reflexivity|]. cbn. now rewrite is_word_lower_char. Qed.

Lemma words_py_lower s : words (py_lower s) = map py_lower (words s).
Proof.
  induction s as [|c t IH]; [reflexivity|].
  change (py_lower (c :: t)) with (lower_char c :: py_lower t).
  cbn [words]. rewrite is_word_lower_char, IH, nonword_head_lower.
  destruct (is_word c); [|reflexivity].
  destruct (words t) as [|w ws]; [reflexivity|]. cbn [map].
  destruct (nonword_head t); reflexivity.
Qed.

Lemma filter_twice {A} (f g : A -> bool) l :
  filter g (filter f l) = filter (fun a => f a && g a) l.
Proof.
  induction l as [|a l IH]; [reflexivity|]. cbn [filter].
  destruct (f a); cbn [filter andb]; [destruct (g a)|]; now rewrite IH.
Qed.

(** X11.  On a name written with the code points U+0000 to U+00FF (the
    strings of this embedding, see [text]), the normaliser keeps the
    words: the words of its result are the words of the name, lower-cased
    and in their order, the titles left out; no word is split, merged or
    changed otherwise.  The statement is about that range only, where
    [str.lower] maps one character to one character. *)
Theorem preprocess_name_keeps_words (s : text) :
  words (preprocess_name (PStr s))
  = filter (fun w => negb (is_title w)) (map py_lower (words s)).
Proof.
  rewrite words_preprocess_name, words_py_lower, filter_twice.
  apply filter_ext. intros w. unfold is_title. now rewrite negb_orb.
Qed.

(* ------------------------------------------------------------------ *)
(** * WorksheetValidator: further properties *)
(* ------------------------------------------------------------------ *)

Lemma io_bind_call {A B} (c : call) (r : res A) (k : A -> io B) calls out :
  io_bind (io_call c r) k = (calls, out) ->
  (exists e, r = Raise e /\ calls = [c] /\ out = Raise e)
  \/ (exists a calls', r = Return a /\ k a = (calls', out) /\ calls = c :: calls').
Proof.
  unfold io_bind, io_call. destruct r as [e|a].
  - intros H. injection H as <- <-. left. eauto.
  - destruct (k a) as [calls' r'] eqn:E. intros H. injection H as <- <-.
    right. exists a, calls'. auto.
Qed.

(** X12.  Access errors pass through the validator as they are: a failure
    to authorize, or to open the spreadsheet, is raised unchanged, not
    wrapped in a [RuntimeError], and no worksheet is read. *)
Theorem validator_access_errors (authorize : text -> res client)
    (token_set_ratio : text -> text -> res Z)
    (sheet_url path hc ev nc : text) (th : Z) (key : text) :
  extract_sheet_key_from_url sheet_url = Some key ->
  (forall e, authorize path = Raise e ->
     find_valid_teacher_worksheets authorize token_set_ratio sheet_url path hc ev nc th
     = ([CallAuthorize path], Raise e))
  /\ (forall gc e, authorize path = Return gc -> open_by_key gc key = Raise e ->
        find_valid_teacher_worksheets authorize token_set_ratio sheet_url path hc ev nc th
        = ([CallAuthorize path; CallOpenByKey key], Raise e)).
Proof.
  intros Hkey. pose proof (extract_sheet_key_nonempty _ _ Hkey) as Hne.
  unfold find_valid_teacher_worksheets, get_pygsheets_client, io_call.
  rewrite Hkey. destruct key as [|k key]; [congruence|]. split.
  - intros e He. cbn [io_bind]. now rewrite He.
  - intros gc e Hgc He. cbn [io_bind]. rewrite Hgc, He. reflexivity.
Qed.

Lemma validator_access_errors_witness :
  find_valid_teacher_worksheets
    (fun _ => Raise (Exn AuthenticationError (lit "invalid credentials")))
    (fun _ _ => Return 100%Z)
    example_url (lit "key.json") (lit "E3") (lit "DOCENTE") (lit "E4") 80
  = ([CallAuthorize (lit "key.json")],
     Raise (Exn AuthenticationError (lit "invalid credentials"))).
Proof.
  apply (proj1 (validator_access_errors _ _ example_url (lit "key.json") (lit "E3")
                  (lit "DOCENTE") (lit "E4") 80%Z (lit "ABC123-xyz") eq_refl)).
  reflexivity.
Defined.

Section ValidatorLoop.

Variable token_set_ratio : text -> text -> res Z.
Variables hc ev nc : text.
Variable th : Z.
Variable clean_title : text.
Hypothesis clean_title_normal : normal_name clean_title = true.

Let accepted := worksheet_accepted token_set_ratio hc ev nc th clean_title.

(** The loop returns the titles of the accepted worksheets, in order,
    after the ones it was given, and calls the matcher only on non-empty
    names in normal form. *)
Lemma check_worksheets_spec wkss : forall acc calls out,
  check_worksheets token_set_ratio hc ev nc th clean_title wkss acc = (calls, out) ->
  forallb sound_call calls = true
  /\ (is_nil clean_title = true -> existsb is_ratio_call calls = false)
  /\ forall titles, out = Return titles ->
       titles = acc ++ map wks_title (filter accepted wkss).
Proof.
  induction wkss as [|wks rest IH]; intros acc calls out H.
  - cbn in H. injection H as <- <-. repeat split.
    intros titles Ht. injection Ht as <-. cbn. now rewrite app_nil_r.
  - cbn [check_worksheets] in H. cbn [filter]. unfold accepted at 1.
    unfold worksheet_accepted.
    apply io_bind_call in H as [(e & Hr & -> & ->)|(h & calls1 & Hr & H & ->)].
    { repeat split. discriminate. }
    rewrite Hr.
    assert (Hskip : forall c1 o1,
      check_worksheets token_set_ratio hc ev nc th clean_title rest acc = (c1, o1) ->
      forall pre, forallb sound_call pre = true -> existsb is_ratio_call pre = false ->
      forallb sound_call (pre ++ c1) = true
      /\ (is_nil clean_title = true -> existsb is_ratio_call (pre ++ c1) = false)
      /\ forall titles, o1 = Return titles ->
           titles = acc ++ map wks_title (filter accepted rest)).
    { intros c1 o1 H1 pre Hp1 Hp2. destruct (IH _ _ _ H1) as (I1 & I2 & I3).
      rewrite forallb_app, existsb_app, Hp1, Hp2, I1. auto. }
    destruct h as [| | | |h| | |];
      try (apply (Hskip _ _ H [_]); reflexivity).
    destruct (text_eqb (py_upper (py_strip h)) (py_upper ev)); cbn [negb andb] in *;
      [|apply (Hskip _ _ H [_]); reflexivity].
    apply io_bind_call in H as [(e & Hr2 & -> & ->)|(n & calls2 & Hr2 & H & ->)].
    { repeat split. discriminate. }
    rewrite Hr2.
    destruct n as [| | | |n| | |];
      try (apply (Hskip _ _ H [_; _]); reflexivity).
    destruct (is_nil (py_strip n)); cbn [negb andb];
      [apply (Hskip _ _ H [_; _]); reflexivity|].
    destruct (is_nil clean_title) eqn:Ect; cbn [negb andb orb] in *;
      [apply (Hskip _ _ H [_; _]); reflexivity|].
    destruct (is_nil (preprocess_name (PStr n))) eqn:Ecn; cbn [negb andb orb] in *;
      [apply (Hskip _ _ H [_; _]); reflexivity|].
    apply io_bind_call in H as [(e & Hr3 & -> & ->)|(score & calls3 & Hr3 & H & ->)].
    { cbn [forallb sound_call]. rewrite Ect, Ecn, preprocess_name_normal,
        clean_title_normal. repeat split; discriminate. }
    rewrite Hr3.
    assert (Hcall : sound_call (CallTokenSetRatio (preprocess_name (PStr n)) clean_title)
                    = true).
    { cbn [sound_call]. now rewrite Ect, Ecn, preprocess_name_normal, clean_title_normal. }
    destruct (th <=? score)%Z.
    + destruct (IH _ _ _ H) as (I1 & I2 & I3). cbn [forallb].
      rewrite Hcall, I1. repeat split; try discriminate.
      intros titles Ht. rewrite (I3 titles Ht). cbn [map]. now rewrite <- app_assoc.
    + destruct (IH _ _ _ H) as (I1 & I2 & I3). cbn [forallb].
      rewrite Hcall, I1. repeat split; try discriminate. exact I3.
Qed.

End ValidatorLoop.

Lemma title_name_normal sh :
  normal_name (preprocess_name (PStr (title_name_part (sh_title sh)))) = true.
Proof. apply preprocess_name_normal. Qed.

Lemma find_valid_inv (authorize : text -> res client)
    (token_set_ratio : text -> text -> res Z)
    (sheet_url path hc ev nc : text) (th : Z) calls out :
  find_valid_teacher_worksheets authorize token_set_ratio sheet_url path hc ev nc th
  = (calls, out) ->
  forallb sound_call calls = true
  /\ forall titles, out = Return titles ->
       exists key gc sh wkss,
         extract_sheet_key_from_url sheet_url = Some key
         /\ authorize path = Return gc
         /\ open_by_key gc key = Return sh
         /\ sh_worksheets sh = Return wkss
         /\ (is_nil (preprocess_name (PStr (title_name_part (sh_title sh)))) = true ->
               existsb is_ratio_call calls = false)
         /\ titles
            = map wks_title
                (filter (worksheet_accepted token_set_ratio hc ev nc th
                           (preprocess_name (PStr (title_name_part (sh_title sh)))))
                        wkss).
Proof.
  unfold find_valid_teacher_worksheets.
  destruct (extract_sheet_key_from_url sheet_url) as [[|k key]|] eqn:Hkey;
    try (intros H; injection H as <- <-; split; [reflexivity|discriminate]).
  unfold get_pygsheets_client. intros H.
  apply io_bind_call in H as [(e & Hr & -> & ->)|(gc & calls1 & Hgc & H & ->)];
    [split; [reflexivity|discriminate]|].
  apply io_bind_call in H as [(e & Hr & -> & ->)|(sh & calls2 & Hsh & H & ->)];
    [split; [reflexivity|discriminate]|].
  destruct (worksheets_pass token_set_ratio hc ev nc th sh) as [calls3 r3] eqn:Hpass.
  assert (Hwrap : calls2 = calls3 /\ forall titles, out = Return titles -> r3 = Return titles).
  { unfold wrap_worksheet_errors in H. destruct r3 as [e|a].
    - destruct (isinstance_exn e ImportError);
        [|destruct (isinstance_exn e Exception)];
        injection H as <- <-; split; try reflexivity; discriminate.
    - injection H as <- <-. split; [reflexivity|auto]. }
  destruct Hwrap as [<- Hout]. clear H. unfold worksheets_pass in Hpass.
  apply io_bind_call in Hpass as [(e & Hr & -> & ->)|(wkss & calls4 & Hw & Hpass & ->)].
  { split; [reflexivity|]. intros titles Ht. specialize (Hout titles Ht). discriminate. }
  destruct (check_worksheets_spec token_set_ratio hc ev nc th _ (title_name_normal sh)
              wkss [] calls4 r3 Hpass) as (S1 & S2 & S3).
  split; [exact S1|]. intros titles Ht. specialize (Hout titles Ht).
  exists (k :: key), gc, sh, wkss.
  split; [reflexivity|]. split; [exact Hgc|]. split; [exact Hsh|]. split; [exact Hw|].
  split.
  - intros Hnil. cbn [existsb is_ratio_call orb]. now apply S2.
  - now apply S3.
Qed.

(** X13.  The titles the validator returns are those of the worksheets
    that pass its two tests, in the order of the spreadsheet: none is
    added, dropped or moved. *)
Theorem validated_titles (authorize : text -> res client)
    (token_set_ratio : text -> text -> res Z)
    (sheet_url path hc ev nc : text) (th : Z) (calls : list call) (titles : list text) :
  find_valid_teacher_worksheets authorize token_set_ratio sheet_url path hc ev nc th
  = (calls, Return titles) ->
  exists key gc sh wkss,
    extract_sheet_key_from_url sheet_url = Some key
    /\ authorize path = Return gc
    /\ open_by_key gc key = Return sh
    /\ sh_worksheets sh = Return wkss
    /\ titles
       = map wks_title
           (filter (worksheet_accepted token_set_ratio hc ev nc th
                      (preprocess_name (PStr (title_name_part (sh_title sh)))))
                   wkss).
Proof.
  intros H. destruct (find_valid_inv _ _ _ _ _ _ _ _ _ _ H) as [_ Ht].
  destruct (Ht titles eq_refl) as (key & gc & sh & wkss & H1 & H2 & H3 & H4 & _ & H6).
  exists key, gc, sh, wkss. auto.
Qed.

Lemma validated_titles_witness :
  exists key gc sh wkss,
    extract_sheet_key_from_url example_url = Some key
    /\ (fun _ : text => Return (example_client (Return PNone))) (lit "key.json")
       = Return gc
    /\ open_by_key gc key = Return sh
    /\ sh_worksheets sh = Return wkss
    /\ [lit "5to"]
       = map wks_title
           (filter (worksheet_accepted
                      (fun a b => Return (if text_eqb a b then 100 else 0)%Z)
                      (lit "E3") (lit "DOCENTE") (lit "E4") 80
                      (preprocess_name (PStr (title_name_part (sh_title sh)))))
                   wkss).
Proof. exact (validated_titles _ _ _ _ _ _ _ _ _ _ find_valid_example). Defined.

(** X14.  The matcher is only ever called on two non-empty names in
    normal form; when the part of the spreadsheet title before its first
    underscore normalises to the empty string it is not called at all and
    no worksheet is validated. *)
Theorem matcher_calls_sound (authorize : text -> res client)
    (token_set_ratio : text -> text -> res Z)
    (sheet_url path hc ev nc : text) (th : Z) (calls : list call) (out : res (list text)) :
  find_valid_teacher_worksheets authorize token_set_ratio sheet_url path hc ev nc th
  = (calls, out) ->
  forallb sound_call calls = true
  /\ forall titles, out = Return titles ->
       exists key gc sh,
         extract_sheet_key_from_url sheet_url = Some key
         /\ authorize path = Return gc
         /\ open_by_key gc key = Return sh
         /\ (is_nil (preprocess_name (PStr (title_name_part (sh_title sh)))) = true ->
               existsb is_ratio_call calls = false /\ titles = []).
Proof.
  intros H. destruct (find_valid_inv _ _ _ _ _ _ _ _ _ _ H) as [Hs Ht].
  split; [exact Hs|]. intros titles Hout.
  destruct (Ht titles Hout) as (key & gc & sh & wkss & H1 & H2 & H3 & H4 & H5 & H6).
  exists key, gc, sh.
  split; [exact H1|]. split; [exact H2|]. split; [exact H3|].
  intros Hnil. split; [now apply H5|].
  rewrite H6. clear H6 H4.
  induction wkss as [|w wkss IH]; [reflexivity|]. cbn [filter].
  assert (E : worksheet_accepted token_set_ratio hc ev nc th
                (preprocess_name (PStr (title_name_part (sh_title sh)))) w = false).
  { unfold worksheet_accepted. rewrite Hnil.
    destruct (get_value w hc) as [|[| | | |h| | |]]; try reflexivity.
    destruct (get_value w nc) as [|[| | | |n| | |]];
      cbn [negb]; rewrite ?andb_false_r; reflexivity. }
  rewrite E. exact IH.
Qed.

Lemma matcher_calls_sound_witness :
  forallb sound_call
    [CallAuthorize (lit "key.json"); CallOpenByKey (lit "ABC123-xyz"); CallWorksheets;
     CallGetValue (lit "5to") (lit "E3"); CallGetValue (lit "5to") (lit "E4");
     CallTokenSetRatio (lit "maria lopez") (lit "maria lopez");
     CallGetValue (lit "6to") (lit "E3")] = true.
Proof. exact (proj1 (matcher_calls_sound _ _ _ _ _ _ _ _ _ _ find_valid_example)). Defined.

(* ------------------------------------------------------------------ *)
(** * GridExtractor: further properties *)
(* ------------------------------------------------------------------ *)

Lemma progress_records_eq g p r cols :
  progress_records g p r cols
  = Return (if (0 <? p)%Z then flat_map (cell_progress g p r) cols else []).
Proof.
  destruct (0 <? p)%Z eqn:Hp.
  - induction cols as [|[par idx] cols IH]; [reflexivity|].
    cbn [progress_records flat_map]. rewrite IH, Hp.
    set (F := flat_map (cell_progress g p r) cols). unfold cell_progress.
    cbn [fst snd]. destruct (nth_error r idx) as [cell|]; [|reflexivity].
    destruct (parse_percentage_str_returns cell) as ([v|] & ->); reflexivity.
  - induction cols as [|[par idx] cols IH]; [reflexivity|].
    cbn [progress_records]. rewrite IH, Hp.
    destruct (nth_error r idx) as [cell|]; [|reflexivity].
    destruct (parse_percentage_str_returns cell) as ([v|] & ->); reflexivity.
Qed.

Lemma topic_records_eq g p num title r cols :
  topic_records g p num title r cols
  = Return (flat_map (cell_topic g p num title r) cols).
Proof.
  induction cols as [|[par idx] cols IH]; [reflexivity|].
  cbn [topic_records flat_map]. rewrite IH.
  set (F := flat_map (cell_topic g p num title r) cols). unfold cell_topic.
  cbn [fst snd]. destruct (nth_error r idx) as [cell|]; [|reflexivity].
  destruct (parse_date_str_cases cell) as [->|(d & -> & _)]; reflexivity.
Qed.

(** A row that is no period header never makes the loop raise, and emits
    what [progress_of_row] and [topics_of_row] say. *)
Lemma row_step_plain g st r :
  period_match r = None ->
  exists st', row_step g st r
              = Return (st', progress_of_row g st r, topics_of_row g st r).
Proof.
  intros Hm. unfold row_step, progress_of_row, topics_of_row. rewrite Hm.
  destruct (expect_period_progress_next st); cbn [negb andb].
  - rewrite progress_records_eq. cbn [res_bind]. eauto.
  - destruct (negb (is_nil (cell_or_empty py_strip r 4)) && (0 <? current_periodo st)%Z).
    + rewrite topic_records_eq. cbn [res_bind]. eauto.
    + eauto.
Qed.

Lemma row_step_header g st r ds :
  period_match r = Some ds ->
  row_step g st r
  = if header_fits r
    then Return ({| current_periodo := digits_to_Z ds;
                    expect_period_progress_next := true |}, [], [])
    else Raise (Exn ValueError (lit "Exceeds the limit for integer string conversion")).
Proof.
  intros Hm. unfold row_step, header_fits, py_int. rewrite Hm.
  destruct (Nat.leb_spec (List.length ds) int_max_str_digits) as [Hle|Hgt].
  - destruct (Nat.ltb_spec int_max_str_digits (List.length ds)); [lia|reflexivity].
  - destruct (Nat.ltb_spec int_max_str_digits (List.length ds)); [reflexivity|lia].
Qed.

(** X15.  What each row emits.  In every grid on which the extraction
    returns, a period header emits nothing and any other row emits exactly
    the records of [progress_of_row] and [topics_of_row]: one record for
    each of the columns O, P, Q, R, in that order, whose cell reads as a
    percentage (below a header) or as a date (on a row with a title in
    column E), and nothing when no period is known. *)
Theorem row_records (ws : worksheet) (df : grid) (result : results) :
  get_as_df ws = Return df ->
  extract_worksheet_data ws = Return result ->
  each_row (wks_title ws) df result (fun i ev =>
    if is_some (period_match (ev_row ev))
    then ev_progress ev = [] /\ ev_topics ev = []
    else ev_progress ev = progress_of_row (wks_title ws) (ev_state ev) (ev_row ev)
         /\ ev_topics ev = topics_of_row (wks_title ws) (ev_state ev) (ev_row ev)).
Proof.
  intros Hdf H. destruct (extract_trace ws df result Hdf H) as (evs & Htr & Hpp & Htc).
  exists evs. destruct (scan_trace_inv _ _ [] _ _ Htr eq_refl eq_refl) as [Hlen Hev].
  split; [exact Htr|]. split; [exact Hpp|]. split; [exact Htc|]. split; [exact Hlen|].
  intros i ev Hnth. destruct (Hev i ev Hnth) as (Hrow & _ & _ & st' & Hstep).
  split; [exact Hrow|].
  destruct (period_match (ev_row ev)) as [ds|] eqn:Hm; cbn [is_some].
  - rewrite (row_step_header _ _ _ ds Hm) in Hstep.
    destruct (header_fits (ev_row ev)); [|discriminate].
    split; congruence.
  - destruct (row_step_plain (wks_title ws) (ev_state ev) (ev_row ev) Hm) as (st2 & E).
    rewrite E in Hstep. split; congruence.
Qed.

Lemma row_records_witness :
  each_row (lit "5to") example_grid (example_results (lit "5to")) (fun i ev =>
    if is_some (period_match (ev_row ev))
    then ev_progress ev = [] /\ ev_topics ev = []
    else ev_progress ev = progress_of_row (lit "5to") (ev_state ev) (ev_row ev)
         /\ ev_topics ev = topics_of_row (lit "5to") (ev_state ev) (ev_row ev)).
Proof.
  exact (row_records example_worksheet example_grid (example_results (lit "5to"))
           eq_refl extract_example).
Defined.

Lemma cell_progress_In g p r pc x :
  In x (cell_progress g p r pc) ->
  pp_grade_level x = g /\ pp_periodo x = p /\ pp_paralelo x = fst pc.
Proof.
  unfold cell_progress. destruct (nth_error r (snd pc)) as [cell|]; [|intros []].
  destruct (parse_percentage (PStr cell)) as [e|[v|]];
    [intros []| |intros []].
  intros [<-|[]]. auto.
Qed.

Lemma cell_topic_In g p num title r pc x :
  In x (cell_topic g p num title r pc) ->
  tc_grade_level x = g /\ tc_periodo x = p /\ tc_paralelo x = fst pc
  /\ tc_tema_number x = num /\ tc_tema_title x = title
  /\ exists d, tc_completion_date x = PDate d /\ valid_date d = true.
Proof.
  unfold cell_topic. destruct (nth_error r (snd pc)) as [cell|]; [|intros []].
  destruct (parse_date_str_cases cell) as [->|(d & -> & Hd)]; [intros []|].
  intros [<-|[]]. cbn. eauto 10.
Qed.

Lemma paralelo_of_column pc : In pc paralelo_indices -> In (fst pc) paralelos.
Proof.
  intros H. repeat (destruct H as [<-|H]; [cbn; tauto|]). destruct H.
Qed.

Lemma cell_or_empty_stripped r i :
  py_strip (cell_or_empty py_strip r i) = cell_or_empty py_strip r i.
Proof.
  unfold cell_or_empty. destruct (nth_error r i); [apply py_strip_idem|reflexivity].
Qed.

(** Every record of a trace comes from one iteration of the loop. *)
Lemma trace_event_step g df evs ev :
  scan_trace g initial_state df = Return evs -> In ev evs ->
  exists st', row_step g (ev_state ev) (ev_row ev)
              = Return (st', ev_progress ev, ev_topics ev).
Proof.
  intros Htr Hin. apply In_nth_error in Hin as (i & Hi).
  destruct (scan_trace_inv _ _ [] _ _ Htr eq_refl eq_refl) as [_ Hev].
  now destruct (Hev i ev Hi) as (_ & _ & _ & Hstep).
Qed.

Lemma event_records g st r st' pp tc :
  row_step g st r = Return (st', pp, tc) ->
  (pp = [] \/ pp = progress_of_row g st r)
  /\ (tc = [] \/ tc = topics_of_row g st r).
Proof.
  intros H. destruct (period_match r) as [ds|] eqn:Hm.
  - rewrite (row_step_header _ _ _ ds Hm) in H.
    destruct (header_fits r); [|discriminate]. split; left; congruence.
  - destruct (row_step_plain g st r Hm) as (st2 & E). rewrite E in H.
    split; right; congruence.
Qed.

(** The records of a trace are well formed. *)
Lemma trace_records_well_formed g df evs :
  scan_trace g initial_state df = Return evs ->
  (forall x, In x (flat_map ev_progress evs) ->
     pp_grade_level x = g /\ In (pp_paralelo x) paralelos)
  /\ (forall x, In x (flat_map ev_topics evs) ->
        tc_grade_level x = g /\ In (tc_paralelo x) paralelos
        /\ tc_tema_title x <> []
        /\ py_strip (tc_tema_title x) = tc_tema_title x
        /\ py_strip (tc_tema_number x) = tc_tema_number x
        /\ exists d, tc_completion_date x = PDate d /\ valid_date d = true).
Proof.
  intros Htr.
  split; intros x Hx; apply in_flat_map in Hx as (ev & Hev & Hx);
    destruct (trace_event_step _ _ _ _ Htr Hev) as (st' & Hstep);
    destruct (event_records _ _ _ _ _ _ Hstep) as [Hp Ht].
  - destruct Hp as [Hp|Hp]; rewrite Hp in Hx; [destruct Hx|].
    unfold progress_of_row in Hx.
    destruct (_ && _); [|destruct Hx].
    apply in_flat_map in Hx as (pc & Hpc & Hx).
    apply cell_progress_In in Hx as (-> & _ & ->).
    split; [reflexivity|now apply paralelo_of_column].
  - destruct Ht as [Ht|Ht]; rewrite Ht in Hx; [destruct Hx|].
    unfold topics_of_row in Hx.
    destruct (negb (expect_period_progress_next (ev_state ev))); [|destruct Hx].
    destruct (is_nil (cell_or_empty py_strip (ev_row ev) 4)) eqn:Et; [destruct Hx|].
    cbn [negb andb] in Hx. destruct (0 <? _)%Z; [|destruct Hx].
    apply in_flat_map in Hx as (pc & Hpc & Hx).
    apply cell_topic_In in Hx as (-> & _ & -> & -> & -> & Hd).
    split; [reflexivity|]. split; [now apply paralelo_of_column|].
    split; [intros E; rewrite E in Et; discriminate|].
    split; [apply cell_or_empty_stripped|]. split; [apply cell_or_empty_stripped|].
    exact Hd.
Qed.

(** X16.  Every record is well formed.  A record carries the title of the
    worksheet as its grade level and one of A, B, C, D as its paralelo; a
    topic-completion record moreover has a title that is not empty, a
    title and a number without leading or trailing whitespace, and as its
    date a calendar date that exists, in a year from 1969 to 2068. *)
Theorem records_well_formed (ws : worksheet) (df : grid) (result : results) :
  get_as_df ws = Return df ->
  extract_worksheet_data ws = Return result ->
  (forall x, In x (period_progress result) ->
     pp_grade_level x = wks_title ws /\ In (pp_paralelo x) paralelos)
  /\ (forall x, In x (topic_completion result) ->
        tc_grade_level x = wks_title ws /\ In (tc_paralelo x) paralelos
        /\ tc_tema_title x <> []
        /\ py_strip (tc_tema_title x) = tc_tema_title x
        /\ py_strip (tc_tema_number x) = tc_tema_number x
        /\ exists d, tc_completion_date x = PDate d /\ valid_date d = true).
Proof.
  intros Hdf H.
  destruct (extract_trace ws df result Hdf H) as (evs & Htr & Hpp & Htc).
  rewrite Hpp, Htc. exact (trace_records_well_formed _ _ _ Htr).
Qed.

Lemma records_well_formed_witness :
  (forall x, In x (period_progress (example_results (lit "5to"))) ->
     pp_grade_level x = lit "5to" /\ In (pp_paralelo x) paralelos)
  /\ (forall x, In x (topic_completion (example_results (lit "5to"))) ->
        tc_grade_level x = lit "5to" /\ In (tc_paralelo x) paralelos
        /\ tc_tema_title x <> []
        /\ py_strip (tc_tema_title x) = tc_tema_title x
        /\ py_strip (tc_tema_number x) = tc_tema_number x
        /\ exists d, tc_completion_date x = PDate d /\ valid_date d = true).
Proof.
  exact (records_well_formed example_worksheet example_grid
           (example_results (lit "5to")) eq_refl extract_example).
Defined.

(** X17.  Before the first period header nothing is emitted: a grid
    without any period header gives the two empty lists, whatever its
    cells hold. *)
Theorem no_header_no_records (ws : worksheet) (df : grid) :
  forallb headerless_row df = true ->
  get_as_df ws = Return df ->
  extract_worksheet_data ws = Return empty_results.
Proof.
  intros Hh Hdf. unfold extract_worksheet_data. rewrite Hdf.
  rewrite <- (app_nil_r df). now rewrite scan_rows_headerless.
Qed.

Lemma no_header_no_records_witness :
  extract_worksheet_data headerless_worksheet = Return empty_results.
Proof.
  apply (no_header_no_records headerless_worksheet [example_progress; example_topic]);
    reflexivity.
Defined.

Lemma scan_rows_outcome g rows : forall st acc,
  if forallb header_fits rows
  then exists res, scan_rows g st rows acc = Return res
  else exists e, scan_rows g st rows acc = Raise e /\ exn_cls e = ValueError.
Proof.
  induction rows as [|r rows IH]; intros st acc; [cbn; eauto|].
  cbn [forallb scan_rows].
  destruct (period_match r) as [ds|] eqn:Hm.
  - rewrite (row_step_header _ _ _ ds Hm).
    destruct (header_fits r); cbn [andb res_bind]; [apply IH|]. eauto.
  - destruct (row_step_plain g st r Hm) as (st' & ->).
    assert (Hf : header_fits r = true) by (unfold header_fits; now rewrite Hm).
    rewrite Hf. cbn [andb res_bind]. apply IH.
Qed.

(** X18.  When the extraction returns.  On a fetched grid the extraction
    returns a result exactly when the numeral of every period header has
    at most 4300 digits, the most [int()] converts; otherwise it raises
    the [ValueError] of that conversion.  Nothing else in the loop can
    raise. *)
Theorem extract_returns (ws : worksheet) (df : grid) :
  get_as_df ws = Return df ->
  (forallb header_fits df = true ->
     exists result, extract_worksheet_data ws = Return result)
  /\ (forallb header_fits df = false ->
        exists e, extract_worksheet_data ws = Raise e /\ exn_cls e = ValueError).
Proof.
  intros Hdf. unfold extract_worksheet_data. rewrite Hdf.
  pose proof (scan_rows_outcome (wks_title ws) df initial_state empty_results) as H.
  split; intros Hf; rewrite Hf in H; exact H.
Qed.

Lemma extract_returns_witness :
  exists result, extract_worksheet_data example_worksheet = Return result.
Proof.
  apply (proj1 (extract_returns example_worksheet example_grid eq_refl)).
  reflexivity.
Defined.

Lemma scan_trace_app g a : forall b st evs,
  scan_trace g st (a ++ b) = Return evs ->
  exists ea eb, scan_trace g st a = Return ea /\ evs = ea ++ eb.
Proof.
  induction a as [|r a IH]; intros b st evs H.
  - exists [], evs. auto.
  - cbn [app scan_trace] in *.
    apply res_bind_Return in H as ([[st' pp] tc] & Hstep & H).
    apply res_bind_Return in H as (evs' & Hrest & H). injection H as <-.
    destruct (IH b st' evs' Hrest) as (ea & eb & Ha & ->).
    rewrite Hstep. cbn [res_bind]. rewrite Ha. cbn [res_bind].
    eexists. exists eb. split; reflexivity.
Qed.

(** X19.  Rows added below change nothing above.  When the extraction
    returns on a grid with more rows at its end, it returns on the grid
    without them too, and the records of the longer grid are those of the
    shorter one followed by the records of the added rows. *)
Theorem extract_prefix (ws ws' : worksheet) (df more : grid) (result' : results) :
  wks_title ws = wks_title ws' ->
  get_as_df ws = Return df ->
  get_as_df ws' = Return (df ++ more) ->
  extract_worksheet_data ws' = Return result' ->
  exists result pp tc,
    extract_worksheet_data ws = Return result
    /\ period_progress result' = period_progress result ++ pp
    /\ topic_completion result' = topic_completion result ++ tc.
Proof.
  intros Ht Hdf Hdf' H.
  destruct (extract_trace ws' _ result' Hdf' H) as (evs & Htr & Hpp & Htc).
  rewrite <- Ht in Htr. destruct (scan_trace_app _ _ _ _ _ Htr) as (ea & eb & Ha & ->).
  exists {| period_progress := flat_map ev_progress ea;
            topic_completion := flat_map ev_topics ea |},
         (flat_map ev_progress eb), (flat_map ev_topics eb).
  split; [|split].
  - unfold extract_worksheet_data. rewrite Hdf, scan_rows_trace, Ha. reflexivity.
  - rewrite Hpp. cbn [period_progress]. apply flat_map_app.
  - rewrite Htc. cbn [topic_completion]. apply flat_map_app.
Qed.

Lemma extract_prefix_witness :
  exists result pp tc,
    extract_worksheet_data shorter_worksheet = Return result
    /\ period_progress (example_results (lit "5to")) = period_progress result ++ pp
    /\ topic_completion (example_results (lit "5to")) = topic_completion result ++ tc.
Proof.
  exact (extract_prefix shorter_worksheet example_worksheet
           [example_header; example_progress] [row_of []; example_topic]
           (example_results (lit "5to")) eq_refl eq_refl eq_refl extract_example).
Defined.

(* ------------------------------------------------------------------ *)
(** * UpdateOrchestrator: properties of the command *)
(* ------------------------------------------------------------------ *)

(** ** The steps of a run *)

Section Steps.

Variable world : Type.

Lemma cmd_bind_inv {A B} (m : cmd world A) (k : A -> cmd world B) w w' evs r :
  cmd_bind m k w = (w', evs, r) ->
  (exists e, m w = (w', evs, Raise e) /\ r = Raise e)
  \/ (exists a w1 evs1 evs2,
        m w = (w1, evs1, Return a) /\ k a w1 = (w', evs2, r) /\ evs = evs1 ++ evs2).
Proof.
  unfold cmd_bind. destruct (m w) as [[w1 evs1] [e|a]].
  - intros H. injection H as <- <- <-. left. eauto.
  - destruct (k a w1) as [[w2 evs2] r2] eqn:E. intros H. injection H as <- <- <-.
    right. exists a, w1, evs1, evs2. auto.
Qed.

Lemma cmd_try_inv {A} (body : cmd world A) clauses w w' evs r :
  cmd_try body clauses w = (w', evs, r) ->
  (exists a, body w = (w', evs, Return a) /\ r = Return a)
  \/ (exists e w1 evs1,
        body w = (w1, evs1, Raise e)
        /\ match select_handler clauses e with
           | Some handler => exists evs2, handler w1 = (w', evs2, r) /\ evs = evs1 ++ evs2
           | None => w' = w1 /\ evs = evs1 /\ r = Raise e
           end).
Proof.
  unfold cmd_try. destruct (body w) as [[w1 evs1] [e|a]].
  - intros H. right. exists e, w1, evs1. split; [reflexivity|].
    destruct (select_handler clauses e) as [handler|].
    + destruct (handler w1) as [[w2 evs2] r2]. injection H as <- <- <-. eauto.
    + injection H as <- <- <-. auto.
  - intros H. injection H as <- <- <-. left. eauto.
Qed.

(** [try: body  except Exception as e: self.stderr.write(...)]. *)
Lemma try_report_inv (body : cmd world unit) (report : exn -> message) w w' evs r :
  cmd_try body [([Exception], fun e => stderr_write (report e))] w = (w', evs, r) ->
  (body w = (w', evs, Return tt) /\ r = Return tt)
  \/ (exists e evs1, body w = (w', evs1, Raise e)
                     /\ isinstance_exn e Exception = true
                     /\ evs = evs1 ++ [Stderr (report e)] /\ r = Return tt)
  \/ (exists e, body w = (w', evs, Raise e)
                /\ isinstance_exn e Exception = false /\ r = Raise e).
Proof.
  intros H. apply cmd_try_inv in H as [([] & Hb & ->)|(e & w1 & evs1 & Hb & Hh)].
  - left. auto.
  - right. cbn [select_handler existsb] in Hh. rewrite orb_false_r in Hh.
    destruct (isinstance_exn e Exception) eqn:E.
    + destruct Hh as (evs2 & Hw & ->). unfold stderr_write in Hw.
      injection Hw as <- <- <-. left. exists e, evs1. auto.
    + destruct Hh as (-> & -> & ->). right. exists e. auto.
Qed.

(** A loop is the runs of its body, one after the other; all but the last
    return, and the last ends as the loop does. *)
Lemma for_each_inv {A} (body : A -> cmd world unit) l : forall w w' evs r,
  for_each l body w = (w', evs, r) ->
  exists runs,
    evs = List.concat runs
    /\ (forall run, In run runs ->
          exists a w1 w2 r1, In a l /\ body a w1 = (w2, run, r1)
                             /\ (r1 = Return tt \/ r1 = r))
    /\ (r = Return tt ->
          Forall2 (fun a run => exists w1 w2, body a w1 = (w2, run, Return tt)) l runs).
Proof.
  induction l as [|a l IH]; intros w w' evs r H.
  - cbn in H. injection H as <- <- <-. exists []. split; [reflexivity|].
    split; [intros run []|]. intros _. constructor.
  - cbn [for_each] in H.
    apply cmd_bind_inv in H as [(e & Ha & ->)|([] & w1 & evs1 & evs2 & Ha & Hrest & ->)].
    + exists [evs]. split; [cbn; now rewrite app_nil_r|]. split; [|discriminate].
      intros run [<-|[]]. exists a, w, w', (Raise e). split; [now left|]. auto.
    + destruct (IH _ _ _ _ Hrest) as (runs & -> & Hruns & Hret).
      exists (evs1 :: runs). split; [reflexivity|]. split.
      * intros run [<-|Hin].
        -- exists a, w, w1, (Return tt). split; [now left|]. auto.
        -- destruct (Hruns run Hin) as (a' & wa & wb & r1 & Hin' & Hb & Hr).
           exists a', wa, wb, r1. split; [now right|]. auto.
      * intros Hr. constructor; [eauto|auto].
Qed.

Lemma stdout_write_inv m (w w' : world) evs r :
  stdout_write m w = (w', evs, r) -> evs = [Stdout m] /\ r = Return tt.
Proof. unfold stdout_write. intros H. injection H as <- <- <-. auto. Qed.

Lemma execute_inv database q (w w' : world) evs r :
  execute database q w = (w', evs, r) ->
  evs = [Query q r] /\ database q w = (w', r).
Proof.
  unfold execute. destruct (database q w) as [w1 o]. intros H.
  injection H as <- <- <-. auto.
Qed.

Lemma sheets_inv {A} (m : io A) (w w' : world) evs r :
  sheets m w = (w', evs, r) -> evs = map Sheets (fst m) /\ r = snd m.
Proof. unfold sheets. intros H. injection H as _ <- <-. auto. Qed.

(** The three lookups for a record, and what follows them. *)
Lemma three_lookups_inv {B} database gcode y n pcode
    (k : GradeLevel -> Periodo -> Paralelo -> cmd world B) w w' evs r :
  cmd_bind (execute database (GetGradeLevel gcode)) (fun g =>
  cmd_bind (execute database (GetPeriodo y n)) (fun p =>
  cmd_bind (execute database (GetParalelo pcode)) (fun a => k g p a))) w
  = (w', evs, r) ->
  (exists e, r = Raise e
     /\ (evs = [Query (GetGradeLevel gcode) (Raise e)]
         \/ (exists g, evs = [Query (GetGradeLevel gcode) (Return g);
                              Query (GetPeriodo y n) (Raise e)])
         \/ (exists g p, evs = [Query (GetGradeLevel gcode) (Return g);
                                Query (GetPeriodo y n) (Return p);
                                Query (GetParalelo pcode) (Raise e)])))
  \/ (exists g p a w1 evs2,
        evs = [Query (GetGradeLevel gcode) (Return g);
               Query (GetPeriodo y n) (Return p);
               Query (GetParalelo pcode) (Return a)] ++ evs2
        /\ k g p a w1 = (w', evs2, r)).
Proof.
  intros H.
  apply cmd_bind_inv in H as [(e & Hg & ->)|(g & w1 & e1 & e2 & Hg & H & ->)];
    apply execute_inv in Hg as [-> _].
  { left. exists e. auto. }
  apply cmd_bind_inv in H as [(e & Hp & ->)|(p & w2 & e3 & e4 & Hp & H & ->)];
    apply execute_inv in Hp as [-> _].
  { left. exists e. split; [reflexivity|]. right. left. now exists g. }
  apply cmd_bind_inv in H as [(e & Ha & ->)|(a & w3 & e5 & e6 & Ha & H & ->)];
    apply execute_inv in Ha as [-> _].
  { left. exists e. split; [reflexivity|]. right. right. now exists g, p. }
  right. exists g, p, a, w3, e6. auto.
Qed.

End Steps.

(** ** Properties of traces *)

Lemma guarded_nil : guarded [].
Proof. intros pre ev post y g p a E. destruct pre; discriminate. Qed.

Lemma guarded_app a b : guarded a -> guarded b -> guarded (a ++ b).
Proof.
  intros Ha Hb pre ev post y g p pa E Hev.
  apply app_eq_app in E as (l & [[-> E]|[-> E]]).
  - destruct l as [|e l].
    + cbn in E. destruct (Hb [] ev post y g p pa (eq_sym E) Hev) as (pre' & c & n & c' & E').
      destruct pre'; discriminate.
    + cbn in E. injection E as <- ->. exact (Ha pre ev l y g p pa eq_refl Hev).
  - destruct (Hb l ev post y g p pa E Hev) as (pre' & c & n & c' & ->).
    exists (a ++ pre'), c, n, c'. now rewrite app_assoc.
Qed.

Lemma guarded_concat runs :
  (forall run, In run runs -> guarded run) -> guarded (List.concat runs).
Proof.
  induction runs as [|run runs IH]; intros H; [exact guarded_nil|].
  cbn [List.concat]. apply guarded_app; [apply H; now left|].
  apply IH. intros r Hr. apply H. now right.
Qed.

Lemma guarded_silent evs :
  Forall (fun ev => event_objects ev = None) evs -> guarded evs.
Proof.
  intros H pre ev post y g p a E Hev. subst evs.
  apply Forall_app in H as [_ H]. inversion H as [|? ? Hnone _]. congruence.
Qed.

Lemma guarded_write c y n c' g p a ev tail :
  event_objects ev = Some (y, g, p, a) ->
  Forall (fun ev' => event_objects ev' = None) tail ->
  guarded ([ Query (GetGradeLevel c) (Return g); Query (GetPeriodo y n) (Return p);
             Query (GetParalelo c') (Return a); ev ] ++ tail).
Proof.
  intros Hev Htail. apply guarded_app; [|now apply guarded_silent].
  intros pre ev0 post y0 g0 p0 a0 E Hev0.
  destruct pre as [|e1 [|e2 [|e3 [|e4 pre]]]]; cbn [app] in E.
  - injection E as <- _. discriminate.
  - injection E as _ <- _. discriminate.
  - injection E as _ _ <- _. discriminate.
  - injection E as <- <- <- <- _. rewrite Hev in Hev0. injection Hev0 as <- <- <- <-.
    exists [], c, n, c'. reflexivity.
  - injection E as _ _ _ _ E. destruct pre; discriminate.
Qed.

Lemma balanced_nil : balanced [].
Proof. reflexivity. Qed.

Lemma balanced_app a b : balanced a -> balanced b -> balanced (a ++ b).
Proof. unfold balanced. rewrite !filter_app, !length_app. lia. Qed.

Lemma balanced_concat runs :
  (forall run, In run runs -> balanced run) -> balanced (List.concat runs).
Proof.
  induction runs as [|run runs IH]; intros H; [exact balanced_nil|].
  cbn [List.concat]. apply balanced_app; [apply H; now left|].
  apply IH. intros r Hr. apply H. now right.
Qed.

Lemma announced_app a b : announced (a ++ b) = announced a ++ announced b.
Proof. apply flat_map_app. Qed.

Lemma quiet_nil : quiet [].
Proof. split; reflexivity. Qed.

Lemma quiet_app a b : quiet a -> quiet b -> quiet (a ++ b).
Proof.
  intros [A1 A2] [B1 B2]. split.
  - now rewrite filter_app, A1, B1.
  - now rewrite announced_app, A2, B2.
Qed.

Lemma quiet_concat runs :
  (forall run, In run runs -> quiet run) -> quiet (List.concat runs).
Proof.
  induction runs as [|run runs IH]; intros H; [exact quiet_nil|].
  cbn [List.concat]. apply quiet_app; [apply H; now left|].
  apply IH. intros r Hr. apply H. now right.
Qed.

Lemma caught_Return {A} (a : A) : caught (Return a).
Proof. intros e H. discriminate. Qed.

Lemma inner_run_nil y {A} (r : res A) : inner_run y [] r.
Proof.
  split; [constructor|]. split; [exact guarded_nil|]. split; [exact quiet_nil|].
  intros _. exact balanced_nil.
Qed.

Lemma inner_run_app y {A B} evs1 (a : A) evs2 (r : res B) :
  inner_run y evs1 (Return a) -> inner_run y evs2 r -> inner_run y (evs1 ++ evs2) r.
Proof.
  intros (A1 & A2 & A3 & A4) (B1 & B2 & B3 & B4).
  split; [apply Forall_app; auto|]. split; [now apply guarded_app|].
  split; [now apply quiet_app|].
  intros Hc. apply balanced_app; [apply A4, caught_Return|auto].
Qed.

(** The outcome matters to [inner_run] by the exception only. *)
Lemma inner_run_Raise y {A B} evs e :
  inner_run y evs (Raise e : res A) -> inner_run y evs (Raise e : res B).
Proof.
  intros (H1 & H2 & H3 & H4). split; [exact H1|]. split; [exact H2|].
  split; [exact H3|]. intros Hc. apply H4. intros e' E. injection E as <-.
  now apply Hc.
Qed.

Lemma inner_run_plain y {A} ev (r : res A) : plain ev = true -> inner_run y [ev] r.
Proof.
  intros Hp.
  assert (Hnone : event_objects ev = None)
    by (destruct ev as [| | | | |]; try discriminate; reflexivity).
  split.
  { constructor; [|constructor].
    destruct ev as [| | | | |]; try discriminate; repeat split; discriminate. }
  split; [apply guarded_silent; now constructor|].
  split.
  { destruct ev as [c| | |q o|m|m]; try discriminate; try (split; reflexivity).
    destruct m; try discriminate; split; reflexivity. }
  intros _. unfold balanced. cbn [filter].
  destruct ev as [c| | |q o|m|m]; try discriminate; try reflexivity.
  cbn [plain] in Hp. apply negb_true_iff in Hp.
  cbn [record_started record_written]. rewrite Hp. reflexivity.
Qed.

Lemma inner_run_concat y {A} runs (r : res A) :
  (forall run, In run runs ->
     exists r1 : res unit, inner_run y run r1 /\ (caught r -> caught r1)) ->
  inner_run y (List.concat runs) r.
Proof.
  intros H. split; [|split; [|split]].
  - induction runs as [|run runs IH]; [constructor|]. cbn [List.concat].
    apply Forall_app. split.
    + destruct (H run (or_introl eq_refl)) as (r1 & (H1 & _) & _). exact H1.
    + apply IH. intros x Hx. apply H. now right.
  - apply guarded_concat. intros run Hin.
    destruct (H run Hin) as (r1 & (_ & H2 & _) & _). exact H2.
  - apply quiet_concat. intros run Hin.
    destruct (H run Hin) as (r1 & (_ & _ & H3 & _) & _). exact H3.
  - intros Hc. apply balanced_concat. intros run Hin.
    destruct (H run Hin) as (r1 & (_ & _ & _ & H4) & Hc1). auto.
Qed.

Lemma inner_run_for_each y {world A} (body : A -> cmd world unit) l w w' evs r :
  (forall a w1 w2 run r1, In a l -> body a w1 = (w2, run, r1) -> inner_run y run r1) ->
  for_each l body w = (w', evs, r) ->
  inner_run y evs r.
Proof.
  intros Hbody H. apply for_each_inv in H as (runs & -> & Hruns & _).
  apply inner_run_concat. intros run Hin.
  destruct (Hruns run Hin) as (a & w1 & w2 & r1 & Ha & Hb & Hr).
  exists r1. split; [eapply Hbody; eassumption|].
  destruct Hr as [->| ->]; [intros _; apply caught_Return|auto].
Qed.

(** A loop raises what a run of its body raised. *)
Lemma for_each_raises {world A} (body : A -> cmd world unit) l w w' evs e :
  for_each l body w = (w', evs, Raise e) ->
  exists a w1 w2 run, In a l /\ body a w1 = (w2, run, Raise e).
Proof.
  revert w evs. induction l as [|a l IH]; intros w evs H; [discriminate|].
  cbn [for_each] in H.
  apply cmd_bind_inv in H as [(e' & Ha & E)|([] & w1 & evs1 & evs2 & Ha & Hrest & ->)].
  - injection E as <-. exists a, w, w', evs. split; [now left|exact Ha].
  - destruct (IH _ _ Hrest) as (a' & wa & wb & run & Hin & Hb).
    exists a', wa, wb, run. split; [now right|exact Hb].
Qed.

Lemma inner_run_caught y {A} evs e m :
  inner_run y evs (Raise e : res A) -> isinstance_exn e Exception = true ->
  plain (Stderr m) = true ->
  inner_run y (evs ++ [Stderr m]) (Return tt).
Proof.
  intros (H1 & H2 & H3 & H4) He Hp.
  destruct (inner_run_plain y (Stderr m) (Return tt) Hp) as (P1 & P2 & P3 & P4).
  split; [apply Forall_app; auto|]. split; [now apply guarded_app|].
  split; [now apply quiet_app|]. intros _. apply balanced_app.
  - apply H4. intros e' E. injection E as <-. exact He.
  - apply P4, caught_Return.
Qed.

(** ** The work on a record *)

(** The two [except] clauses around the work on a record. *)
Lemma record_handlers_inv {world} (m1 m2 : exn -> message) e
    (w1 w' : world) evs1 evs (r : res unit) :
  match select_handler
          [ ([GradeLevel_DoesNotExist; Periodo_DoesNotExist; Paralelo_DoesNotExist],
             fun lookup_e => stderr_write (m1 lookup_e));
            ([Exception], fun db_e => stderr_write (m2 db_e)) ] e with
  | Some handler => exists evs2, handler w1 = (w', evs2, r) /\ evs = evs1 ++ evs2
  | None => w' = w1 /\ evs = evs1 /\ r = Raise e
  end ->
  (exists m, (m = m1 e \/ m = m2 e) /\ evs = evs1 ++ [Stderr m] /\ r = Return tt)
  \/ (evs = evs1 /\ r = Raise e /\ isinstance_exn e Exception = false).
Proof.
  cbn [select_handler].
  destruct (existsb (isinstance_exn e) _).
  - intros (evs2 & Hw & ->). injection Hw as <- <- <-. left. eauto.
  - cbn [existsb]. rewrite orb_false_r. destruct (isinstance_exn e Exception).
    + intros (evs2 & Hw & ->). injection Hw as <- <- <-. left. eauto.
    + intros (-> & -> & ->). right. auto.
Qed.

Ltac explicit_events :=
  repeat match goal with
         | |- Forall _ (_ :: _) => constructor
         | |- Forall _ [] => constructor
         end.

Ltac write_inv H :=
  match type of H with
  | execute _ ?q _ = _ => apply (execute_inv _ _ q) in H as [-> _]
  end.

(** The facts of a run whose events and outcome are written out. *)
Ltac record_case :=
  cbn [app];
  split; [|intros ? E; first [discriminate | injection E as <-; assumption]];
  split;
  [ explicit_events; (split; [intros ? E; cbn in E; congruence|]);
    (split; [first [exact I | assumption]|reflexivity]) |];
  split;
  [ first [ apply guarded_silent; explicit_events; reflexivity
          | apply (guarded_write _ _ _ _ _ _ _ _ []); [reflexivity|constructor]
          | apply (guarded_write _ _ _ _ _ _ _ _ [_]);
            [reflexivity|explicit_events; reflexivity] ] |];
  split; [split; reflexivity|];
  let Hc := fresh "Hc" in
  intros Hc;
  first [ reflexivity | exfalso; specialize (Hc _ eq_refl); congruence ].

(** Facts of events that are written out. *)
Ltac explicit_ok :=
  repeat match goal with
         | |- _ /\ _ => split
         | |- Forall _ _ => explicit_events
         | |- event_ok _ _ =>
             first [ solve [auto]
                   | split; [discriminate|split; [exact I|reflexivity]] ]
         | |- balanced _ => reflexivity
         | |- _ = _ => reflexivity
         end.

Section CommandRuns.

Variable world : Type.
Variable database : forall q : query, world -> world * res (answer q).
Variable timezone_now : world -> datetime.
Variable authorize : text -> res client.
Variable token_set_ratio : text -> text -> res Z.
Variable open_by_key_none : client -> res spreadsheet.
Variable worksheet_by_title : spreadsheet -> text -> res worksheet.
Variable SERVICE_ACCOUNT_FILE : text.

Lemma save_period_progress_run t y now_ rec w w' evs r :
  well_formed_progress_record rec ->
  save_period_progress world database t y now_ rec w = (w', evs, r) ->
  inner_run y evs r /\ (forall e, r = Raise e -> isinstance_exn e Exception = false).
Proof.
  intros Hrec H. unfold well_formed_progress_record in Hrec.
  unfold save_period_progress in H.
  apply cmd_try_inv in H as [([] & Hb & ->)|(e & w1 & evs1 & Hb & Hh)].
  - apply three_lookups_inv in Hb as [(e & He & _)|(g & p & a & w1 & evs2 & -> & Hk)];
      [discriminate|].
    write_inv Hk. record_case.
  - apply record_handlers_inv in Hh.
    apply three_lookups_inv in Hb as [(e' & He & Hs)|(g & p & a & w2 & evs2 & -> & Hk)].
    + injection He as <-.
      destruct Hs as [->|[(g & ->)|(g & p & ->)]];
        (destruct Hh as [(m & [->| ->] & -> & ->)|(-> & -> & Hne)]); record_case.
    + write_inv Hk.
      destruct Hh as [(m & [->| ->] & -> & ->)|(-> & -> & Hne)]; record_case.
Qed.

Lemma save_topic_completion_run t y now_ rec w w' evs r :
  well_formed_topic_record rec ->
  save_topic_completion world database t y now_ rec w = (w', evs, r) ->
  inner_run y evs r /\ (forall e, r = Raise e -> isinstance_exn e Exception = false).
Proof.
  intros [Hpar Hrec] H. unfold save_topic_completion in H.
  apply cmd_try_inv in H as [([] & Hb & ->)|(e & w1 & evs1 & Hb & Hh)].
  - apply three_lookups_inv in Hb as [(e & He & _)|(g & p & a & w1 & evs2 & -> & Hk)];
      [discriminate|].
    write_inv Hk. record_case.
  - apply record_handlers_inv in Hh.
    apply three_lookups_inv in Hb as [(e' & He & Hs)|(g & p & a & w2 & evs2 & -> & Hk)].
    + injection He as <-.
      destruct Hs as [->|[(g & ->)|(g & p & ->)]];
        (destruct Hh as [(m & [->| ->] & -> & ->)|(-> & -> & Hne)]); record_case.
    + write_inv Hk.
      destruct Hh as [(m & [->| ->] & -> & ->)|(-> & -> & Hne)]; record_case.
Qed.

(** ** The work on a worksheet *)

Lemma extracted_records_well_formed wks data :
  extract_worksheet_data wks = Return data ->
  (forall x, In x (period_progress data) -> well_formed_progress_record x)
  /\ (forall x, In x (topic_completion data) -> well_formed_topic_record x).
Proof.
  intros H. destruct (get_as_df wks) as [e|df] eqn:Hdf.
  - unfold extract_worksheet_data in H. rewrite Hdf in H.
    destruct (isinstance_exn e Exception); [|discriminate].
    injection H as <-. split; intros x [].
  - destruct (extract_trace wks df data Hdf H) as (evs & Htr & Hpp & Htc).
    destruct (trace_records_well_formed _ _ _ Htr) as [Hp Ht].
    rewrite Hpp, Htc. split; intros x Hx.
    + now destruct (Hp x Hx).
    + destruct (Ht x Hx) as (_ & H1 & H2 & H3 & H4 & H5).
      split; [exact H1|]. repeat split; assumption.
Qed.

Lemma process_worksheet_run t y sh title w w' evs r :
  process_worksheet world database timezone_now worksheet_by_title t y sh title w
  = (w', evs, r) ->
  inner_run y evs r /\ (forall e, r = Raise e -> isinstance_exn e Exception = false).
Proof.
  unfold process_worksheet. intros H.
  apply cmd_bind_inv in H as [(e & Hs & _)|([] & w1 & evs1 & evs2 & Hs & H & ->)];
    apply stdout_write_inv in Hs as [Hs1 Hs2]; [discriminate|]. subst evs1.
  match type of H with cmd_try ?b _ _ = _ => set (body := b) in * end.
  assert (Hbody : forall w w' evs (r : res unit),
             body w = (w', evs, r) -> inner_run y evs r).
  { clear. intros w w' evs r H. unfold body in H.
    apply cmd_bind_inv in H as [(e & Hg & ->)|(wks & w1 & evs1 & evs2 & Hg & H & ->)];
      unfold get_worksheet in Hg; injection Hg as <- <- Hg.
    { now apply inner_run_plain. }
    apply (inner_run_app y _ wks); [now apply inner_run_plain|].
    apply cmd_bind_inv in H as [(e & Hx & ->)|(data & w2 & evs3 & evs4 & Hx & H & ->)];
      unfold pure in Hx; injection Hx as <- <- Hx.
    { apply inner_run_nil. }
    cbn [app]. destruct (extracted_records_well_formed _ _ Hx) as [Hp Ht].
    apply cmd_bind_inv in H as [(e & Hn & _)|(now_ & w3 & evs5 & evs6 & Hn & H & ->)];
      unfold now in Hn; injection Hn as <- <- Hn; [discriminate|].
    cbn [app].
    apply cmd_bind_inv in H as [(e & Hl & ->)|([] & w4 & evs7 & evs8 & Hl & H & ->)].
    - apply (inner_run_for_each y _ _ _ _ _ _ (fun a w1 w2 run r1 Hin Hb =>
               proj1 (save_period_progress_run t y _ a w1 w2 run r1 (Hp a Hin) Hb)) Hl).
    - apply (inner_run_app y _ tt).
      + apply (inner_run_for_each y _ _ _ _ _ _ (fun a w1 w2 run r1 Hin Hb =>
               proj1 (save_period_progress_run t y _ a w1 w2 run r1 (Hp a Hin) Hb)) Hl).
      + apply (inner_run_for_each y _ _ _ _ _ _ (fun a w1 w2 run r1 Hin Hb =>
               proj1 (save_topic_completion_run t y _ a w1 w2 run r1 (Ht a Hin) Hb)) H). }
  apply try_report_inv in H
    as [[Hb ->]|[(e & evs1 & Hb & He & -> & ->)|(e & Hb & He & ->)]].
  - split; [|discriminate].
    apply (inner_run_app y _ tt); [now apply inner_run_plain|]. now apply (Hbody _ _ _ _ Hb).
  - split; [|discriminate].
    apply (inner_run_app y _ tt); [now apply inner_run_plain|].
    apply (inner_run_caught y (A := unit) evs1 e); [now apply (Hbody _ _ _ _ Hb)|exact He|reflexivity].
  - split; [|intros e' E; injection E as <-; exact He].
    apply (inner_run_app y _ tt); [now apply inner_run_plain|]. now apply (Hbody _ _ _ _ Hb).
Qed.

(** ** The work on a teacher *)

Lemma extract_sheet_key_chars url : forall key,
  extract_sheet_key_from_url url = Some key -> forallb is_key_char key = true.
Proof.
  induction url as [|c t IH]; intros key H; rewrite extract_sheet_key_unfold in H.
  - destruct (key_at []) eqn:E; [|discriminate]. injection H as ->.
    now destruct (key_at_sound _ _ E) as (_ & Hk & _).
  - destruct (key_at (c :: t)) eqn:E.
    + injection H as ->. now destruct (key_at_sound _ _ E) as (_ & Hk & _).
    + now apply IH.
Qed.

Lemma check_worksheets_calls hc ev nc th ct wkss : forall acc calls out,
  check_worksheets token_set_ratio hc ev nc th ct wkss acc = (calls, out) ->
  forallb cell_or_ratio calls = true.
Proof.
  induction wkss as [|wks rest IH]; intros acc calls out H.
  - cbn in H. injection H as <- <-. reflexivity.
  - cbn [check_worksheets] in H.
    apply io_bind_call in H as [(e & Hr & -> & ->)|(h & calls1 & Hr & H & ->)];
      [reflexivity|].
    cbn [forallb cell_or_ratio andb].
    destruct h as [| | | |h| | |]; try (exact (IH _ _ _ H)).
    destruct (negb _); [exact (IH _ _ _ H)|].
    apply io_bind_call in H as [(e & Hr2 & -> & ->)|(n & calls2 & Hr2 & H & ->)];
      [reflexivity|].
    cbn [forallb cell_or_ratio andb].
    destruct n as [| | | |n| | |]; try (exact (IH _ _ _ H)).
    destruct (is_nil (py_strip n)); [exact (IH _ _ _ H)|].
    destruct (_ || _); [exact (IH _ _ _ H)|].
    apply io_bind_call in H as [(e & Hr3 & -> & ->)|(score & calls3 & Hr3 & H & ->)];
      [reflexivity|].
    cbn [forallb cell_or_ratio andb].
    destruct (_ <=? _)%Z; exact (IH _ _ _ H).
Qed.

Lemma validator_calls url path hc ev nc th calls out :
  find_valid_teacher_worksheets authorize token_set_ratio url path hc ev nc th
  = (calls, out) ->
  (forall y, validator_events_ok y url (map Sheets calls))
  /\ (forall titles, out = Return titles ->
        exists key, extract_sheet_key_from_url url = Some key).
Proof.
  assert (Hloop : forall y calls, forallb cell_or_ratio calls = true ->
            Forall (event_ok y) (map Sheets calls)
            /\ Forall (fun ev => event_objects ev = None) (map Sheets calls)
            /\ announced (map Sheets calls) = [] /\ balanced (map Sheets calls)
            /\ filter is_authorize (map Sheets calls) = []).
  { intros y cs. induction cs as [|c cs IH]; [repeat split; constructor|].
    cbn [forallb]. intros H. apply andb_true_iff in H as [Hc H].
    destruct (IH H) as (I1 & I2 & I3 & I4 & I5).
    destruct c; try discriminate; cbn [map filter is_authorize];
      (split; [constructor; [repeat split; discriminate|exact I1]|]);
      (split; [constructor; [reflexivity|exact I2]|]);
      (split; [exact I3|]); (split; [exact I4|exact I5]). }
  unfold find_valid_teacher_worksheets.
  destruct (extract_sheet_key_from_url url) as [key|] eqn:Hkey.
  2:{ intros H. injection H as <- <-. split; [|discriminate].
      intros y. unfold validator_events_ok. rewrite Hkey. cbn [map].
      repeat split; apply Forall_nil. }
  pose proof (extract_sheet_key_nonempty _ _ Hkey) as Hne.
  pose proof (extract_sheet_key_chars _ _ Hkey) as Hchars.
  unfold validator_events_ok. rewrite Hkey.
  destruct key as [|k key]; [congruence|]. cbn [is_some].
  unfold get_pygsheets_client. intros H.
  assert (Hopen : forall y, event_ok y (Sheets (CallOpenByKey (k :: key)))).
  { intros y. split; [discriminate|]. split; [exact I|].
    cbn [opened_with_key is_nil negb andb]. exact Hchars. }
  apply io_bind_call in H as [(e & Hr & -> & ->)|(gc & calls1 & Hgc & H & ->)].
  { split; [|discriminate]. intros y. cbn [map]. explicit_ok. }
  apply io_bind_call in H as [(e & Hr & -> & ->)|(sh & calls2 & Hsh & H & ->)].
  { split; [|discriminate]. intros y. cbn [map]. explicit_ok. }
  split; [|intros; eauto].
  assert (Hc2 : forallb cell_or_ratio
                  (match calls2 with CallWorksheets :: cs => cs | cs => cs end) = true
                /\ exists cs, calls2 = CallWorksheets :: cs).
  { destruct (worksheets_pass token_set_ratio hc ev nc th sh) as [calls3 r3] eqn:Hpass.
    assert (calls2 = calls3).
    { unfold wrap_worksheet_errors in H. destruct r3 as [e|a].
      - destruct (isinstance_exn e ImportError);
          [|destruct (isinstance_exn e Exception)]; now injection H as <- _.
      - now injection H as <- _. }
    subst calls3. unfold worksheets_pass in Hpass.
    apply io_bind_call in Hpass as [(e & Hr & -> & ->)|(wkss & calls4 & Hw & Hpass & ->)].
    - split; [reflexivity|eauto].
    - split; [|eauto]. exact (check_worksheets_calls _ _ _ _ _ _ _ _ _ Hpass). }
  destruct Hc2 as [Hc2 (cs & ->)]. intros y.
  destruct (Hloop y cs Hc2) as (I1 & I2 & I3 & I4 & I5).
  cbn [map filter is_authorize]. rewrite I5.
  split; [constructor; [explicit_ok|constructor; [apply Hopen|constructor;
                                                  [explicit_ok|exact I1]]]|].
  split; [repeat constructor; exact I2|].
  split; [exact I3|]. split; [exact I4|reflexivity].
Qed.

Lemma inner_run_open y {A} key (r : res A) :
  key <> [] -> forallb is_key_char key = true ->
  inner_run y [Sheets (CallOpenByKey key)] r.
Proof.
  intros Hne Hk. split.
  { constructor; [|constructor]. split; [discriminate|]. split; [exact I|].
    cbn [opened_with_key]. rewrite Hk. destruct key; [congruence|reflexivity]. }
  split; [apply guarded_silent; now constructor|].
  split; [split; reflexivity|]. intros _. reflexivity.
Qed.

Lemma teacher_run_intro y t evs0 rest tail (rb r : res unit) :
  validator_events_ok y (google_sheet_url t) evs0 ->
  inner_run y rest rb -> inner_run y tail (Return tt) ->
  (r = Return tt -> caught rb) ->
  (forall e, r = Raise e -> isinstance_exn e Exception = false) ->
  teacher_run y t
    ([Stdout (ProcessingTeacher (full_name t))] ++ (evs0 ++ rest) ++ tail) r.
Proof.
  intros (V1 & V2 & V3 & V4 & V5) (R1 & R2 & [R3 R4] & R5) (T1 & T2 & [T3 T4] & T5)
    Hret Hraise.
  split.
  { repeat (apply Forall_app; split); try assumption. explicit_ok. }
  split.
  { repeat apply guarded_app; try assumption.
    - apply guarded_silent. explicit_ok.
    - now apply guarded_silent. }
  split.
  { rewrite !announced_app, V3, R4, T4. reflexivity. }
  split.
  { rewrite !filter_app, !length_app, V5, R3, T3. cbn. lia. }
  split; [|exact Hraise].
  intros Hr. repeat apply balanced_app; try assumption.
  - reflexivity.
  - apply R5. auto.
  - apply T5, caught_Return.
Qed.

Lemma process_teacher_run gc y t w w' evs r :
  process_teacher world database timezone_now authorize token_set_ratio
    open_by_key_none worksheet_by_title SERVICE_ACCOUNT_FILE gc y t w
  = (w', evs, r) ->
  teacher_run y t evs r.
Proof.
  unfold process_teacher. intros H.
  apply cmd_bind_inv in H as [(e & Hs & _)|([] & w1 & evs1 & evs2 & Hs & H & ->)];
    apply stdout_write_inv in Hs as [Hs1 Hs2]; [discriminate|]. subst evs1.
  match type of H with cmd_try ?b _ _ = _ => set (body := b) in * end.
  assert (Hbody : forall w w' evs (r : res unit),
             body w = (w', evs, r) ->
             exists evs0 rest,
               evs = evs0 ++ rest
               /\ validator_events_ok y (google_sheet_url t) evs0
               /\ inner_run y rest r).
  { clear H. intros w0 w0' evs r0 H. unfold body in H.
    destruct (find_valid_teacher_worksheets authorize token_set_ratio
                (google_sheet_url t) SERVICE_ACCOUNT_FILE (lit "E3") (lit "DOCENTE")
                (lit "E4") 80) as [calls out] eqn:Hfv.
    destruct (validator_calls _ _ _ _ _ _ _ _ Hfv) as [Hev Hkey].
    apply cmd_bind_inv in H as [(e & Hv & ->)|(titles & w2 & evs0 & evs3 & Hv & H & ->)];
      apply sheets_inv in Hv as [-> Hout]; cbn [fst snd] in Hout.
    - exists (map Sheets calls), []. rewrite app_nil_r. split; [reflexivity|].
      split; [apply Hev|apply inner_run_nil].
    - exists (map Sheets calls), evs3. split; [reflexivity|]. split; [apply Hev|].
      destruct (is_nil titles).
      + apply stdout_write_inv in H as [-> ->]. now apply inner_run_plain.
      + destruct (Hkey titles (eq_sym Hout)) as (key & Hk). rewrite Hk in H.
        cbn [open_sheet] in H.
        pose proof (extract_sheet_key_nonempty _ _ Hk) as Hne.
        pose proof (extract_sheet_key_chars _ _ Hk) as Hchars.
        apply cmd_bind_inv in H as [(e & Ho & ->)|(sh & w3 & evs4 & evs5 & Ho & H & ->)];
          apply sheets_inv in Ho as [-> _]; cbn [io_call fst map].
        * now apply inner_run_open.
        * apply (inner_run_app y _ sh); [now apply inner_run_open|].
          apply (inner_run_for_each y _ _ _ _ _ _ (fun a w1 w2 run r1 Hin Hb =>
                   proj1 (process_worksheet_run t y sh a w1 w2 run r1 Hb)) H). }
  apply try_report_inv in H
    as [[Hb ->]|[(e & evs1 & Hb & He & -> & ->)|(e & Hb & He & ->)]];
    destruct (Hbody _ _ _ _ Hb) as (evs0 & rest & -> & Hv & Hr).
  - rewrite <- (app_nil_r (evs0 ++ rest)).
    apply (teacher_run_intro y t evs0 rest [] (Return tt)); auto.
    + apply inner_run_nil.
    + intros _. apply caught_Return.
    + discriminate.
  - apply (teacher_run_intro y t evs0 rest _ (Raise e)); auto.
    + now apply inner_run_plain.
    + intros _ e' E. injection E as <-. exact He.
    + discriminate.
  - rewrite <- (app_nil_r (evs0 ++ rest)).
    apply (teacher_run_intro y t evs0 rest [] (Raise e)); auto.
    + apply inner_run_nil.
    + discriminate.
    + intros e' E. injection E as <-. exact He.
Qed.

(** ** The command *)

Lemma handle_anatomy w w' evs r :
  handle world database timezone_now authorize token_set_ratio open_by_key_none
    worksheet_by_title SERVICE_ACCOUNT_FILE w = (w', evs, r) ->
  match database ActiveAcademicYear w with
  | (w1, Raise e) =>
      if isinstance_exn e AcademicYear_DoesNotExist
      then evs = [Stdout Starting; Query ActiveAcademicYear (Raise e);
                  Stderr NoActiveYear] /\ r = Return tt
      else if isinstance_exn e AcademicYear_MultipleObjectsReturned
      then evs = [Stdout Starting; Query ActiveAcademicYear (Raise e);
                  Stderr MultipleActiveYears] /\ r = Return tt
      else evs = [Stdout Starting; Query ActiveAcademicYear (Raise e)] /\ r = Raise e
  | (w1, Return y) =>
      match authorize SERVICE_ACCOUNT_FILE with
      | Raise e =>
          evs = [Stdout Starting; Query ActiveAcademicYear (Return y);
                 Sheets (CallAuthorize SERVICE_ACCOUNT_FILE)] /\ r = Raise e
      | Return gc =>
          match database ActiveTeachers w1 with
          | (w2, Raise e) =>
              evs = [Stdout Starting; Query ActiveAcademicYear (Return y);
                     Sheets (CallAuthorize SERVICE_ACCOUNT_FILE);
                     Query ActiveTeachers (Raise e)] /\ r = Raise e
          | (w2, Return teachers) =>
              exists runs,
                evs = [Stdout Starting; Query ActiveAcademicYear (Return y);
                       Sheets (CallAuthorize SERVICE_ACCOUNT_FILE);
                       Query ActiveTeachers (Return teachers)]
                      ++ List.concat runs
                      ++ (if returned r then [Stdout Finished] else [])
                /\ (forall run, In run runs ->
                      exists t r1, In t teachers /\ teacher_run y t run r1)
                /\ (r = Return tt ->
                      Forall2 (fun t run => teacher_run y t run (Return tt)) teachers runs)
                /\ (forall e, r = Raise e -> isinstance_exn e Exception = false)
          end
      end
  end.
Proof.
  intros H.
  cbv [handle cmd_bind cmd_try execute stdout_write stderr_write cmd_ret] in H.
  destruct (database ActiveAcademicYear w) as [w1 [e|y]] eqn:Hy.
  - cbv [select_handler existsb] in H. rewrite !orb_false_r in H.
    destruct (isinstance_exn e AcademicYear_DoesNotExist);
      [|destruct (isinstance_exn e AcademicYear_MultipleObjectsReturned)];
      injection H as <- <- <-; auto.
  - cbv [sheets get_pygsheets_client io_call fst snd map] in H.
    destruct (authorize SERVICE_ACCOUNT_FILE) as [e|gc].
    { injection H as <- <- <-. auto. }
    destruct (database ActiveTeachers w1) as [w2 [e|teachers]].
    { injection H as <- <- <-. auto. }
    match type of H with
    | context [for_each teachers ?b w2] =>
        destruct (for_each teachers b w2) as [[w3 evsl] rl] eqn:Hloop
    end.
    destruct (for_each_inv _ _ _ _ _ _ _ Hloop) as (runs & -> & Hruns & Hret).
    exists runs.
    assert (Hall : forall run, In run runs ->
                     exists t r1, In t teachers /\ teacher_run y t run r1).
    { intros run Hin. destruct (Hruns run Hin) as (t & wa & wb & r1 & Ht & Hb & _).
      exists t, r1. split; [exact Ht|]. exact (process_teacher_run _ _ _ _ _ _ _ Hb). }
    destruct rl as [e|[]].
    + injection H as <- <- <-. cbn [returned]. rewrite app_nil_r.
      split; [reflexivity|]. split; [exact Hall|]. split; [discriminate|].
      intros e' E. injection E as <-.
      apply for_each_raises in Hloop as (t & wa & wb & run & _ & Hb).
      now destruct (process_teacher_run _ _ _ _ _ _ _ Hb) as (_ & _ & _ & _ & _ & Hesc);
        apply Hesc.
    + injection H as <- <- <-. cbn [returned].
      split; [reflexivity|]. split; [exact Hall|]. split; [|discriminate].
      intros _. specialize (Hret eq_refl).
      revert Hret. apply Forall2_impl. intros t run (wa & wb & Hb).
      exact (process_teacher_run _ _ _ _ _ _ _ Hb).
Qed.

Lemma Forall_concat_In {A} (P : A -> Prop) ls :
  (forall l, In l ls -> Forall P l) -> Forall P (List.concat ls).
Proof.
  induction ls as [|l ls IH]; intros H; [constructor|]. cbn [List.concat].
  apply Forall_app. split; [apply H; now left|]. apply IH. intros x Hx. apply H. now right.
Qed.

Lemma Forall2_In_r {A B} (R : A -> B -> Prop) l l' b :
  Forall2 R l l' -> In b l' -> exists a, In a l /\ R a b.
Proof.
  induction 1 as [|a b' l l' Hab _ IH]; intros Hin; [destruct Hin|].
  destruct Hin as [<-|Hin].
  - exists a. split; [now left|exact Hab].
  - destruct (IH Hin) as (a' & Ha & Hr). exists a'. split; [now right|exact Hr].
Qed.

(** What holds of every run of the command. *)
Lemma handle_facts w w' evs r :
  handle world database timezone_now authorize token_set_ratio open_by_key_none
    worksheet_by_title SERVICE_ACCOUNT_FILE w = (w', evs, r) ->
  Forall (fun ev => well_formed_request ev /\ opened_with_key ev = true) evs
  /\ (forall w1 y, database ActiveAcademicYear w = (w1, Return y) ->
        Forall (fun ev => forall y', event_year ev = Some y' -> y' = y) evs)
  /\ guarded evs
  /\ (r = Return tt -> balanced evs).
Proof.
  intros H. apply handle_anatomy in H.
  assert (Hsimple : forall l : list event,
            forallb (fun ev => match ev with
                               | Stdout m => plain (Stdout m)
                               | Stderr m => plain (Stderr m)
                               | Query ActiveAcademicYear _ | Query ActiveTeachers _
                               | Sheets (CallAuthorize _) => true
                               | _ => false
                               end) l = true ->
            Forall (fun ev => well_formed_request ev /\ opened_with_key ev = true) l
            /\ (forall y, Forall (fun ev => forall y', event_year ev = Some y' -> y' = y) l)
            /\ Forall (fun ev => event_objects ev = None) l
            /\ balanced l).
  { induction l as [|ev l IH]; [repeat split; constructor|].
    cbn [forallb]. intros Hl. apply andb_true_iff in Hl as [Hev Hl].
    destruct (IH Hl) as (I1 & I2 & I3 & I4).
    assert (Hone : (well_formed_request ev /\ opened_with_key ev = true)
                   /\ event_year ev = None /\ event_objects ev = None
                   /\ balanced [ev]).
    { destruct ev as [c| | |q o|m|m]; try discriminate.
      - destruct c; try discriminate; repeat split.
      - destruct q; try discriminate; repeat split.
      - destruct m; try discriminate; repeat split.
      - destruct m; try discriminate; repeat split. }
    destruct Hone as (H1 & H2 & H3 & H4).
    split; [now constructor|]. split.
    { intros y. constructor; [|apply I2]. intros y' E. congruence. }
    split; [now constructor|]. exact (balanced_app [ev] l H4 I4). }
  destruct (database ActiveAcademicYear w) as [w1 [e|y]].
  { assert (Hl : forallb (fun ev => match ev with
                               | Stdout m => plain (Stdout m)
                               | Stderr m => plain (Stderr m)
                               | Query ActiveAcademicYear _ | Query ActiveTeachers _
                               | Sheets (CallAuthorize _) => true
                               | _ => false
                               end) evs = true).
    { destruct (isinstance_exn e AcademicYear_DoesNotExist);
        [|destruct (isinstance_exn e AcademicYear_MultipleObjectsReturned)];
        destruct H as [-> _]; reflexivity. }
    destruct (Hsimple evs Hl) as (S1 & S2 & S3 & S4).
    split; [exact S1|]. split; [intros w2 y Hy; discriminate|].
    split; [now apply guarded_silent|]. auto. }
  destruct (authorize SERVICE_ACCOUNT_FILE) as [e|gc].
  { destruct H as [-> ->].
    match goal with
    | |- Forall _ ?l /\ _ => destruct (Hsimple l eq_refl) as (S1 & S2 & S3 & S4)
    end.
    split; [exact S1|]. split; [intros w2 y0 Hy; injection Hy as _ <-; apply S2|].
    split; [now apply guarded_silent|]. auto. }
  destruct (database ActiveTeachers w1) as [w2 [e|teachers]].
  { destruct H as [-> ->].
    match goal with
    | |- Forall _ ?l /\ _ => destruct (Hsimple l eq_refl) as (S1 & S2 & S3 & S4)
    end.
    split; [exact S1|]. split; [intros w3 y0 Hy; injection Hy as _ <-; apply S2|].
    split; [now apply guarded_silent|]. auto. }
  destruct H as (runs & -> & Hall & Hret & Hesc).
  destruct (Hsimple [Stdout Starting;
              Query ActiveAcademicYear (Return y);
              Sheets (CallAuthorize SERVICE_ACCOUNT_FILE);
              Query ActiveTeachers (Return teachers)] eq_refl) as (S1 & S2 & S3 & S4).
  assert (Htail : forallb (fun ev => match ev with
                               | Stdout m => plain (Stdout m)
                               | Stderr m => plain (Stderr m)
                               | Query ActiveAcademicYear _ | Query ActiveTeachers _
                               | Sheets (CallAuthorize _) => true
                               | _ => false
                               end) (if returned r then [Stdout Finished] else []) = true)
    by (destruct (returned r); reflexivity).
  destruct (Hsimple _ Htail) as (T1 & T2 & T3 & T4).
  split; [|split; [|split]].
  - repeat (apply Forall_app; split); try assumption.
    apply Forall_concat_In. intros run Hin.
    destruct (Hall run Hin) as (t & r1 & _ & (Hok & _)).
    revert Hok. apply Forall_impl. intros ev (_ & H2 & H3). auto.
  - intros w3 y0 Hy. injection Hy as _ <-.
    repeat (apply Forall_app; split); try apply S2; try apply T2.
    apply Forall_concat_In. intros run Hin.
    destruct (Hall run Hin) as (t & r1 & _ & (Hok & _)).
    revert Hok. apply Forall_impl. intros ev (H1 & _). exact H1.
  - repeat apply guarded_app; try (now apply guarded_silent).
    apply guarded_concat. intros run Hin.
    now destruct (Hall run Hin) as (t & r1 & _ & (_ & Hg & _)).
  - intros Hr. repeat apply balanced_app; try assumption.
    apply balanced_concat. intros run Hin.
    destruct (Forall2_In_r _ _ _ _ (Hret Hr) Hin) as (t & _ & (_ & _ & _ & _ & Hb & _)).
    now apply Hb.
Qed.

(** What the runs of the loop over the teachers announce and authorize. *)
Lemma teacher_runs_announced y teachers runs :
  Forall2 (fun t run => teacher_run y t run (Return tt)) teachers runs ->
  announced (List.concat runs) = map full_name teachers
  /\ List.length (filter is_authorize (List.concat runs))
     = List.length (filter (fun t => is_some (extract_sheet_key_from_url
                                                (google_sheet_url t))) teachers).
Proof.
  induction 1 as [|t run teachers runs (_ & _ & Ha & Hn & _) _ [IH1 IH2]];
    [split; reflexivity|].
  cbn [List.concat map filter].
  rewrite announced_app, filter_app, length_app, Ha, Hn, IH1, IH2. split; [reflexivity|].
  destruct (is_some _); reflexivity.
Qed.

(** X20.  A run is about one academic year: every lookup of a period
    and every write of a run of the command is for the academic year that
    the lookup of the active year returned at its start. *)
Theorem one_academic_year w w1 y w' evs r :
  database ActiveAcademicYear w = (w1, Return y) ->
  handle world database timezone_now authorize token_set_ratio open_by_key_none
    worksheet_by_title SERVICE_ACCOUNT_FILE w = (w', evs, r) ->
  Forall (fun ev => forall y', event_year ev = Some y' -> y' = y) evs.
Proof.
  intros Hy H. destruct (handle_facts _ _ _ _ H) as (_ & Hyear & _).
  exact (Hyear _ _ Hy).
Qed.

(** X21.  Without an active academic year the command touches nothing:
    when the lookup of the active year raises, the run consists of reports
    and of that lookup only (no teacher is read, no sheet is opened,
    nothing is written); the command returns when the exception is
    [AcademicYear.DoesNotExist] or [AcademicYear.MultipleObjectsReturned],
    and raises that exception otherwise. *)
Theorem nothing_without_academic_year w w1 e w' evs r :
  database ActiveAcademicYear w = (w1, Raise e) ->
  handle world database timezone_now authorize token_set_ratio open_by_key_none
    worksheet_by_title SERVICE_ACCOUNT_FILE w = (w', evs, r) ->
  forallb preliminary evs = true
  /\ r = (if existsb (isinstance_exn e)
               [AcademicYear_DoesNotExist; AcademicYear_MultipleObjectsReturned]
          then Return tt else Raise e).
Proof.
  intros Hy H. apply handle_anatomy in H. rewrite Hy in H. cbn [existsb].
  rewrite orb_false_r.
  destruct (isinstance_exn e AcademicYear_DoesNotExist);
    [|destruct (isinstance_exn e AcademicYear_MultipleObjectsReturned)];
    destruct H as [-> ->]; split; reflexivity.
Qed.


(** X23.  Every active teacher gets a turn: when the command returns after
    finding the active year, it has announced the teachers that the query
    of the active teachers returned, each once and in that order, whatever
    failed for the teachers before, and its last report is the one that
    the update finished. *)
Theorem every_teacher_announced w w1 y w2 teachers w' evs :
  database ActiveAcademicYear w = (w1, Return y) ->
  database ActiveTeachers w1 = (w2, Return teachers) ->
  handle world database timezone_now authorize token_set_ratio open_by_key_none
    worksheet_by_title SERVICE_ACCOUNT_FILE w = (w', evs, Return tt) ->
  announced evs = map full_name teachers
  /\ exists evs', evs = evs' ++ [Stdout Finished].
Proof.
  intros Hy Ht H. apply handle_anatomy in H. rewrite Hy in H.
  destruct (authorize SERVICE_ACCOUNT_FILE) as [e1|gc]; [now destruct H|].
  rewrite Ht in H. destruct H as (runs & -> & _ & Hret & _).
  destruct (teacher_runs_announced _ _ _ (Hret eq_refl)) as [Ha _]. split.
  - rewrite !announced_app, Ha. cbn [returned]. unfold announced.
    cbn [flat_map app]. apply app_nil_r.
  - cbn [returned]. eexists. rewrite app_assoc. reflexivity.
Qed.

(** X24.  The sheet service is authorized again for every teacher: in a
    run that returns after finding the active year, the number of
    authorizations is one, for the client of the command, plus one for
    every active teacher whose URL holds a sheet key. *)
Theorem authorize_per_teacher w w1 y w2 teachers w' evs :
  database ActiveAcademicYear w = (w1, Return y) ->
  database ActiveTeachers w1 = (w2, Return teachers) ->
  handle world database timezone_now authorize token_set_ratio open_by_key_none
    worksheet_by_title SERVICE_ACCOUNT_FILE w = (w', evs, Return tt) ->
  List.length (filter is_authorize evs)
  = 1 + List.length (filter (fun t => is_some (extract_sheet_key_from_url
                                                 (google_sheet_url t))) teachers).
Proof.
  intros Hy Ht H. apply handle_anatomy in H. rewrite Hy in H.
  destruct (authorize SERVICE_ACCOUNT_FILE) as [e1|gc]; [now destruct H|].
  rewrite Ht in H. destruct H as (runs & -> & _ & Hret & _).
  destruct (teacher_runs_announced _ _ _ (Hret eq_refl)) as [_ Hn].
  rewrite !filter_app, !length_app, Hn. cbn [returned filter is_authorize List.length].
  lia.
Qed.

(** X25.  A spreadsheet is only ever opened by a key: in no run does the
    command call [open_by_key] without a key, with an empty key or with a
    key that holds other characters than letters, digits, '-' and '_'. *)
Theorem spreadsheets_opened_by_key w w' evs r :
  handle world database timezone_now authorize token_set_ratio open_by_key_none
    worksheet_by_title SERVICE_ACCOUNT_FILE w = (w', evs, r) ->
  forallb opened_with_key evs = true.
Proof.
  intros H. destruct (handle_facts _ _ _ _ H) as (Hev & _).
  apply forallb_forall. rewrite Forall_forall in Hev. intros ev Hin.
  now destruct (Hev ev Hin).
Qed.

(** X26.  Nothing is written that was not looked up: every write of a
    run ([update_or_create] of a period progress or of a topic
    completion) comes directly after the lookups of a grade level, of a
    period of the academic year of the write and of a section, which all
    returned, and it refers to the very objects they returned. *)
Theorem writes_follow_lookups w w' evs r pre ev post y g p a :
  handle world database timezone_now authorize token_set_ratio open_by_key_none
    worksheet_by_title SERVICE_ACCOUNT_FILE w = (w', evs, r) ->
  evs = pre ++ ev :: post ->
  event_objects ev = Some (y, g, p, a) ->
  exists pre' c n c',
    pre = pre' ++ [ Query (GetGradeLevel c) (Return g);
                    Query (GetPeriodo y n) (Return p);
                    Query (GetParalelo c') (Return a) ].
Proof.
  intros H. destruct (handle_facts _ _ _ _ H) as (_ & _ & Hg & _).
  apply Hg.
Qed.

(** X27.  What reaches the database is well formed: in every run, a
    section is looked up by one of the codes A, B, C, D only, and every
    topic completion that is written has a title that is not empty, a
    title and a number without whitespace around them, and a completion
    date that is a calendar date that exists. *)
Theorem requests_well_formed w w' evs r :
  handle world database timezone_now authorize token_set_ratio open_by_key_none
    worksheet_by_title SERVICE_ACCOUNT_FILE w = (w', evs, r) ->
  Forall well_formed_request evs.
Proof.
  intros H. destruct (handle_facts _ _ _ _ H) as (Hev & _).
  revert Hev. apply Forall_impl. now intros ev [Hw _].
Qed.

(** X28.  No record is dropped in silence: when the command returns, every
    record it started on (by looking up its grade level) was either
    written or reported on [stderr] as a lookup error or a database
    error; the records started are as many as the writes that succeeded
    and the reports of records together. *)
Theorem records_accounted w w' evs :
  handle world database timezone_now authorize token_set_ratio open_by_key_none
    worksheet_by_title SERVICE_ACCOUNT_FILE w = (w', evs, Return tt) ->
  List.length (filter record_started evs)
  = List.length (filter record_written evs)
    + List.length (filter record_reported evs).
Proof.
  intros H. destruct (handle_facts _ _ _ _ H) as (_ & _ & _ & Hb).
  now apply Hb.
Qed.

End CommandRuns.

(** ** The example run *)

Lemma example_run : example_handle 0 = (13, example_trace, Return tt).
Proof. vm_compute. reflexivity. Qed.

Lemma one_academic_year_witness :
  Forall (fun ev => forall y', event_year ev = Some y' -> y' = example_year)
    example_trace.
Proof.
  exact (one_academic_year nat example_database example_now example_authorize
           example_matcher example_open_none example_by_title example_service_file
           0 1 example_year 13 example_trace (Return tt) eq_refl example_run).
Defined.

Lemma nothing_without_academic_year_witness :
  forallb preliminary (snd (fst (example_handle_without_year 0))) = true
  /\ snd (example_handle_without_year 0) = Return tt.
Proof.
  exact (nothing_without_academic_year nat database_without_year example_now
           example_authorize example_matcher example_open_none example_by_title
           example_service_file 0 1
           (Exn AcademicYear_DoesNotExist
              (lit "AcademicYear matching query does not exist."))
           (fst (fst (example_handle_without_year 0)))
           (snd (fst (example_handle_without_year 0)))
           (snd (example_handle_without_year 0)) eq_refl eq_refl).
Defined.


Lemma every_teacher_announced_witness :
  announced example_trace = map full_name [example_teacher_without_key; example_teacher]
  /\ exists evs', example_trace = evs' ++ [Stdout Finished].
Proof.
  exact (every_teacher_announced nat example_database example_now example_authorize
           example_matcher example_open_none example_by_title example_service_file
           0 1 example_year 2 [example_teacher_without_key; example_teacher]
           13 example_trace eq_refl eq_refl example_run).
Defined.

Lemma authorize_per_teacher_witness :
  List.length (filter is_authorize example_trace)
  = 1 + List.length
          (filter (fun t => is_some (extract_sheet_key_from_url (google_sheet_url t)))
             [example_teacher_without_key; example_teacher]).
Proof.
  exact (authorize_per_teacher nat example_database example_now example_authorize
           example_matcher example_open_none example_by_title example_service_file
           0 1 example_year 2 [example_teacher_without_key; example_teacher]
           13 example_trace eq_refl eq_refl example_run).
Defined.

Lemma spreadsheets_opened_by_key_witness :
  forallb opened_with_key example_trace = true.
Proof.
  exact (spreadsheets_opened_by_key nat example_database example_now example_authorize
           example_matcher example_open_none example_by_title example_service_file
           0 13 example_trace (Return tt) example_run).
Defined.

Lemma writes_follow_lookups_witness :
  exists pre' c n c',
    firstn 20 example_trace
    = pre' ++ [ Query (GetGradeLevel c) (Return example_grade);
                Query (GetPeriodo example_year n) (Return example_periodo);
                Query (GetParalelo c') (Return example_paralelo) ].
Proof.
  exact (writes_follow_lookups nat example_database example_now example_authorize
           example_matcher example_open_none example_by_title example_service_file
           0 13 example_trace (Return tt)
           (firstn 20 example_trace) (nth 20 example_trace (Stdout Starting))
           (skipn 21 example_trace)
           example_year example_grade example_periodo example_paralelo
           example_run eq_refl eq_refl).
Defined.

Lemma requests_well_formed_witness : Forall well_formed_request example_trace.
Proof.
  exact (requests_well_formed nat example_database example_now example_authorize
           example_matcher example_open_none example_by_title example_service_file
           0 13 example_trace (Return tt) example_run).
Defined.

Lemma records_accounted_witness :
  List.length (filter record_started example_trace)
  = List.length (filter record_written example_trace)
    + List.length (filter record_reported example_trace).
Proof.
  exact (records_accounted nat example_database example_now example_authorize
           example_matcher example_open_none example_by_title example_service_file
           0 13 example_trace example_run).
Defined.
